(** * A data-analysis dashboard: upload history, session counters, derived views

    The program is a single Streamlit script, [app.py].  It has one helper,
    [save_user_history], and one entry point, [main], which the framework
    executes from the top on every user interaction.  Everything else is a
    call into a library (json, pandas, plotly, streamlit).

    The development follows the script:
    - [Json]: the values [json.load] and [json.dump] exchange with the history
      file, with the text format of [json.dump]'s defaults and its reader;
    - [Frame]: the part of a pandas [DataFrame] the script looks at, with
      [describe] and [corr];
    - [Csv]: a reader for plain CSV text, for the scenarios;
    - [App]: [save_user_history] and [main] over an explicit world (session
      state, memo of the loader, files, page), in a state-and-exception
      monad; [main] is stated for any [pd.read_csv] and any [to_csv];
    - [Scenario]: the inputs of the scenarios;
    - the facts, module by module.

    Library behaviour is modelled where the script depends on it, and only on
    the fragment stated at each definition.  The text of a file is modelled
    with code points below 256.  The values [json.load] reads from it hold any
    code point and any number: a float literal is rounded to the nearest
    binary64 and written back with the shortest digits that read back, as
    [float] and [float.__repr__] do.  The float64 values of a dataset are
    exact rationals (rounding is not modelled); a standard deviation or a
    correlation, which takes a square root, is a real number. *)

From Stdlib Require Import String Ascii List Bool Arith ZArith NArith Lia.
From Stdlib Require Import Decimal DecimalFacts DecimalPos DecimalN.
From Stdlib Require Import QArith Qreduction Qround Reals Lqa.
Import ListNotations.

Set Warnings "-register-all".
Close Scope R_scope.
Close Scope Q_scope.
Local Open Scope string_scope.
Local Open Scope list_scope.

(** ** Exceptions and results *)

(** The exceptions the script can meet, by their Python class. *)
Inductive Exn : Type :=
| JSONDecodeError
| AttributeError
| EmptyDataError
| ParserError
| ValueError.

Definition Result (A : Type) : Type := (Exn + A)%type.

Definition ok {A} (a : A) : Result A := inr a.
Definition raise {A} (e : Exn) : Result A := inl e.

(** ** Characters *)

Definition code (c : ascii) : N := N_of_ascii c.

Abbreviation dquote := ("034"%char) (only parsing).
Abbreviation backslash := ("092"%char) (only parsing).

(** [py "..."] reads a literal written with single quotes in place of double
    quotes, so that JSON and CSV texts can be written down. *)
Fixpoint py (s : string) : string :=
  match s with
  | EmptyString => EmptyString
  | String c r => String (if (c =? "'")%char then dquote else c) (py r)
  end.

Module Json.

(** *** Values

    What [json.load] returns and [json.dump] accepts: [None], [bool], [int],
    [float], [str], [list] and [dict] with string keys.  A [dict] keeps its
    keys in insertion order; [JObj] lists them in that order. *)

(** A Python [str]: its code points. *)
Definition str : Type := list N.

(** The [str] of a text whose code points are below 256: a literal of this
    file, a file name, a timestamp. *)
Definition str_of (s : string) : str := map code (list_ascii_of_string s).

Coercion str_of : string >-> str.

Fixpoint str_eqb (a b : str) : bool :=
  match a, b with
  | [], [] => true
  | x :: a', y :: b' => (x =? y)%N && str_eqb a' b'
  | _, _ => false
  end.

(** A number literal with a fraction or an exponent, as [NUMBER_RE] splits
    it: sign, integer part, the digits of the fraction ([Nil] without one)
    and the exponent with its letter, its sign character and its digits. *)
Record exponent : Type := mkExp {
  e_upper : bool;
  e_sign : option bool;
  e_digits : uint
}.

Record float_tok : Type := mkTok {
  t_neg : bool;
  t_int : N;
  t_frac : uint;
  t_exp : option exponent
}.

(** A Python [float], named by the text [json.dump] writes for it: [NaN],
    [Infinity], [-Infinity], or the literal that [float.__repr__] gives. *)
Inductive pyfloat : Type :=
| PyNaN
| PyInf (neg : bool)
| PyNum (t : float_tok).

Definition nonnil (d : uint) : bool :=
  match d with
  | Nil => false
  | _ => true
  end.

(** The literal has a fraction or an exponent, and an exponent has digits. *)
Definition tok_ok (t : float_tok) : bool :=
  match t_exp t with
  | Some e => nonnil (e_digits e)
  | None => nonnil (t_frac t)
  end.

(** *** binary64 *)

Local Open Scope Z_scope.

(** A non-negative binary64 value: zero, a finite [m * 2^e] with
    [0 < m < 2^53] and [-1074 <= e], or infinity. *)
Inductive binary64 : Type :=
| BZero
| BFin (m e : Z)
| BInf.

Fixpoint uint_length (d : uint) : nat :=
  match d with
  | Nil => 0
  | D0 d | D1 d | D2 d | D3 d | D4 d | D5 d | D6 d | D7 d | D8 d | D9 d =>
      S (uint_length d)
  end.

(** The nearest binary64 to [num / den] ([0 < num], [0 < den]), ties to
    even, as [strtod] rounds. *)
Definition round_ratio (num den : Z) : binary64 :=
  let k := Z.log2 num - Z.log2 den in
  let above := if 0 <=? k then den * 2 ^ k <=? num else den <=? num * 2 ^ (- k) in
  let lg := if above then k else k - 1 in
  let e := Z.max (lg - 52) (-1074) in
  let n' := if 0 <=? e then num else num * 2 ^ (- e) in
  let d' := if 0 <=? e then den * 2 ^ e else den in
  let q := n' / d' in
  let r := n' mod d' in
  let q' := if (d' <? 2 * r) || ((d' =? 2 * r) && Z.odd q) then q + 1 else q in
  if q' =? 0 then BZero
  else if 1024 <=? e + Z.log2 q' then BInf
  else if q' =? 2 ^ 53 then BFin (2 ^ 52) (e + 1)
  else BFin q' e.

(** The binary64 nearest to [m * 10^e10], for a literal of [nd] digits. *)
Definition round_decimal (m e10 : Z) : binary64 :=
  if m =? 0 then BZero
  else
    let nd := Z.of_nat (uint_length (N.to_uint (Z.to_N m))) in
    if 310 <? nd + e10 then BInf
    else if nd + e10 <? -330 then BZero
    else if 0 <=? e10 then round_ratio (m * 10 ^ e10) 1
    else round_ratio m (10 ^ (- e10)).

Definition binary64_eqb (a b : binary64) : bool :=
  match a, b with
  | BZero, BZero => true
  | BInf, BInf => true
  | BFin m e, BFin m' e' => (m =? m') && (e =? e')
  | _, _ => false
  end.

(** The literal as a decimal: [mantissa * 10^exp10]. *)
Definition tok_mantissa (t : float_tok) : Z :=
  Z.of_N (t_int t) * 10 ^ Z.of_nat (uint_length (t_frac t))
  + Z.of_N (N.of_uint (t_frac t)).

Definition tok_exp10 (t : float_tok) : Z :=
  match t_exp t with
  | Some e =>
      match e_sign e with
      | Some true => - Z.of_N (N.of_uint (e_digits e))
      | _ => Z.of_N (N.of_uint (e_digits e))
      end
  | None => 0
  end - Z.of_nat (uint_length (t_frac t)).

(** [float(literal)], sign apart. *)
Definition tok_float (t : float_tok) : binary64 :=
  round_decimal (tok_mantissa t) (tok_exp10 t).

(** *** [float.__repr__]: the shortest digits that read back *)

(** [10^t <= num / den]. *)
Definition ge_pow10 (num den t : Z) : bool :=
  if 0 <=? t then den * 10 ^ t <=? num else den <=? num * 10 ^ (- t).

Fixpoint log10_up (fuel : nat) (num den t : Z) : Z :=
  match fuel with
  | O => t
  | S fuel =>
      if ge_pow10 num den (t + 1) then log10_up fuel num den (t + 1) else t
  end.

Fixpoint log10_down (fuel : nat) (num den t : Z) : Z :=
  match fuel with
  | O => t
  | S fuel =>
      if ge_pow10 num den t then t else log10_down fuel num den (t - 1)
  end.

(** [floor (log10 (num / den))]. *)
Definition log10_floor (num den : Z) : Z :=
  let t0 := ((Z.log2 num - Z.log2 den) * 30103) / 100000 in
  log10_up 4 num den (log10_down 4 num den t0).

(** The digits [c] and the exponent [s] of the decimal [c * 10^s] of [n]
    digits that is nearest to [x = m * 2^e], among those that read back as
    [x]; [None] when none of [n] digits does. *)
Definition candidate (m e : Z) (t : Z) (n : nat) : option (Z * Z) :=
  let num := if 0 <=? e then m * 2 ^ e else m in
  let den := if 0 <=? e then 1 else 2 ^ (- e) in
  let s := t - (Z.of_nat n - 1) in
  let a := if 0 <=? s then num else num * 10 ^ (- s) in
  let b := if 0 <=? s then den * 10 ^ s else den in
  let lo := a / b in
  let r := a mod b in
  if r =? 0 then Some (lo, s)
  else
    let ok_lo := binary64_eqb (round_decimal lo s) (BFin m e) in
    let ok_hi := binary64_eqb (round_decimal (lo + 1) s) (BFin m e) in
    match ok_lo, ok_hi with
    | true, true =>
        if 2 * r <? b then Some (lo, s)
        else if b <? 2 * r then Some (lo + 1, s)
        else if Z.even lo then Some (lo, s) else Some (lo + 1, s)
    | true, false => Some (lo, s)
    | false, true => Some (lo + 1, s)
    | false, false => None
    end.

Fixpoint shortest (m e t : Z) (n : nat) (fuel : nat) : Z * Z :=
  match fuel with
  | O => (m, e)
  | S fuel =>
      match candidate m e t n with
      | Some c => c
      | None => shortest m e t (S n) fuel
      end
  end.

(** Trailing zeros go to the exponent. *)
Fixpoint strip_zeros (fuel : nat) (c s : Z) : Z * Z :=
  match fuel with
  | O => (c, s)
  | S fuel =>
      if (c mod 10 =? 0) && negb (c =? 0) then strip_zeros fuel (c / 10) (s + 1)
      else (c, s)
  end.

Fixpoint zeros_then (n : nat) (d : uint) : uint :=
  match n with
  | O => d
  | S n => D0 (zeros_then n d)
  end.

(** The last [n] digits of [d], and the digits before them. *)
Fixpoint uint_app (a b : uint) : uint :=
  match a with
  | Nil => b
  | D0 a => D0 (uint_app a b)
  | D1 a => D1 (uint_app a b)
  | D2 a => D2 (uint_app a b)
  | D3 a => D3 (uint_app a b)
  | D4 a => D4 (uint_app a b)
  | D5 a => D5 (uint_app a b)
  | D6 a => D6 (uint_app a b)
  | D7 a => D7 (uint_app a b)
  | D8 a => D8 (uint_app a b)
  | D9 a => D9 (uint_app a b)
  end.

Fixpoint uint_split (n : nat) (d : uint) : uint * uint :=
  match n with
  | O => (Nil, d)
  | S n =>
      match d with
      | Nil => (Nil, Nil)
      | D0 r => let (a, b) := uint_split n r in (D0 a, b)
      | D1 r => let (a, b) := uint_split n r in (D1 a, b)
      | D2 r => let (a, b) := uint_split n r in (D2 a, b)
      | D3 r => let (a, b) := uint_split n r in (D3 a, b)
      | D4 r => let (a, b) := uint_split n r in (D4 a, b)
      | D5 r => let (a, b) := uint_split n r in (D5 a, b)
      | D6 r => let (a, b) := uint_split n r in (D6 a, b)
      | D7 r => let (a, b) := uint_split n r in (D7 a, b)
      | D8 r => let (a, b) := uint_split n r in (D8 a, b)
      | D9 r => let (a, b) := uint_split n r in (D9 a, b)
      end
  end.

(** The exponent of [repr]: a sign and two digits at least. *)
Definition repr_exponent (x : Z) : exponent :=
  let d := N.to_uint (Z.to_N (Z.abs x)) in
  mkExp false (Some (x <? 0))
    (match d with
     | Nil => D0 (D0 Nil)
     | _ => if (uint_length d <? 2)%nat then D0 d else d
     end).

(** [format_float_short] for [repr]: the digits [c] (no trailing zero) with
    the decimal point after [decpt] of them; exponent notation when
    [decpt <= -4] or [16 < decpt]. *)
Definition repr_tok (neg : bool) (c s : Z) : float_tok :=
  let d := N.to_uint (Z.to_N c) in
  let n := Z.of_nat (uint_length d) in
  let decpt := n + s in
  if (decpt <=? -4) || (16 <? decpt) then
    let (hd, tl) := uint_split 1 d in
    mkTok neg (N.of_uint hd) tl (Some (repr_exponent (decpt - 1)))
  else if decpt <=? 0 then
    mkTok neg 0 (zeros_then (Z.to_nat (- decpt)) d) None
  else if decpt <? n then
    let (hd, tl) := uint_split (Z.to_nat decpt) d in
    mkTok neg (N.of_uint hd) tl None
  else
    mkTok neg (Z.to_N (c * 10 ^ s)) (D0 Nil) None.

(** [float(literal)] written by [float.__repr__]. *)
Definition py_repr (t : float_tok) : pyfloat :=
  match tok_float t with
  | BZero => PyNum (mkTok (t_neg t) 0 (D0 Nil) None)
  | BInf => PyInf (t_neg t)
  | BFin m e =>
      let num := if 0 <=? e then m * 2 ^ e else m in
      let den := if 0 <=? e then 1 else 2 ^ (- e) in
      let (c, s) := shortest m e (log10_floor num den) 1 17 in
      let (c', s') := strip_zeros 400 c s in
      PyNum (repr_tok (t_neg t) c' s')
  end.

Local Close Scope Z_scope.

Definition exponent_eq_dec (a b : exponent) : {a = b} + {a <> b}.
Proof.
  decide equality;
    [ apply uint_eq_dec
    | decide equality; apply bool_dec
    | apply bool_dec ].
Defined.

Definition tok_eq_dec (a b : float_tok) : {a = b} + {a <> b}.
Proof.
  decide equality;
    [ decide equality; apply exponent_eq_dec
    | apply uint_eq_dec
    | apply N.eq_dec
    | apply bool_dec ].
Defined.

(** The float of a literal, named by the text [json.dump] writes for it.
    The text of a finite float is [py_repr]'s, and it reads back as the same
    float: [float(repr(x)) == x].  That property of the shortest digits is
    checked here rather than proved; if the check ever failed, the literal
    would stand for itself. *)
Definition float_repr (t : float_tok) : pyfloat :=
  match py_repr t with
  | PyNum t' =>
      if tok_ok t' then
        match py_repr t' with
        | PyNum t'' => if tok_eq_dec t'' t' then PyNum t' else PyNum t
        | _ => PyNum t
        end
      else PyNum t
  | x => x
  end.

(** A float as a value holds it: the literal of a finite float is the one
    that is written for it. *)
Definition canonical (x : pyfloat) : Prop :=
  match x with
  | PyNum t => tok_ok t = true /\ float_repr t = x
  | _ => True
  end.

Inductive json : Type :=
| JNull
| JBool (b : bool)
| JInt (z : Z)
| JFloat (x : pyfloat)
| JStr (s : str)
| JArr (items : list json)
| JObj (members : list (str * json)).

Section JsonInduction.
Variable P : json -> Prop.
Hypothesis HNull : P JNull.
Hypothesis HBool : forall b, P (JBool b).
Hypothesis HInt : forall z, P (JInt z).
Hypothesis HFloat : forall x, P (JFloat x).
Hypothesis HStr : forall s, P (JStr s).
Hypothesis HArr : forall l, Forall P l -> P (JArr l).
Hypothesis HObj : forall l, Forall (fun kv => P (snd kv)) l -> P (JObj l).

Fixpoint json_nested_ind (v : json) : P v :=
  match v with
  | JNull => HNull
  | JBool b => HBool b
  | JInt z => HInt z
  | JFloat x => HFloat x
  | JStr s => HStr s
  | JArr l =>
      HArr l ((fix go (l : list json) : Forall P l :=
                 match l with
                 | [] => Forall_nil _
                 | x :: xs => Forall_cons _ (json_nested_ind x) (go xs)
                 end) l)
  | JObj l =>
      HObj l ((fix go (l : list (str * json))
                 : Forall (fun kv => P (snd kv)) l :=
                 match l with
                 | [] => Forall_nil _
                 | kv :: xs =>
                     Forall_cons _ (json_nested_ind (snd kv)) (go xs)
                 end) l)
  end.
End JsonInduction.

(** [d[k] = v] on a [dict]: an existing key keeps its place and takes the new
    value, a new key goes last. *)
Fixpoint dict_set (k : str) (v : json) (d : list (str * json))
  : list (str * json) :=
  match d with
  | [] => [(k, v)]
  | (k', v') :: d' =>
      if str_eqb k k' then (k', v) :: d' else (k', v') :: dict_set k v d'
  end.

Definition keys (d : list (str * json)) : list str := map fst d.

(** Surrogates: a code point from [0x10000] on is written and read as a pair
    of them. *)
Definition is_high (c : N) : bool := ((55296 <=? c) && (c <=? 56319))%N.
Definition is_low (c : N) : bool := ((56320 <=? c) && (c <=? 57343))%N.

(** A [str] that is read back as itself: code points up to [0x10FFFF], and
    no high surrogate directly before a low one (such a pair is read back as
    one code point). *)
Fixpoint str_ok (s : str) : bool :=
  match s with
  | [] => true
  | c :: r =>
      (c <=? 1114111)%N
      && negb (is_high c && match r with
                            | d :: _ => is_low d
                            | [] => false
                            end)
      && str_ok r
  end.

(** A value as Python holds it and [json.dump] writes it in a text that
    reads back as the value: no [dict] has a key twice, strings are
    [str_ok], floats are named by their own text. *)
Fixpoint wf (v : json) : Prop :=
  match v with
  | JFloat x => canonical x
  | JStr s => str_ok s = true
  | JArr l => (fix all (l : list json) : Prop :=
                 match l with
                 | [] => True
                 | x :: xs => wf x /\ all xs
                 end) l
  | JObj l => NoDup (keys l) /\
              (fix all (l : list (str * json)) : Prop :=
                 match l with
                 | [] => True
                 | kv :: xs =>
                     (str_ok (fst kv) = true /\ wf (snd kv)) /\ all xs
                 end) l
  | _ => True
  end.

(** *** Writing: [json.dumps] with its defaults

    [separators=(', ', ': ')], [ensure_ascii=True], [allow_nan=True], no
    indentation.  Every writer takes the text that follows, so the output is
    built front to back. *)

Definition hexdigit (n : N) : ascii :=
  if (n <? 10)%N then ascii_of_N (48 + n) else ascii_of_N (87 + n).

(** [\uXXXX] for a code point below [0x10000]. *)
Definition emit_hex4 (n : N) (k : string) : string :=
  String backslash
    (String "u"
       (String (hexdigit (n / 4096))
          (String (hexdigit ((n / 256) mod 16))
             (String (hexdigit ((n / 16) mod 16))
                (String (hexdigit (n mod 16)) k))))).

(** One code point of a string, as [encode_basestring_ascii] writes it. *)
Definition escape_char (c : N) (k : string) : string :=
  if (c =? 34)%N then String backslash (String dquote k)
  else if (c =? 92)%N then String backslash (String backslash k)
  else if (c =? 10)%N then String backslash (String "n" k)
  else if (c =? 13)%N then String backslash (String "r" k)
  else if (c =? 9)%N then String backslash (String "t" k)
  else if (c =? 8)%N then String backslash (String "b" k)
  else if (c =? 12)%N then String backslash (String "f" k)
  else if ((32 <=? c) && (c <=? 126))%N then String (ascii_of_N c) k
  else if (c <? 65536)%N then emit_hex4 c k
  else emit_hex4 (55296 + (c - 65536) / 1024)
         (emit_hex4 (56320 + (c - 65536) mod 1024) k).

Fixpoint escape (s : str) (k : string) : string :=
  match s with
  | [] => k
  | c :: r => escape_char c (escape r k)
  end.

Definition encode_string (s : str) (k : string) : string :=
  String dquote (escape s (String dquote k)).

Fixpoint emit_uint (d : uint) (k : string) : string :=
  match d with
  | Nil => k
  | D0 d => String "0" (emit_uint d k)
  | D1 d => String "1" (emit_uint d k)
  | D2 d => String "2" (emit_uint d k)
  | D3 d => String "3" (emit_uint d k)
  | D4 d => String "4" (emit_uint d k)
  | D5 d => String "5" (emit_uint d k)
  | D6 d => String "6" (emit_uint d k)
  | D7 d => String "7" (emit_uint d k)
  | D8 d => String "8" (emit_uint d k)
  | D9 d => String "9" (emit_uint d k)
  end.

(** [str(z)] for a Python [int]. *)
Definition emit_int (z : Z) (k : string) : string :=
  match z with
  | Z0 => String "0" k
  | Zpos p => emit_uint (Pos.to_uint p) k
  | Zneg p => String "-" (emit_uint (Pos.to_uint p) k)
  end.

(** The literal of a float, part by part. *)
Definition emit_nat (n : N) (k : string) : string :=
  match n with
  | N0 => String "0" k
  | Npos p => emit_uint (Pos.to_uint p) k
  end.

Definition emit_frac (d : uint) (k : string) : string :=
  match d with
  | Nil => k
  | _ => String "." (emit_uint d k)
  end.

Definition emit_exp (e : option exponent) (k : string) : string :=
  match e with
  | None => k
  | Some e =>
      String (if e_upper e then "E" else "e")%char
        match e_sign e with
        | Some true => String "-" (emit_uint (e_digits e) k)
        | Some false => String "+" (emit_uint (e_digits e) k)
        | None => emit_uint (e_digits e) k
        end
  end.

Definition emit_tok (t : float_tok) (k : string) : string :=
  let body := emit_nat (t_int t) (emit_frac (t_frac t) (emit_exp (t_exp t) k)) in
  if t_neg t then String "-" body else body.

(** [floatstr] of the encoder. *)
Definition emit_float (x : pyfloat) (k : string) : string :=
  match x with
  | PyNaN => "NaN" ++ k
  | PyInf false => "Infinity" ++ k
  | PyInf true => "-Infinity" ++ k
  | PyNum t => emit_tok t k
  end.

Fixpoint emit (v : json) (k : string) : string :=
  match v with
  | JNull => "null" ++ k
  | JBool true => "true" ++ k
  | JBool false => "false" ++ k
  | JInt z => emit_int z k
  | JFloat x => emit_float x k
  | JStr s => encode_string s k
  | JArr l =>
      String "["
        match l with
        | [] => String "]" k
        | x :: xs =>
            emit x
              ((fix rest (xs : list json) : string :=
                  match xs with
                  | [] => String "]" k
                  | y :: ys => String "," (String " " (emit y (rest ys)))
                  end) xs)
        end
  | JObj l =>
      String "{"
        match l with
        | [] => String "}" k
        | (key, x) :: xs =>
            encode_string key
              (String ":" (String " "
                 (emit x
                    ((fix rest (xs : list (str * json)) : string :=
                        match xs with
                        | [] => String "}" k
                        | (key', y) :: ys =>
                            String "," (String " "
                              (encode_string key'
                                 (String ":" (String " " (emit y (rest ys))))))
                        end) xs))))
        end
  end.

Definition dumps (v : json) : string := emit v EmptyString.

(** *** Reading: [json.loads]

    The text is the [str] that reading the file gives, with code points
    below 256; what is read from it may hold any code point, through
    [\uXXXX]. *)

Definition is_ws (c : ascii) : bool :=
  ((c =? " ") || (c =? "009") || (c =? "010") || (c =? "013"))%char.

Fixpoint skip_ws (s : string) : string :=
  match s with
  | String c r => if is_ws c then skip_ws r else s
  | EmptyString => s
  end.

Definition hexval (c : ascii) : option N :=
  let n := code c in
  if ((48 <=? n) && (n <=? 57))%N then Some (n - 48)%N
  else if ((97 <=? n) && (n <=? 102))%N then Some (n - 87)%N
  else if ((65 <=? n) && (n <=? 70))%N then Some (n - 55)%N
  else None.

Definition unescape (c : ascii) : option N :=
  if (c =? dquote)%char then Some 34%N
  else if (c =? backslash)%char then Some 92%N
  else if (c =? "/")%char then Some 47%N
  else if (c =? "n")%char then Some 10%N
  else if (c =? "r")%char then Some 13%N
  else if (c =? "t")%char then Some 9%N
  else if (c =? "b")%char then Some 8%N
  else if (c =? "f")%char then Some 12%N
  else None.

(** The four hex digits of a [\u] escape, as a code point. *)
Definition hex4 (a b c d : ascii) : option N :=
  match hexval a, hexval b, hexval c, hexval d with
  | Some x, Some y, Some z, Some w => Some (((x * 16 + y) * 16 + z) * 16 + w)%N
  | _, _, _, _ => None
  end.

Definition prepend (c : N) (r : option (str * string))
  : option (str * string) :=
  match r with
  | Some (s, rest) => Some (c :: s, rest)
  | None => None
  end.

(** The code point of a surrogate pair. *)
Definition join (hi lo : N) : N :=
  (65536 + (hi - 55296) * 1024 + (lo - 56320))%N.

(** A [\uXXXX] escape of a low surrogate at the head of the text. *)
Definition low_escape (s : string) : option (N * string) :=
  match s with
  | String b (String l r) =>
      if ((b =? backslash) && (l =? "u"))%char then
        match r with
        | String h1 (String h2 (String h3 (String h4 r'))) =>
            match hex4 h1 h2 h3 h4 with
            | Some m => if is_low m then Some (m, r') else None
            | None => None
            end
        | _ => None
        end
      else None
  | _ => None
  end.

(** [scanstring] in strict mode, started after the opening quote: the decoded
    string and the text after the closing quote.  The escape of a high
    surrogate directly before the escape of a low one is read with it as one
    code point. *)
Fixpoint scanstring (s : string) : option (str * string) :=
  match s with
  | EmptyString => None
  | String c r =>
      if (c =? dquote)%char then Some ([], r)
      else if (c =? backslash)%char then
        match r with
        | EmptyString => None
        | String e r1 =>
            if (e =? "u")%char then
              match r1 with
              | String h1 (String h2 (String h3 (String h4 r2))) =>
                  match hex4 h1 h2 h3 h4 with
                  | Some n =>
                      if is_high n then
                        match r2 with
                        | String b (String l r2') =>
                            if ((b =? backslash) && (l =? "u"))%char then
                              match r2' with
                              | String g1 (String g2 (String g3
                                  (String g4 r3))) =>
                                  match hex4 g1 g2 g3 g4 with
                                  | Some m =>
                                      if is_low m
                                      then prepend (join n m) (scanstring r3)
                                      else prepend n (scanstring r2)
                                  | None => prepend n (scanstring r2)
                                  end
                              | _ => prepend n (scanstring r2)
                              end
                            else prepend n (scanstring r2)
                        | _ => prepend n (scanstring r2)
                        end
                      else prepend n (scanstring r2)
                  | None => None
                  end
              | _ => None
              end
            else
              match unescape e with
              | Some ch => prepend ch (scanstring r1)
              | None => None
              end
        end
      else if (code c <? 32)%N then None
      else prepend (code c) (scanstring r)
  end.

Definition digit_of (c : ascii) : option (uint -> uint) :=
  if (c =? "0")%char then Some D0
  else if (c =? "1")%char then Some D1
  else if (c =? "2")%char then Some D2
  else if (c =? "3")%char then Some D3
  else if (c =? "4")%char then Some D4
  else if (c =? "5")%char then Some D5
  else if (c =? "6")%char then Some D6
  else if (c =? "7")%char then Some D7
  else if (c =? "8")%char then Some D8
  else if (c =? "9")%char then Some D9
  else None.

Fixpoint scan_digits (s : string) : uint * string :=
  match s with
  | EmptyString => (Nil, s)
  | String c r =>
      match digit_of c with
      | Some dn => let (d, r') := scan_digits r in (dn d, r')
      | None => (Nil, s)
      end
  end.

(** The integer part of [NUMBER_RE], [0|[1-9]\d*], as a natural number. *)
Definition scan_nat (s : string) : option (N * string) :=
  match s with
  | EmptyString => None
  | String c r =>
      if (c =? "0")%char then Some (0%N, r)
      else
        match scan_digits s with
        | (Nil, _) => None
        | (d, r') => Some (N.of_uint d, r')
        end
  end.

(** The fraction of [NUMBER_RE], [\.\d+]: its digits, [Nil] when the text
    does not go on with one. *)
Definition scan_frac (s : string) : uint * string :=
  match s with
  | String c r =>
      if (c =? ".")%char then
        match scan_digits r with
        | (Nil, _) => (Nil, s)
        | (d, r') => (d, r')
        end
      else (Nil, s)
  | EmptyString => (Nil, s)
  end.

Definition exp_sign (s : string) : option bool * string :=
  match s with
  | String c r =>
      if (c =? "+")%char then (Some false, r)
      else if (c =? "-")%char then (Some true, r)
      else (None, s)
  | EmptyString => (None, s)
  end.

(** The exponent of [NUMBER_RE], [[eE][-+]?\d+]. *)
Definition scan_exp (s : string) : option exponent * string :=
  match s with
  | String c r =>
      if ((c =? "e") || (c =? "E"))%char then
        let (sg, r1) := exp_sign r in
        match scan_digits r1 with
        | (Nil, _) => (None, s)
        | (d, r2) => (Some (mkExp (c =? "E")%char sg d), r2)
        end
      else (None, s)
  | EmptyString => (None, s)
  end.

(** [s] starts with the word [w]: what is left after it. *)
Fixpoint expect (w s : string) : option string :=
  match w with
  | EmptyString => Some s
  | String c w' =>
      match s with
      | String c' s' => if (c =? c')%char then expect w' s' else None
      | EmptyString => None
      end
  end.

(** A number at the head of [s]: an [int] when the literal has neither a
    fraction nor an exponent, a [float] otherwise. *)
Definition scan_number (s : string) : option (json * string) :=
  let (neg, s1) :=
    match s with
    | String c r => if (c =? "-")%char then (true, r) else (false, s)
    | EmptyString => (false, s)
    end in
  match scan_nat s1 with
  | None => None
  | Some (n, r) =>
      let (fr, r1) := scan_frac r in
      let (ex, r2) := scan_exp r1 in
      match fr, ex with
      | Nil, None =>
          Some (JInt (if neg then (- Z.of_N n)%Z else Z.of_N n), r)
      | _, _ => Some (JFloat (float_repr (mkTok neg n fr ex)), r2)
      end
  end.

(** [scan_once], [JSONArray] and [JSONObject] of [json.decoder].  The loops of
    the two latter are [array_loop] and [object_loop], entered at the first
    element, with the elements read so far.  [fuel] bounds the number of
    nested calls; [None] is a [JSONDecodeError]. *)
Fixpoint scan_once (fuel : nat) (s : string) : option (json * string) :=
  match fuel with
  | O => None
  | S fuel =>
      match s with
      | EmptyString => None
      | String c r =>
          if (c =? dquote)%char then
            match scanstring r with
            | Some (x, r') => Some (JStr x, r')
            | None => None
            end
          else if (c =? "{")%char then
            match skip_ws r with
            | EmptyString => None
            | String c1 r1 =>
                if (c1 =? "}")%char then Some (JObj [], r1)
                else
                  match object_loop fuel (String c1 r1) [] with
                  | Some (d, r') => Some (JObj d, r')
                  | None => None
                  end
            end
          else if (c =? "[")%char then
            match skip_ws r with
            | EmptyString => None
            | String c1 r1 =>
                if (c1 =? "]")%char then Some (JArr [], r1)
                else
                  match array_loop fuel (String c1 r1) [] with
                  | Some (l, r') => Some (JArr l, r')
                  | None => None
                  end
            end
          else if (c =? "n")%char then
            match expect "ull" r with
            | Some r' => Some (JNull, r')
            | None => None
            end
          else if (c =? "t")%char then
            match expect "rue" r with
            | Some r' => Some (JBool true, r')
            | None => None
            end
          else if (c =? "f")%char then
            match expect "alse" r with
            | Some r' => Some (JBool false, r')
            | None => None
            end
          else if (c =? "N")%char then
            match expect "aN" r with
            | Some r' => Some (JFloat PyNaN, r')
            | None => None
            end
          else if (c =? "I")%char then
            match expect "nfinity" r with
            | Some r' => Some (JFloat (PyInf false), r')
            | None => None
            end
          else if (c =? "-")%char then
            match expect "Infinity" r with
            | Some r' => Some (JFloat (PyInf true), r')
            | None => scan_number s
            end
          else scan_number s
      end
  end

with array_loop (fuel : nat) (s : string) (acc : list json)
  : option (list json * string) :=
  match fuel with
  | O => None
  | S fuel =>
      match scan_once fuel s with
      | None => None
      | Some (v, r) =>
          match skip_ws r with
          | EmptyString => None
          | String c r1 =>
              if (c =? "]")%char then Some (acc ++ [v], r1)
              else if (c =? ",")%char then
                array_loop fuel (skip_ws r1) (acc ++ [v])
              else None
          end
      end
  end

with object_loop (fuel : nat) (s : string) (acc : list (str * json))
  : option (list (str * json) * string) :=
  match fuel with
  | O => None
  | S fuel =>
      match s with
      | EmptyString => None
      | String q r =>
          if (q =? dquote)%char then
            match scanstring r with
            | None => None
            | Some (key, r0) =>
                match skip_ws r0 with
                | EmptyString => None
                | String c r1 =>
                    if (c =? ":")%char then
                      match scan_once fuel (skip_ws r1) with
                      | None => None
                      | Some (v, r2) =>
                          match skip_ws r2 with
                          | EmptyString => None
                          | String c2 r3 =>
                              if (c2 =? "}")%char
                              then Some (dict_set key v acc, r3)
                              else if (c2 =? ",")%char then
                                object_loop fuel (skip_ws r3)
                                  (dict_set key v acc)
                              else None
                          end
                      end
                    else None
                end
            end
          else None
      end
  end.

(** Two nested calls are made per character at most, so this fuel never runs
    out (see [scan_once_fuel]). *)
Definition fuel_for (s : string) : nat := 2 * String.length s + 2.

(** [json.loads]: blanks, one value, blanks, end of text. *)
Definition loads (s : string) : Result json :=
  match scan_once (fuel_for s) (skip_ws s) with
  | Some (v, r) =>
      match skip_ws r with
      | EmptyString => ok v
      | String _ _ => raise JSONDecodeError
      end
  | None => raise JSONDecodeError
  end.

(** *** Notions used to state the facts about the two directions *)

(** The text of the elements after the first, and of the members after the
    first, as [emit] writes them. *)
Fixpoint emit_items (xs : list json) (k : string) : string :=
  match xs with
  | [] => String "]" k
  | y :: ys => String "," (String " " (emit y (emit_items ys k)))
  end.

Definition emit_member (key : str) (x : json) (k : string) : string :=
  encode_string key (String ":" (String " " (emit x k))).

Fixpoint emit_members (xs : list (str * json)) (k : string) : string :=
  match xs with
  | [] => String "}" k
  | (key, y) :: ys =>
      String "," (String " " (emit_member key y (emit_members ys k)))
  end.

(** The number of nested calls reading a value back takes. *)
Fixpoint size (v : json) : nat :=
  match v with
  | JArr l =>
      S ((fix go (l : list json) : nat :=
            match l with
            | [] => 0
            | x :: xs => S (size x + go xs)
            end) l)
  | JObj l =>
      S ((fix go (l : list (str * json)) : nat :=
            match l with
            | [] => 0
            | kv :: xs => S (size (snd kv) + go xs)
            end) l)
  | _ => 1
  end.

Fixpoint items_size (l : list json) : nat :=
  match l with
  | [] => 0
  | x :: xs => S (size x + items_size xs)
  end.

Fixpoint members_size (l : list (str * json)) : nat :=
  match l with
  | [] => 0
  | kv :: xs => S (size (snd kv) + members_size xs)
  end.

(** The text after a number must not go on with a digit, a fraction or an
    exponent. *)
Definition nondigit (k : string) : Prop :=
  match k with
  | EmptyString => True
  | String c _ =>
      digit_of c = None /\
      ((c =? ".") || (c =? "e") || (c =? "E"))%char = false
  end.

(** The first character of a written value is no blank and closes no list. *)
Definition value_head (s : string) : Prop :=
  match s with
  | EmptyString => False
  | String c _ => is_ws c = false /\ (c =? "]")%char = false
  end.

(** A value is read back from its text, whatever follows. *)
Definition reads_back (v : json) : Prop :=
  wf v -> forall k fuel, nondigit k -> size v <= fuel ->
  scan_once fuel (emit v k) = Some (v, k).

Definition dict_ok (d : list (str * json)) : Prop :=
  NoDup (keys d) /\ Forall (fun kv => str_ok (fst kv) = true /\ wf (snd kv)) d.

(** A code point that is written as itself or with a one-letter escape. *)
Definition short (c : N) : bool :=
  ((c =? 34) || (c =? 92) || (c =? 10) || (c =? 13) || (c =? 9) || (c =? 8)
   || (c =? 12) || ((32 <=? c) && (c <=? 126)))%N.

(** The head of a written natural number is a digit. *)
Definition digit_head (s : string) : Prop :=
  match s with
  | EmptyString => False
  | String c _ => exists dn, digit_of c = Some dn
  end.

End Json.

Module Frame.

(** *** The part of a pandas [DataFrame] the script looks at

    A frame is its row count (the length of the index) and its columns in
    order; a column has a name, a dtype and one cell per row.  float64 values
    are exact rationals. *)

Inductive dtype : Type := int64 | float64 | bool_ | object_.

Inductive cell : Type :=
| NaN
| CInt (z : Z)
| CFloat (q : Q)
| CBool (b : bool)
| CStr (s : string).

Record Series : Type := mkSeries {
  name : string;
  dt : dtype;
  values : list cell
}.

Record DataFrame : Type := mkFrame {
  n_rows : nat;
  series : list Series
}.

(** Every column has one cell per row. *)
Definition rectangular (df : DataFrame) : Prop :=
  Forall (fun s => List.length (values s) = n_rows df) (series df).

(** [len(df)] and [df.columns]. *)
Definition len (df : DataFrame) : nat := n_rows df.
Definition columns (df : DataFrame) : list string := map name (series df).

(** [df.head()]: the first five rows. *)
Definition head (df : DataFrame) : DataFrame :=
  {| n_rows := Nat.min 5 (n_rows df);
     series := map (fun s => mkSeries (name s) (dt s) (firstn 5 (values s)))
                   (series df) |}.

(** [df.isna()], then [.sum()] down each column, then [.sum()] of the
    resulting series: the expression of the "Missing Values" metric. *)
Definition cell_isna (c : cell) : bool :=
  match c with
  | NaN => true
  | _ => false
  end.

Definition isna (df : DataFrame) : list (string * list bool) :=
  map (fun s => (name s, map cell_isna (values s))) (series df).

Definition sum_bools (l : list bool) : nat :=
  fold_right (fun (b : bool) acc => (if b then 1 else 0) + acc) 0 l.

Definition sum_frame (bf : list (string * list bool)) : list (string * nat) :=
  map (fun col => (fst col, sum_bools (snd col))) bf.

Definition sum_series (sr : list (string * nat)) : nat :=
  fold_right (fun col acc => snd col + acc) 0 sr.

Definition missing_values (df : DataFrame) : nat :=
  sum_series (sum_frame (isna df)).

(** [df.select_dtypes(include=...)] and [df[names]]. *)
Definition dtype_eqb (a b : dtype) : bool :=
  match a, b with
  | int64, int64 | float64, float64 | bool_, bool_ | object_, object_ => true
  | _, _ => false
  end.

Definition select_dtypes (include : list dtype) (df : DataFrame) : DataFrame :=
  {| n_rows := n_rows df;
     series := filter (fun s => existsb (dtype_eqb (dt s)) include)
                      (series df) |}.

Definition getitem (df : DataFrame) (names : list string) : DataFrame :=
  {| n_rows := n_rows df;
     series := flat_map (fun n => filter (fun s => String.eqb (name s) n)
                                         (series df)) names |}.

(** *** Descriptive statistics: [DataFrame.describe] on numeric columns

    Rational-valued results are kept reduced; [std] takes a square root and is
    real-valued. *)

Inductive fnum : Type := FNaN | Fin (q : Q).
Inductive rnum : Type := RNaN | RFin (r : R).

Definition cell_value (c : cell) : option Q :=
  match c with
  | CInt z => Some (inject_Z z)
  | CFloat q => Some q
  | _ => None
  end.

(** The non-missing values of a column. *)
Fixpoint observed (cs : list cell) : list Q :=
  match cs with
  | [] => []
  | c :: r =>
      match cell_value c with
      | Some q => q :: observed r
      | None => observed r
      end
  end.

Definition qsum (l : list Q) : Q := fold_right Qplus 0%Q l.

Definition qmean (l : list Q) : Q := (qsum l / inject_Z (Z.of_nat (List.length l)))%Q.

(** Sum of squared deviations from the mean. *)
Definition ssq (l : list Q) : Q :=
  let m := qmean l in qsum (map (fun x => ((x - m) * (x - m))%Q) l).

Fixpoint insert_sorted (x : Q) (l : list Q) : list Q :=
  match l with
  | [] => [x]
  | y :: r => if Qle_bool x y then x :: l else y :: insert_sorted x r
  end.

Definition sort_values (l : list Q) : list Q := fold_right insert_sorted [] l.

(** [quantile(p)] with linear interpolation between order statistics. *)
Definition quantile (p : Q) (l : list Q) : fnum :=
  match sort_values l with
  | [] => FNaN
  | (x0 :: _) as sorted =>
      let n := List.length sorted in
      let h := (inject_Z (Z.of_nat (n - 1)) * p)%Q in
      let lo := Z.to_nat (Qfloor h) in
      let frac := (h - inject_Z (Qfloor h))%Q in
      let a := nth lo sorted x0 in
      let b := nth (Nat.min (S lo) (n - 1)) sorted x0 in
      Fin (Qred (a + frac * (b - a)))
  end.

Definition qmin (l : list Q) : fnum :=
  match l with
  | [] => FNaN
  | x :: r => Fin (Qred (fold_right (fun a b => if Qle_bool a b then a else b) x r))
  end.

Definition qmax (l : list Q) : fnum :=
  match l with
  | [] => FNaN
  | x :: r => Fin (Qred (fold_right (fun a b => if Qle_bool a b then b else a) x r))
  end.

Record Stats : Type := mkStats {
  s_count : nat;
  s_mean : fnum;
  s_std : rnum;
  s_min : fnum;
  s_q25 : fnum;
  s_q50 : fnum;
  s_q75 : fnum;
  s_max : fnum
}.

Definition describe_series (s : Series) : Stats :=
  let xs := observed (values s) in
  let n := List.length xs in
  {| s_count := n;
     s_mean := match xs with [] => FNaN | _ => Fin (Qred (qmean xs)) end;
     s_std := match n with
              | 0 | 1 => RNaN
              | _ => RFin (sqrt (Q2R (ssq xs / inject_Z (Z.of_nat (n - 1)))))
              end;
     s_min := qmin xs;
     s_q25 := quantile (1 # 4) xs;
     s_q50 := quantile (1 # 2) xs;
     s_q75 := quantile (3 # 4) xs;
     s_max := qmax xs |}.

(** [df.describe()] of a frame of numeric columns; pandas refuses a frame
    without columns. *)
Definition describe (df : DataFrame) : Result (list (string * Stats)) :=
  match series df with
  | [] => raise ValueError
  | cols => ok (map (fun s => (name s, describe_series s)) cols)
  end.

(** *** Pearson correlation: [DataFrame.corr]

    Each pair of columns is compared on the rows where both are present; a
    zero divisor gives NaN. *)
Fixpoint complete_pairs (xs ys : list cell) : list (Q * Q) :=
  match xs, ys with
  | x :: xr, y :: yr =>
      match cell_value x, cell_value y with
      | Some a, Some b => (a, b) :: complete_pairs xr yr
      | _, _ => complete_pairs xr yr
      end
  | _, _ => []
  end.

Definition cov_sum (ps : list (Q * Q)) : Q :=
  let mx := qmean (map fst ps) in
  let my := qmean (map snd ps) in
  qsum (map (fun p => ((fst p - mx) * (snd p - my))%Q) ps).

Definition corr_pair (xs ys : list cell) : rnum :=
  match complete_pairs xs ys with
  | [] => RNaN
  | ps =>
      let d2 := (ssq (map fst ps) * ssq (map snd ps))%Q in
      if Qeq_bool d2 0 then RNaN
      else RFin (Q2R (cov_sum ps) / sqrt (Q2R d2))
  end.

Definition corr (df : DataFrame) : list (string * list (string * rnum)) :=
  map (fun a =>
         (name a,
          map (fun b => (name b, corr_pair (values a) (values b))) (series df)))
      (series df).

(** *** Notions used to state the facts *)

(** The missing-cell indicator of row [r], column [c]. *)
Definition cell_missing (df : DataFrame) (r c : nat) : nat :=
  match nth_error (series df) c with
  | Some s =>
      match nth_error (values s) r with
      | Some x => if cell_isna x then 1 else 0
      | None => 0
      end
  | None => 0
  end.

(** [f 0 + ... + f (n - 1)]. *)
Fixpoint sum_upto (n : nat) (f : nat -> nat) : nat :=
  match n with
  | O => 0
  | S m => sum_upto m f + f m
  end.

(** The missing count in the specification's words: the sum, over every row
    and every column, of the indicator. *)
Definition missing_by_cell (df : DataFrame) : nat :=
  sum_upto (len df)
    (fun r => sum_upto (List.length (columns df)) (fun c => cell_missing df r c)).

(** Every cell of the column is missing. *)
Definition all_missing (s : Series) : Prop :=
  Forall (fun c => c = NaN) (values s).

(** The non-missing values of the column are all equal. *)
Definition constant (s : Series) : Prop :=
  exists v : Q, Forall (fun x => Qeq x v) (observed (values s)).

(** The variance of the non-missing values is zero. *)
Definition zero_variance (s : Series) : Prop :=
  Qeq (ssq (observed (values s))) 0.

(** The cell of the correlation matrix in row [a], column [b]. *)
Definition corr_at (df : DataFrame) (a b : nat) : option rnum :=
  match nth_error (corr df) a with
  | Some (_, row) => option_map snd (nth_error row b)
  | None => None
  end.

(** No cell of the frame is missing. *)
Definition complete (df : DataFrame) : Prop :=
  forall s, In s (series df) -> forall c, In c (values s) -> c <> NaN.

(** A pair of values with its columns exchanged. *)
Definition swap (p : Q * Q) : Q * Q := (snd p, fst p).

End Frame.

Module Csv.
Import Frame.

(** *** [pandas.read_csv] on plain text

    An executable reader for scenarios.  It covers text whose rows end in a
    line feed and whose fields are separated by commas, without quoting, and
    follows pandas there: blank lines are skipped, the first line names the
    columns, a short row is filled with missing cells, the default markers
    are missing, and a column is int64, float64, bool or object by its cells.
    Outside that fragment it is not pandas: a quote is an ordinary character,
    a carriage return is not a line end, a repeated header name is not
    renamed, a number with blanks around it and an infinity are text, and a
    row longer than the header is always a [ParserError] (pandas reads a
    longer first row as carrying index columns). *)

Fixpoint split_on (sep : ascii) (s : string) : list string :=
  match s with
  | EmptyString => [EmptyString]
  | String c r =>
      if (c =? sep)%char then EmptyString :: split_on sep r
      else
        match split_on sep r with
        | [] => [String c EmptyString]
        | w :: ws => String c w :: ws
        end
  end.

Fixpoint is_blank (line : string) : bool :=
  match line with
  | EmptyString => true
  | String c r => ((c =? " ") || (c =? "009"))%char && is_blank r
  end.

(** The default [na_values]. *)
Definition na_values : list string :=
  [""; "#N/A"; "#N/A N/A"; "#NA"; "-1.#IND"; "-1.#QNAN"; "-NaN"; "-nan";
   "1.#IND"; "1.#QNAN"; "<NA>"; "N/A"; "NA"; "NULL"; "NaN"; "None"; "n/a";
   "nan"; "null"].

Definition is_na (s : string) : bool := existsb (String.eqb s) na_values.

(** An optional sign: the factor and what follows. *)
Definition scan_sign (s : string) : Z * string :=
  match s with
  | String c r =>
      if (c =? "-")%char then ((-1)%Z, r)
      else if (c =? "+")%char then (1%Z, r)
      else (1%Z, s)
  | EmptyString => (1%Z, s)
  end.

Definition parse_int (s : string) : option Z :=
  let (sgn, r) := scan_sign s in
  match Json.scan_digits r with
  | (Nil, _) => None
  | (d, EmptyString) => Some (sgn * Z.of_N (N.of_uint d))%Z
  | (_, String _ _) => None
  end.

Definition pow10 (e : Z) : Q :=
  match e with
  | Z0 => 1%Q
  | Zpos p => inject_Z (10 ^ Zpos p)
  | Zneg p => (1 / inject_Z (10 ^ Zpos p))%Q
  end.

(** The exponent part, if any: its value, when the text ends after it. *)
Definition parse_exponent (s : string) : option Z :=
  match s with
  | EmptyString => Some 0%Z
  | String c r =>
      if ((c =? "e") || (c =? "E"))%char then parse_int r else None
  end.

(** A decimal number: sign, digits, an optional fraction, an optional
    exponent, with a digit before or after the point. *)
Definition parse_float (s : string) : option Q :=
  let (sgn, r) := scan_sign s in
  let (ip, r1) := Json.scan_digits r in
  let (fp, r2) :=
    match r1 with
    | String c r' => if (c =? ".")%char then Json.scan_digits r' else (Nil, r1)
    | EmptyString => (Nil, r1)
    end in
  match ip, fp with
  | Nil, Nil => None
  | _, _ =>
      match parse_exponent r2 with
      | Some e =>
          let k := Z.of_nat (nb_digits fp) in
          let m := (Z.of_N (N.of_uint ip) * 10 ^ k + Z.of_N (N.of_uint fp))%Z in
          Some (Qred (inject_Z (sgn * m) * pow10 (e - k)))
      | None => None
      end
  end.

Definition parse_bool (s : string) : option bool :=
  if existsb (String.eqb s) ["True"; "TRUE"; "true"] then Some true
  else if existsb (String.eqb s) ["False"; "FALSE"; "false"] then Some false
  else None.

Inductive token : Type :=
| TNa
| TInt (z : Z)
| TDec (q : Q)
| TBool (b : bool) (raw : string)
| TText (raw : string).

Definition classify (s : string) : token :=
  if is_na s then TNa
  else
    match parse_int s with
    | Some z => TInt z
    | None =>
        match parse_float s with
        | Some q => TDec q
        | None =>
            match parse_bool s with
            | Some b => TBool b s
            | None => TText s
            end
        end
    end.

Definition t_na (t : token) : bool :=
  match t with TNa => true | _ => false end.
Definition t_int (t : token) : bool :=
  match t with TNa | TInt _ => true | _ => false end.
Definition t_num (t : token) : bool :=
  match t with TNa | TInt _ | TDec _ => true | _ => false end.
Definition t_bool (t : token) : bool :=
  match t with TBool _ _ => true | _ => false end.
Definition t_bool_na (t : token) : bool :=
  match t with TNa | TBool _ _ => true | _ => false end.

Definition as_int (t : token) : cell :=
  match t with TInt z => CInt z | _ => NaN end.
Definition as_float (t : token) : cell :=
  match t with
  | TInt z => CFloat (inject_Z z)
  | TDec q => CFloat q
  | _ => NaN
  end.
Definition as_bool (t : token) : cell :=
  match t with TBool b _ => CBool b | _ => NaN end.

(** The text a field was read from, for an object column. *)
Definition as_object (raw : string) (t : token) : cell :=
  match t with TNa => NaN | _ => CStr raw end.

(** The dtype and the cells of a column, from its fields. *)
Definition infer (raws : list string) : dtype * list cell :=
  let ts := map classify raws in
  match ts with
  | [] => (object_, [])
  | _ =>
      if forallb t_na ts then (float64, map (fun _ => NaN) ts)
      else if forallb t_int ts then
        if existsb t_na ts then (float64, map as_float ts)
        else (int64, map as_int ts)
      else if forallb t_num ts then (float64, map as_float ts)
      else if forallb t_bool ts then (bool_, map as_bool ts)
      else if forallb t_bool_na ts then (object_, map as_bool ts)
      else (object_, map (fun raw => as_object raw (classify raw)) raws)
  end.

Definition digits (n : nat) : string := Json.emit_uint (Nat.to_uint n) EmptyString.

(** The header's names; an empty one is given its position. *)
Fixpoint header_names (i : nat) (fields : list string) : list string :=
  match fields with
  | [] => []
  | f :: r =>
      (if String.eqb f EmptyString then ("Unnamed: " ++ digits i)%string else f)
        :: header_names (S i) r
  end.

Fixpoint build_columns (j : nat) (names : list string)
    (rows : list (list string)) : list Series :=
  match names with
  | [] => []
  | nm :: r =>
      let (d, cs) := infer (map (fun row => nth j row EmptyString) rows) in
      mkSeries nm d cs :: build_columns (S j) r rows
  end.

Definition read_csv_plain (text : string) : Result DataFrame :=
  match filter (fun l => negb (is_blank l)) (split_on "010" text) with
  | [] => raise EmptyDataError
  | h :: body =>
      let names := header_names 0 (split_on "," h) in
      let rows := map (split_on ",") body in
      if existsb (fun row => Nat.ltb (List.length names) (List.length row)) rows
      then raise ParserError
      else ok {| n_rows := List.length rows;
                 series := build_columns 0 names rows |}
  end.

End Csv.

Module App.
Import Json Frame.

(** *** Plotly express and the widgets *)

Inductive PxKind : Type := scatter | line | bar | box.

(** What the script determines of a figure: the constructor called, the two
    column arguments and the title. *)
Record Figure : Type := mkFigure {
  kind : PxKind;
  fig_x : option string;
  fig_y : option string;
  title : string
}.

Definition known (df : DataFrame) (col : option string) : bool :=
  match col with
  | None => true
  | Some c => existsb (String.eqb c) (columns df)
  end.

(** [px.scatter], [px.line], [px.bar] and [px.box] on a frame: a column
    argument that is not [None] must name a column of the frame ([ValueError]
    otherwise); any column, numeric or not, is accepted on either axis. *)
Definition px (k : PxKind) (df : DataFrame) (x y : option string)
    (title : string) : Result Figure :=
  if known df x && known df y then ok (mkFigure k x y title)
  else raise ValueError.

(** A value inside an f-string. *)
Definition fmt (o : option string) : string :=
  match o with
  | Some s => s
  | None => "None"
  end.

(** [st.selectbox] and [st.radio]: the option the user picked, the first one
    when the stored pick does not fit the options, [None] without options. *)
Definition selectbox (options : list string) (choice : nat) : option string :=
  match nth_error options choice with
  | Some o => Some o
  | None => hd_error options
  end.

Definition radio (options : list string) (choice : nat) : option string :=
  selectbox options choice.

Definition is_str (o : option string) (s : string) : bool :=
  match o with
  | Some t => String.eqb t s
  | None => false
  end.

(** The chart of the selected kind: the [if]/[elif] chain on [chart_type]
    (lines 157-164). *)
Definition fig (df : DataFrame) (chart_type x_axis y_axis : option string)
  : Result Figure :=
  if is_str chart_type "Scatter Plot" then
    px scatter df x_axis y_axis (fmt y_axis ++ " vs " ++ fmt x_axis)
  else if is_str chart_type "Line Chart" then
    px line df x_axis y_axis (fmt y_axis ++ " over " ++ fmt x_axis)
  else if is_str chart_type "Bar Chart" then
    px bar df x_axis y_axis (fmt y_axis ++ " by " ++ fmt x_axis)
  else
    px box df x_axis y_axis
       ("Distribution of " ++ fmt y_axis ++ " by " ++ fmt x_axis).

(** *** The clock *)

Record datetime : Type := mkDatetime {
  year : nat; month : nat; day : nat;
  hour : nat; minute : nat; second : nat
}.

Fixpoint zeros (n : nat) (k : string) : string :=
  match n with
  | O => k
  | S n => String "0" (zeros n k)
  end.

(** A number zero-padded to [w] digits. *)
Definition pad (w n : nat) : string :=
  let d := Csv.digits n in zeros (w - String.length d) d.

(** [strftime("%Y-%m-%d %H:%M")] and [strftime("%Y%m%d_%H%M%S")]. *)
Definition strftime_minute (t : datetime) : string :=
  pad 4 (year t) ++ "-" ++ pad 2 (month t) ++ "-" ++ pad 2 (day t)
  ++ " " ++ pad 2 (hour t) ++ ":" ++ pad 2 (minute t).

Definition strftime_stamp (t : datetime) : string :=
  pad 4 (year t) ++ pad 2 (month t) ++ pad 2 (day t)
  ++ "_" ++ pad 2 (hour t) ++ pad 2 (minute t) ++ pad 2 (second t).

(** *** The world of a run *)

(** [st.session_state]: a key is absent ([None]) until the script sets it. *)
Record SessionState : Type := mkSession {
  analysis_count : option Z;
  last_analysis : option (option string)
}.

(** What a run puts on the page, in order.  Styling, captions and static text
    are left out. *)
Inductive Element : Type :=
| SidebarStats (analyses : Z) (last : string)
| Title (text : string)
| Metric (label : string) (value : nat)
| Preview (rows : DataFrame)
| PlotlyChart (f : Figure)
| StatsTable (t : list (string * Stats))
| Heatmap (c : list (string * list (string * rnum)))
| DownloadButton (label : string) (data : string) (file_name : string).

(** The session state, the memo of [load_data], the number of times
    [pd.read_csv] has run (a probe, not program state), the files on disk and
    the page.  [st.cache_data] keys an entry by the function, that is its name
    and source text, and by the arguments of the call; what the body reads
    from the enclosing scope, here [uploaded_file], is no part of the key.
    [load_data] takes no argument, so its memo is one entry. *)
Record World : Type := mkWorld {
  session_state : SessionState;
  cached : option DataFrame;
  parses : nat;
  files : string -> option string;
  page : list Element
}.

Definition with_session (s : SessionState) (w : World) : World :=
  mkWorld s (cached w) (parses w) (files w) (page w).
Definition with_page (p : list Element) (w : World) : World :=
  mkWorld (session_state w) (cached w) (parses w) (files w) p.
Definition with_files (f : string -> option string) (w : World) : World :=
  mkWorld (session_state w) (cached w) (parses w) f (page w).

(** A run is a state transformer that may end in an exception; the state
    reached when the exception is raised stays. *)
Definition M (A : Type) : Type := World -> World * Result A.

Definition ret {A} (a : A) : M A := fun w => (w, ok a).

Definition bind {A B} (m : M A) (k : A -> M B) : M B :=
  fun w =>
    match m w with
    | (w', inr a) => k a w'
    | (w', inl e) => (w', inl e)
    end.

Definition lift {A} (r : Result A) : M A := fun w => (w, r).

Notation "x <- m ;; k" := (bind m (fun x => k))
  (at level 61, m at next level, right associativity).
Notation "m ;;; k" := (bind m (fun _ => k))
  (at level 61, right associativity).

Definition show (e : Element) : M unit :=
  fun w => (with_page (page w ++ [e]) w, ok tt).

Definition get_session : M SessionState :=
  fun w => (w, ok (session_state w)).

Definition put_session (s : SessionState) : M unit :=
  fun w => (with_session s w, ok tt).

(** *** [save_user_history] *)

(** [history.append(data_info)]: only a list has [append]. *)
Definition append (history data_info : json) : Result json :=
  match history with
  | JArr l => ok (JArr (l ++ [data_info]))
  | _ => raise AttributeError
  end.

(** The files after [filename] has been written in full. *)
Definition put_file (filename text : string) (fs : string -> option string)
  : string -> option string :=
  fun g => if String.eqb g filename then Some text else fs g.

(** [open(filename, 'w')] and the write: the old contents are replaced. *)
Definition write_file (filename text : string) : M unit :=
  fun w => (with_files (put_file filename text (files w)) w, ok tt).

(** "Save user upload history to a JSON file" (lines 9-17): the whole list is
    read, the new entry is put at its end, and the whole list is written. *)
Definition save_user_history (filename : string) (data_info : json) : M unit :=
  history <- (fun w =>
                match files w filename with
                | Some text => (w, loads text)
                | None => (w, ok (JArr []))
                end) ;;
  history <- lift (append history data_info) ;;
  write_file filename (dumps history).

(** *** [main] *)

Record UploadedFile : Type := mkUpload {
  file_name : string;
  content : string
}.

(** What one run reads from outside: the uploader, the picks of the two
    select boxes and of the radio, the two buttons, the clock at its two
    readings and the sample drawn for the example data. *)
Record Interaction : Type := mkInteraction {
  uploaded_file : option UploadedFile;
  x_choice : nat;
  y_choice : nat;
  chart_choice : nat;
  download_clicked : bool;
  example_clicked : bool;
  now_analysis : datetime;
  now_export : datetime;
  example_data : DataFrame
}.

Definition chart_types : list string :=
  ["Scatter Plot"; "Line Chart"; "Bar Chart"; "Box Plot"].

Definition history_file : string := "analysis_history.json".

Section Script.

(** [pd.read_csv] and [DataFrame.to_csv(index=False)] are pandas' own. *)
Variable read_csv : string -> Result DataFrame.
Variable to_csv : DataFrame -> string.

(** [load_data] under [st.cache_data] (lines 104-108): the body runs when the
    memo has no entry, and its result is stored; an exception stores
    nothing. *)
Definition load_data (uploaded_file : UploadedFile) : M DataFrame :=
  fun w =>
    match cached w with
    | Some df => (w, ok df)
    | None =>
        match read_csv (content uploaded_file) with
        | inr df =>
            (mkWorld (session_state w) (Some df) (S (parses w)) (files w)
                     (page w),
             ok df)
        | inl e =>
            (mkWorld (session_state w) None (S (parses w)) (files w) (page w),
             raise e)
        end
    end.

(** The [analysis_info] dict (lines 115-120); [timestamp] is the value read
    back from the session state. *)
Definition analysis_info (f : UploadedFile) (timestamp : json) (df : DataFrame)
  : json :=
  JObj [(str_of "filename", JStr (file_name f));
        (str_of "timestamp", timestamp);
        (str_of "rows", JInt (Z.of_nat (len df)));
        (str_of "columns", JInt (Z.of_nat (List.length (columns df))))].

Definition numeric_cols (df : DataFrame) : list string :=
  columns (select_dtypes [float64; int64] df).

(** The sidebar (lines 54-100): the two keys are set when absent, then
    shown. *)
Definition sidebar : M unit :=
  s <- get_session ;;
  put_session (mkSession
                 (match analysis_count s with
                  | None => Some 0%Z
                  | Some n => Some n
                  end)
                 (last_analysis s)) ;;;
  s <- get_session ;;
  put_session (mkSession
                 (analysis_count s)
                 (match last_analysis s with
                  | None => Some None
                  | Some l => Some l
                  end)) ;;;
  s <- get_session ;;
  n <- lift (match analysis_count s with
             | Some n => ok n
             | None => raise AttributeError
             end) ;;
  l <- lift (match last_analysis s with
             | Some l => ok l
             | None => raise AttributeError
             end) ;;
  show (SidebarStats n (fmt l)).

(** "Update session statistics" (lines 110-112): the counter goes up by one
    and the timestamp is set from the clock. *)
Definition update_session_statistics (i : Interaction) : M unit :=
  s <- get_session ;;
  n <- lift (match analysis_count s with
             | Some n => ok n
             | None => raise AttributeError
             end) ;;
  put_session (mkSession (Some (n + 1)%Z) (last_analysis s)) ;;;
  s <- get_session ;;
  put_session (mkSession (analysis_count s)
                 (Some (Some (strftime_minute (now_analysis i))))).

(** "Save analysis history" (lines 114-121). *)
Definition save_analysis_history (f : UploadedFile) (df : DataFrame) : M unit :=
  s <- get_session ;;
  timestamp <- lift (match last_analysis s with
                     | Some (Some l) => ok (JStr l)
                     | Some None => ok JNull
                     | None => raise AttributeError
                     end) ;;
  save_user_history history_file (analysis_info f timestamp df).

(** "Main content" (lines 123-193): overview, preview, chart, statistics,
    export. *)
Definition main_content (i : Interaction) (df : DataFrame) : M unit :=
  show (Title "Data Analysis Dashboard") ;;;
  show (Metric "Total Rows" (len df)) ;;;
  show (Metric "Total Columns" (List.length (columns df))) ;;;
  show (Metric "Missing Values" (missing_values df)) ;;;
  show (Preview (head df)) ;;;
  let x_axis := selectbox (columns df) (x_choice i) in
  let y_axis := selectbox (numeric_cols df) (y_choice i) in
  let chart_type := radio chart_types (chart_choice i) in
  fg <- lift (fig df chart_type x_axis y_axis) ;;
  show (PlotlyChart fg) ;;;
  t <- lift (describe (getitem df (numeric_cols df))) ;;
  show (StatsTable t) ;;;
  show (Heatmap (corr (getitem df (numeric_cols df)))) ;;;
  if download_clicked i then
    let csv := to_csv df in
    show (DownloadButton "Download CSV" csv
            ("processed_data_" ++ strftime_stamp (now_export i) ++ ".csv"))
  else ret tt.

(** The page shown without a file (lines 195-215). *)
Definition welcome (i : Interaction) : M unit :=
  show (Title "Welcome to Data Analysis Dashboard!") ;;;
  if example_clicked i then
    let text := to_csv (example_data i) in
    write_file "example.csv" text ;;;
    show (DownloadButton "Download Example Dataset" text "example.csv")
  else ret tt.

(** One execution of the script, on an empty page: the sidebar, then the
    branch on [uploaded_file] (line 102). *)
Definition main (i : Interaction) : M unit :=
  (fun w => (with_page [] w, ok tt)) ;;;
  sidebar ;;;
  match uploaded_file i with
  | Some f =>
      df <- load_data f ;;
      update_session_statistics i ;;;
      save_analysis_history f df ;;;
      main_content i df
  | None => welcome i
  end.

(** A session: the runs one after the other.  A run that raises ends there;
    the next run starts from the state it left. *)
Fixpoint session (runs : list Interaction) (w : World) : World :=
  match runs with
  | [] => w
  | i :: rest => session rest (fst (main i w))
  end.

End Script.

(** A new session on a machine without history file and with an empty memo. *)
Definition fresh : World :=
  mkWorld (mkSession None None) None 0 (fun _ => None) [].

(** The counter as the sidebar shows it. *)
Definition count_of (w : World) : Z :=
  match analysis_count (session_state w) with
  | Some n => n
  | None => 0%Z
  end.

(** The timestamp as the script reads it ([None] until the first analysis). *)
Definition last_of (w : World) : option string :=
  match last_analysis (session_state w) with
  | Some l => l
  | None => None
  end.

(** The records of a history file: none when the file is absent. *)
Definition history_of (fs : string -> option string) (filename : string)
  : Result (list json) :=
  match fs filename with
  | None => ok []
  | Some text =>
      match loads text with
      | inr (JArr l) => ok l
      | inr _ => raise AttributeError
      | inl e => raise e
      end
  end.

(** *** Notions used to state the facts *)

(** An entry of the history as the specification has it. *)
Record UploadRecord : Type := mkRecord {
  rec_filename : string;
  rec_timestamp : string;
  rec_rows : nat;
  rec_columns : nat
}.

Definition record_json (r : UploadRecord) : json :=
  JObj [(str_of "filename", JStr (rec_filename r));
        (str_of "timestamp", JStr (rec_timestamp r));
        (str_of "rows", JInt (Z.of_nat (rec_rows r)));
        (str_of "columns", JInt (Z.of_nat (rec_columns r)))].

(** Two worlds that differ in the page at most. *)
Definition same_core (w w' : World) : Prop :=
  session_state w' = session_state w /\ cached w' = cached w /\
  parses w' = parses w /\ files w' = files w.

(** A computation that touches the page only. *)
Definition page_only {A} (m : M A) : Prop :=
  forall w, same_core w (fst (m w)).

(** The timestamp of a run. *)
Definition stamp_of (i : Interaction) : string :=
  strftime_minute (now_analysis i).

(** The chart a run draws for a dataset. *)
Definition chart_of (i : Interaction) (df : DataFrame) : Result Figure :=
  fig df (radio chart_types (chart_choice i))
    (selectbox (columns df) (x_choice i))
    (selectbox (numeric_cols df) (y_choice i)).

(** The world in which the main content of a run is rendered, when the load
    returned [df] and the history held [old]. *)
Definition analysed (read_csv : string -> Result DataFrame)
    (i : Interaction) (f : UploadedFile) (df : DataFrame)
    (old : list json) (w : World) : World :=
  mkWorld
    (mkSession (Some (count_of w + 1)%Z) (Some (Some (stamp_of i))))
    (Some df)
    (parses (fst (load_data read_csv f w)))
    (put_file history_file
       (dumps (JArr (old ++ [analysis_info f (JStr (stamp_of i)) df])))
       (files w))
    [SidebarStats (count_of w) (fmt (last_of w))].

(** In every run of the sequence a file is present and [load_data] returns a
    dataset. *)
Fixpoint every_load_succeeds (read_csv : string -> Result DataFrame)
    (to_csv : DataFrame -> string) (runs : list Interaction) (w : World)
  : Prop :=
  match runs with
  | [] => True
  | i :: rest =>
      (exists f df, uploaded_file i = Some f /\
                    snd (load_data read_csv f w) = ok df) /\
      every_load_succeeds read_csv to_csv rest
        (fst (main read_csv to_csv i w))
  end.

(** [v] is the record of run [i]: its file name, its timestamp and the shape
    of a dataset. *)
Definition record_of (i : Interaction) (v : json) : Prop :=
  exists f df, uploaded_file i = Some f /\
               v = analysis_info f (JStr (stamp_of i)) df.

(** *** Notions used to state the further facts *)

(** [save_user_history] called once per entry, in order. *)
Fixpoint save_all (filename : string) (entries : list json) : M unit :=
  match entries with
  | [] => ret tt
  | d :: rest => save_user_history filename d ;;; save_all filename rest
  end.

(** The world after the sidebar of a run. *)
Definition greeted (w : World) : World :=
  mkWorld (mkSession (Some (count_of w)) (Some (last_of w)))
    (cached w) (parses w) (files w)
    [SidebarStats (count_of w) (fmt (last_of w))].

(** The world after "Update session statistics", when the load returned
    [df]. *)
Definition counted (read_csv : string -> Result DataFrame)
    (i : Interaction) (f : UploadedFile) (df : DataFrame) (w : World) : World :=
  mkWorld
    (mkSession (Some (count_of w + 1)%Z) (Some (Some (stamp_of i))))
    (Some df)
    (parses (fst (load_data read_csv f w)))
    (files w)
    [SidebarStats (count_of w) (fmt (last_of w))].

(** The world after a load that fails. *)
Definition unloaded (w : World) : World :=
  mkWorld (mkSession (Some (count_of w)) (Some (last_of w)))
    None (S (parses w)) (files w)
    [SidebarStats (count_of w) (fmt (last_of w))].

(** What a run keeps of a world for the next run. *)
Definition core (w : World)
  : SessionState * option DataFrame * nat * (string -> option string) :=
  (session_state w, cached w, parses w, files w).

(** The state a run leaves, by cases on the uploader, the load and the
    history file. *)
Definition next_core (read_csv : string -> Result DataFrame)
    (to_csv : DataFrame -> string) (i : Interaction) (w : World)
  : SessionState * option DataFrame * nat * (string -> option string) :=
  match uploaded_file i with
  | None =>
      (session_state (greeted w), cached w, parses w,
       if example_clicked i
       then put_file "example.csv" (to_csv (example_data i)) (files w)
       else files w)
  | Some f =>
      match snd (load_data read_csv f w) with
      | inl _ => core (unloaded w)
      | inr df =>
          match history_of (files w) history_file with
          | inr old => core (analysed read_csv i f df old w)
          | inl _ => core (counted read_csv i f df w)
          end
      end
  end.

(** The overview, the preview and the chart: what the main content shows
    before the statistics. *)
Definition overview (df : DataFrame) (fg : Figure) : list Element :=
  [Title "Data Analysis Dashboard";
   Metric "Total Rows" (len df);
   Metric "Total Columns" (List.length (columns df));
   Metric "Missing Values" (missing_values df);
   Preview (head df);
   PlotlyChart fg].

(** The export button of a run. *)
Definition export_of (to_csv : DataFrame -> string) (i : Interaction)
    (df : DataFrame) : list Element :=
  if download_clicked i then
    [DownloadButton "Download CSV" (to_csv df)
       ("processed_data_" ++ strftime_stamp (now_export i) ++ ".csv")]
  else [].

(** What the main content adds to the page and how it ends. *)
Definition content_of (to_csv : DataFrame -> string) (i : Interaction)
    (df : DataFrame) (fg : Figure) : list Element * Result unit :=
  match describe (getitem df (numeric_cols df)) with
  | inl e => (overview df fg, raise e)
  | inr t =>
      (overview df fg
       ++ [StatsTable t; Heatmap (corr (getitem df (numeric_cols df)))]
       ++ export_of to_csv i df,
       ok tt)
  end.

(** What the page without a file holds after the sidebar. *)
Definition welcome_page (to_csv : DataFrame -> string) (i : Interaction)
  : list Element :=
  Title "Welcome to Data Analysis Dashboard!"
  :: (if example_clicked i
      then [DownloadButton "Download Example Dataset"
              (to_csv (example_data i)) "example.csv"]
      else []).

End App.

(** ** Inputs of the scenarios *)

Module Scenario.
Import Json Frame Csv App.

Definition lf : string := String "010" EmptyString.

(** The three-row file of the specification's scenario. *)
Definition sales_csv : string :=
  "a,b" ++ lf ++ "1,2" ++ lf ++ ",4" ++ lf ++ "5,6".

Definition people_csv : string :=
  "name,age" ++ lf ++ "ann,31" ++ lf ++ "bob,27" ++ lf.

(** A third row with a field too many: pandas stops with "Expected 2 fields in
    line 3, saw 3". *)
Definition ragged_csv : string :=
  "a,b" ++ lf ++ "1,2" ++ lf ++ "3,4,5" ++ lf.

Definition first_file : UploadedFile := mkUpload "first.csv" sales_csv.
Definition second_file : UploadedFile := mkUpload "second.csv" people_csv.
Definition ragged_file : UploadedFile := mkUpload "ragged.csv" ragged_csv.

Definition clock : datetime := mkDatetime 2024 3 5 9 7 2.

(** The scenarios never export, so no writer is exercised. *)
Definition no_export (df : DataFrame) : string := EmptyString.

(** A run showing [f] with the chart kind at position [chart] selected. *)
Definition visit (f : UploadedFile) (chart : nat) : Interaction :=
  mkInteraction (Some f) 0 0 chart false false clock clock (mkFrame 0 []).

Definition run (i : Interaction) (w : World) : World :=
  fst (main read_csv_plain no_export i w).

Definition after_first_upload : World := run (visit first_file 0) fresh.
Definition after_chart_change : World := run (visit first_file 2) after_first_upload.
Definition after_second_upload : World := run (visit second_file 0) after_first_upload.
Definition after_ragged_upload : World := run (visit ragged_file 0) after_first_upload.

Definition sales : DataFrame :=
  mkFrame 3 [mkSeries "a" float64 [CFloat 1; NaN; CFloat 5];
             mkSeries "b" int64 [CInt 2; CInt 4; CInt 6]].

Definition people : DataFrame :=
  mkFrame 2 [mkSeries "name" object_ [CStr "ann"; CStr "bob"];
             mkSeries "age" int64 [CInt 31; CInt 27]].

Definition stamp : json := JStr "2024-03-05 09:07".

(** A frame with an empty numeric column, a constant one and a text one. *)
Definition survey : DataFrame :=
  mkFrame 2 [mkSeries "empty" float64 [NaN; NaN];
             mkSeries "flat" int64 [CInt 7; CInt 7];
             mkSeries "score" int64 [CInt 1; CInt 2];
             mkSeries "name" object_ [CStr "ann"; CStr "bob"]].

Definition two_uploads : list Interaction :=
  [visit first_file 0; visit second_file 0].

Definition one_record : string :=
  py "[{'filename': 'old.csv', 'timestamp': '2024-03-04 18:30', 'rows': 10, 'columns': 4}]".

Definition with_history (text : string) : World :=
  mkWorld (mkSession None None) None 0
    (fun g => if String.eqb g history_file then Some text else None) [].

Definition new_record : UploadRecord := mkRecord "new.csv" "2024-03-05 09:07" 3 2.

Definition torn_history : string := py "[{'filename': 'old.csv', 'times".


(** A history file written by another program: numbers with a fraction or an
    exponent, a constant and an escaped file name. *)
Definition foreign_history : string :=
  py "[{'filename': '\u6570\ud83d\ude00.csv', 'rows': 1.50, 'columns': 1e3}, -Infinity]".

Definition first_chart : Figure :=
  mkFigure scatter (Some "a") (Some "a") "a vs a".

(** A file without a numeric column. *)
Definition names_csv : string :=
  "name,city" ++ lf ++ "ann,oslo" ++ lf ++ "bob,rome" ++ lf.
Definition names_file : UploadedFile := mkUpload "names.csv" names_csv.
Definition names : DataFrame :=
  mkFrame 2 [mkSeries "name" object_ [CStr "ann"; CStr "bob"];
             mkSeries "city" object_ [CStr "oslo"; CStr "rome"]].
(** A run without a file in which the example button is pressed. *)
Definition example_request : Interaction :=
  mkInteraction None 0 0 0 false true clock clock sales.
(** A history file that holds one record, not a list of records. *)
Definition bare_record : string := py "{'filename': 'old.csv', 'rows': 10}".
Definition old_record : UploadRecord := mkRecord "old.csv" "2024-03-04 18:30" 10 4.
(** A session with an upload, a run without file and a file that cannot be
    read. *)
Definition mixed_runs : list Interaction :=
  [visit first_file 0; example_request; visit ragged_file 1].

End Scenario.

(** * Facts *)

Module JsonFacts.
Import Json.

(** ** Strings of code points *)

Lemma str_eqb_eq a : forall b, str_eqb a b = true <-> a = b.
Proof.
  induction a as [|x a IH]; intros [|y b]; cbn; try (split; congruence).
  rewrite andb_true_iff, N.eqb_eq, IH. split.
  - intros [-> ->]. reflexivity.
  - intros H. injection H as -> ->. auto.
Qed.

Lemma str_eqb_refl a : str_eqb a a = true.
Proof. now apply str_eqb_eq. Qed.

Lemma str_eqb_neq a b : str_eqb a b = false <-> a <> b.
Proof.
  destruct (str_eqb a b) eqn:E.
  - apply str_eqb_eq in E. split; [discriminate | congruence].
  - split; [|reflexivity]. intros _ H. apply str_eqb_eq in H. congruence.
Qed.

Lemma str_dec (a b : str) : {a = b} + {a <> b}.
Proof. apply list_eq_dec, N.eq_dec. Qed.

(** ** What is written is read back *)

(** Hex digits. *)
Lemma hexval_hexdigit d : (d < 16)%N -> hexval (hexdigit d) = Some d.
Proof.
  intros H.
  assert (E : In d [0; 1; 2; 3; 4; 5; 6; 7; 8; 9; 10; 11; 12; 13; 14; 15]%N).
  { cbn. lia. }
  cbn in E.
  repeat (destruct E as [<-|E]; [reflexivity|]). contradiction.
Qed.

Lemma hex4_digits n :
  (n < 65536)%N ->
  hex4 (hexdigit (n / 4096)) (hexdigit ((n / 256) mod 16))
       (hexdigit ((n / 16) mod 16)) (hexdigit (n mod 16)) = Some n.
Proof.
  intros H. unfold hex4.
  rewrite !hexval_hexdigit
    by first [ apply N.mod_lt; discriminate
             | apply N.Div0.div_lt_upper_bound; lia ].
  f_equal.
  pose proof (N.div_mod n 16 ltac:(discriminate)) as E0.
  pose proof (N.div_mod n 256 ltac:(discriminate)) as E1.
  pose proof (N.div_mod n 4096 ltac:(discriminate)) as E2.
  pose proof (N.div_mod (n / 16) 16 ltac:(discriminate)) as E3.
  pose proof (N.div_mod (n / 256) 16 ltac:(discriminate)) as E4.
  rewrite N.Div0.div_div in E3, E4.
  change (16 * 16)%N with 256%N in E3. change (256 * 16)%N with 4096%N in E4.
  lia.
Qed.

Lemma hexval_lt c n : hexval c = Some n -> (n < 16)%N.
Proof.
  unfold hexval.
  repeat match goal with
  | |- context [if ?b then _ else _] => destruct b eqn:?
  end; intros H; try discriminate; injection H as <-;
  repeat match goal with
  | H : (_ && _)%bool = true |- _ => apply andb_true_iff in H; destruct H
  | H : (_ <=? _)%N = true |- _ => apply N.leb_le in H
  end; lia.
Qed.

Lemma hex4_lt a b c d n : hex4 a b c d = Some n -> (n < 65536)%N.
Proof.
  unfold hex4.
  destruct (hexval a) as [x|] eqn:Ea; [|discriminate].
  destruct (hexval b) as [y|] eqn:Eb; [|discriminate].
  destruct (hexval c) as [z|] eqn:Ec; [|discriminate].
  destruct (hexval d) as [w|] eqn:Ed; [|discriminate].
  apply hexval_lt in Ea, Eb, Ec, Ed.
  intros H. injection H as <-. lia.
Qed.

(** [scanstring] at a [\u] escape. *)
Lemma scanstring_u h1 h2 h3 h4 r2 :
  scanstring
    (String backslash (String "u" (String h1 (String h2 (String h3
       (String h4 r2))))))
  = match hex4 h1 h2 h3 h4 with
    | Some n =>
        if is_high n then
          match low_escape r2 with
          | Some (m, r3) => prepend (join n m) (scanstring r3)
          | None => prepend n (scanstring r2)
          end
        else prepend n (scanstring r2)
    | None => None
    end.
Proof.
  cbn [scanstring Ascii.eqb Bool.eqb].
  destruct (hex4 h1 h2 h3 h4) as [n|]; [|reflexivity].
  destruct (is_high n); [|reflexivity].
  unfold low_escape.
  destruct r2 as [|b [|l r2']]; try reflexivity.
  destruct ((b =? "092") && (l =? "u"))%char; [|reflexivity].
  destruct r2' as [|g1 [|g2 [|g3 [|g4 r3]]]]; try reflexivity.
  destruct (hex4 g1 g2 g3 g4) as [m|]; [|reflexivity].
  destruct (is_low m); reflexivity.
Qed.

Lemma scanstring_hex4 n k :
  (n < 65536)%N ->
  scanstring (emit_hex4 n k)
  = if is_high n then
      match low_escape k with
      | Some (m, r3) => prepend (join n m) (scanstring r3)
      | None => prepend n (scanstring k)
      end
    else prepend n (scanstring k).
Proof.
  intros H. unfold emit_hex4. rewrite scanstring_u, hex4_digits by assumption.
  reflexivity.
Qed.

Lemma low_escape_hex4 n k :
  (n < 65536)%N ->
  low_escape (emit_hex4 n k) = if is_low n then Some (n, k) else None.
Proof.
  intros H. unfold emit_hex4, low_escape.
  cbn [Ascii.eqb Bool.eqb andb]. now rewrite hex4_digits.
Qed.

Lemma short_cases c :
  short c = true ->
  In c [34; 92; 10; 13; 9; 8; 12]%N \/ (32 <= c <= 126)%N.
Proof.
  unfold short. rewrite !orb_true_iff, andb_true_iff, !N.eqb_eq, !N.leb_le.
  cbn [In]. intuition.
Qed.

Lemma ascii_cases c (P : N -> Prop) :
  (32 <= c <= 126)%N ->
  (forall a : ascii, (32 <= code a <= 126)%N -> P (code a)) -> P c.
Proof.
  intros Hc H. 
  replace c with (code (ascii_of_N c)).
  - apply H. unfold code. rewrite N_ascii_embedding; lia.
  - unfold code. apply N_ascii_embedding. lia.
Qed.

Lemma escape_char_short c k :
  short c = true ->
  scanstring (escape_char c k) = prepend c (scanstring k) /\
  low_escape (escape_char c k) = None.
Proof.
  intros H. apply short_cases in H. destruct H as [H|H].
  - cbn [In] in H.
    repeat (destruct H as [<-|H]; [split; reflexivity|]). contradiction.
  - assert (E : exists a : ascii, c = code a /\ (32 <= code a <= 126)%N).
    { exists (ascii_of_N c). unfold code.
      rewrite N_ascii_embedding by lia. split; [reflexivity | lia]. }
    destruct E as (a & -> & Ha). clear H.
    unfold code in *.
    destruct a as [[] [] [] [] [] [] [] []]; cbn in Ha; try lia;
      (split; [reflexivity | destruct k; reflexivity]).
Qed.

Lemma short_false c :
  short c = false ->
  escape_char c = fun k =>
    if (c <? 65536)%N then emit_hex4 c k
    else emit_hex4 (55296 + (c - 65536) / 1024)
           (emit_hex4 (56320 + (c - 65536) mod 1024) k).
Proof.
  unfold short, escape_char. rewrite !orb_false_iff.
  intros [[[[[[[-> ->] ->] ->] ->] ->] ->] ->]. reflexivity.
Qed.

Lemma is_high_low c : is_high c = true -> is_low c = false.
Proof.
  unfold is_high, is_low. rewrite andb_true_iff, andb_false_iff, !N.leb_le,
    !N.leb_gt. lia.
Qed.

(** One code point, whatever comes after it, as long as a high surrogate is
    not followed by the escape of a low one. *)
Lemma scanstring_escape_char c k :
  (c <= 1114111)%N ->
  (is_high c = true -> low_escape k = None) ->
  scanstring (escape_char c k) = prepend c (scanstring k).
Proof.
  intros Hc Hk. destruct (short c) eqn:Es.
  - now apply escape_char_short.
  - rewrite (short_false c Es). destruct (c <? 65536)%N eqn:E.
    + apply N.ltb_lt in E. rewrite scanstring_hex4 by assumption.
      destruct (is_high c); [|reflexivity]. now rewrite Hk.
    + apply N.ltb_ge in E.
      assert (H1 : ((c - 65536) / 1024 < 1024)%N)
        by (apply N.Div0.div_lt_upper_bound; lia).
      assert (H2 : ((c - 65536) mod 1024 < 1024)%N)
        by (apply N.mod_lt; discriminate).
      rewrite scanstring_hex4 by lia.
      rewrite low_escape_hex4 by lia.
      pose proof (N.div_mod (c - 65536) 1024 ltac:(discriminate)) as Hd.
      set (q := ((c - 65536) / 1024)%N) in *.
      set (m := ((c - 65536) mod 1024)%N) in *.
      assert (Hh : is_high (55296 + q) = true)
        by (unfold is_high; apply andb_true_iff; split; apply N.leb_le; lia).
      assert (Hl : is_low (56320 + m) = true)
        by (unfold is_low; apply andb_true_iff; split; apply N.leb_le; lia).
      rewrite Hh, Hl. f_equal. unfold join. lia.
Qed.

(** The head of a written code point is the escape of a low surrogate only
    for a low surrogate. *)
Lemma low_escape_escape_char c k :
  (c <= 1114111)%N -> is_low c = false -> low_escape (escape_char c k) = None.
Proof.
  intros Hc Hl. destruct (short c) eqn:Es.
  - now apply escape_char_short.
  - rewrite (short_false c Es). destruct (c <? 65536)%N eqn:E.
    + apply N.ltb_lt in E. rewrite low_escape_hex4 by assumption.
      now rewrite Hl.
    + apply N.ltb_ge in E.
      assert (H1 : ((c - 65536) / 1024 < 1024)%N)
        by (apply N.Div0.div_lt_upper_bound; lia).
      set (q := ((c - 65536) / 1024)%N) in *.
      rewrite low_escape_hex4 by lia.
      rewrite is_high_low; [reflexivity|]. unfold is_high.
      apply andb_true_iff; split; apply N.leb_le; lia.
Qed.

Lemma str_ok_cons c r :
  str_ok (c :: r) = true ->
  (c <= 1114111)%N /\
  (is_high c = true -> match r with d :: _ => is_low d = false | [] => True end)
  /\ str_ok r = true.
Proof.
  cbn [str_ok]. rewrite !andb_true_iff, N.leb_le, negb_true_iff.
  intros [[H1 H2] H3]. repeat split; try assumption.
  intros Hh. rewrite Hh in H2. destruct r; [exact I | exact H2].
Qed.

Lemma str_of_ok (s : string) : str_ok (str_of s) = true.
Proof.
  unfold str_of. induction s as [|c s IH]; [reflexivity|].
  cbn [list_ascii_of_string map str_ok]. rewrite IH, andb_true_r.
  pose proof (N_ascii_bounded c) as Hc. fold (code c) in Hc.
  apply andb_true_iff. split; [apply N.leb_le; lia|].
  apply negb_true_iff, andb_false_iff. left.
  unfold is_high. apply andb_false_iff. left. apply N.leb_gt. lia.
Qed.

Lemma scanstring_escape (s : str) (k : string) :
  str_ok s = true -> scanstring (escape s (String dquote k)) = Some (s, k).
Proof.
  induction s as [|c s IH]; intros H; cbn [escape].
  - reflexivity.
  - apply str_ok_cons in H. destruct H as (Hc & Hh & Hs).
    rewrite scanstring_escape_char;
      [rewrite IH by assumption; reflexivity | assumption |].
    intros Hi. specialize (Hh Hi).
    destruct s as [|d s']; [cbn [escape]; destruct k; reflexivity|].
    cbn [escape]. apply str_ok_cons in Hs.
    apply low_escape_escape_char; [apply Hs | exact Hh].
Qed.


(** Integers.  [Pos.to_uint] writes no leading zero. *)
Lemma nondigit_digit k : nondigit k ->
  match k with
  | EmptyString => True
  | String c _ => digit_of c = None
  end.
Proof. destruct k; [trivial | intros [H _]; exact H]. Qed.

Lemma scan_digits_stop (d : uint) (k : string) :
  match k with
  | EmptyString => True
  | String c _ => digit_of c = None
  end ->
  scan_digits (emit_uint d k) = (d, k).
Proof.
  intros Hk. induction d; simpl; try (rewrite IHd; reflexivity).
  destruct k as [|c r]; simpl in *; [reflexivity | now rewrite Hk].
Qed.

Lemma scan_digits_emit (d : uint) (k : string) :
  nondigit k -> scan_digits (emit_uint d k) = (d, k).
Proof. intros Hk. apply scan_digits_stop, nondigit_digit, Hk. Qed.

Lemma nzhead_not_D0 (d d' : uint) : nzhead d <> D0 d'.
Proof. induction d; simpl; try discriminate; assumption. Qed.

Lemma to_uint_head (p : positive) :
  Pos.to_uint p <> Nil /\ forall d, Pos.to_uint p <> D0 d.
Proof.
  split; [apply DecimalPos.Unsigned.to_uint_nonnil|].
  intros d H.
  pose proof (DecimalPos.Unsigned.to_of (Pos.to_uint p)) as E.
  rewrite DecimalPos.Unsigned.of_to in E. simpl in E.
  rewrite H in E. unfold unorm in E. simpl in E.
  destruct (nzhead d) eqn:N; try discriminate.
  - injection E as ->. apply (DecimalPos.Unsigned.to_uint_nonzero p). exact H.
  - exfalso. injection E as E. apply (nzhead_not_D0 d u). rewrite N. f_equal.
Qed.

Lemma scan_nat_pos (p : positive) (k : string) :
  match k with
  | EmptyString => True
  | String c _ => digit_of c = None
  end ->
  scan_nat (emit_uint (Pos.to_uint p) k) = Some (Npos p, k).
Proof.
  intros Hk. destruct (to_uint_head p) as [Hnil Hz].
  pose proof (DecimalPos.Unsigned.of_to p) as Hof.
  pose proof (scan_digits_stop (Pos.to_uint p) k Hk) as Hs.
  unfold scan_nat.
  destruct (Pos.to_uint p) as [|d|d|d|d|d|d|d|d|d|d];
    try congruence; try (now elim (Hz d));
    cbn [emit_uint] in *; cbn [Ascii.eqb Bool.eqb]; rewrite Hs;
    unfold N.of_uint; rewrite Hof; reflexivity.
Qed.

Lemma scan_nat_emit (n : N) (k : string) :
  match k with
  | EmptyString => True
  | String c _ => digit_of c = None
  end ->
  scan_nat (emit_nat n k) = Some (n, k).
Proof.
  intros Hk. destruct n as [|p]; [reflexivity|]. now apply scan_nat_pos.
Qed.

Lemma emit_uint_digit d k : d <> Nil -> digit_head (emit_uint d k).
Proof. destruct d; cbn; intros H; try congruence; eexists; reflexivity. Qed.

Lemma emit_nat_digit n k : digit_head (emit_nat n k).
Proof.
  destruct n as [|p]; cbn [emit_nat]; [eexists; reflexivity|].
  apply emit_uint_digit, to_uint_head.
Qed.

Lemma digit_not c dn (a : ascii) :
  digit_of c = Some dn -> digit_of a = None -> (c =? a)%char = false.
Proof.
  intros Hc Ha. destruct (c =? a)%char eqn:E; [|reflexivity].
  apply Ascii.eqb_eq in E. congruence.
Qed.

Lemma scan_frac_none k :
  nondigit k -> scan_frac k = (Nil, k).
Proof.
  destruct k as [|c r]; [reflexivity|]. intros [_ H].
  apply orb_false_iff in H. destruct H as [H _].
  apply orb_false_iff in H. destruct H as [H _].
  cbn [scan_frac]. now rewrite H.
Qed.

Lemma scan_exp_none k :
  nondigit k -> scan_exp k = (None, k).
Proof.
  destruct k as [|c r]; [reflexivity|]. intros [_ H].
  apply orb_false_iff in H. destruct H as [H H3].
  apply orb_false_iff in H. destruct H as [_ H2].
  cbn [scan_exp]. now rewrite H2, H3.
Qed.

Lemma scan_exp_emit e k :
  match e with
  | Some e => nonnil (e_digits e) = true
  | None => True
  end ->
  nondigit k -> scan_exp (emit_exp e k) = (e, k).
Proof.
  intros He Hk. destruct e as [[up sg d]|]; [|now apply scan_exp_none].
  cbn [e_digits] in He. cbn [emit_exp e_upper e_sign e_digits].
  assert (Hd : d <> Nil) by (destruct d; [discriminate He | discriminate..]).
  assert (Hs : exp_sign match sg with
                        | Some true => String "-" (emit_uint d k)
                        | Some false => String "+" (emit_uint d k)
                        | None => emit_uint d k
                        end = (sg, emit_uint d k)).
  { destruct sg as [[|]|]; try reflexivity.
    pose proof (emit_uint_digit d k Hd) as Hh.
    destruct (emit_uint d k) as [|c r]; [contradiction|].
    destruct Hh as (dn & Hc). cbn [exp_sign].
    rewrite (digit_not c dn "+" Hc eq_refl), (digit_not c dn "-" Hc eq_refl).
    reflexivity. }
  destruct up; cbn [scan_exp Ascii.eqb Bool.eqb orb]; rewrite Hs;
    rewrite (scan_digits_emit d k Hk);
    destruct d; try congruence; reflexivity.
Qed.

Lemma emit_exp_head e k :
  nondigit k ->
  match emit_exp e k with
  | EmptyString => True
  | String c _ => digit_of c = None /\ (c =? ".")%char = false
  end.
Proof.
  intros Hk. destruct e as [[[|] sg d]|]; cbn [emit_exp e_upper];
    try (split; reflexivity).
  destruct k as [|c r]; [exact I|]. destruct Hk as [H1 H2].
  apply orb_false_iff in H2. destruct H2 as [H2 _].
  apply orb_false_iff in H2. destruct H2 as [H2 _]. auto.
Qed.

Lemma scan_frac_emit d e k :
  nondigit k -> scan_frac (emit_frac d (emit_exp e k)) = (d, emit_exp e k).
Proof.
  intros Hk. pose proof (emit_exp_head e k Hk) as Hh.
  destruct d eqn:Ed;
    [ cbn [emit_frac]; destruct (emit_exp e k) as [|c r];
      [reflexivity | cbn [scan_frac]; destruct Hh as [_ ->]; reflexivity]
    | .. ];
    rewrite <- Ed; (assert (Hn : d <> Nil) by (rewrite Ed; discriminate));
    (replace (emit_frac d (emit_exp e k))
       with (String "." (emit_uint d (emit_exp e k)))
       by (rewrite Ed; reflexivity));
    cbn [scan_frac Ascii.eqb Bool.eqb];
    (rewrite scan_digits_stop
       by (destruct (emit_exp e k); [exact I | apply Hh]));
    rewrite Ed; reflexivity.
Qed.

Lemma emit_frac_head d e k :
  nondigit k ->
  match emit_frac d (emit_exp e k) with
  | EmptyString => True
  | String c _ => digit_of c = None
  end.
Proof.
  intros Hk. pose proof (emit_exp_head e k Hk) as Hh.
  destruct d; cbn [emit_frac]; try reflexivity.
  destruct (emit_exp e k); [exact I | apply Hh].
Qed.

(** The text written for the float of a literal is written for the float it
    reads back as. *)
Lemma float_repr_canonical t : tok_ok t = true -> canonical (float_repr t).
Proof.
  intros Ht.
  assert (Hself : float_repr t = PyNum t -> canonical (float_repr t)).
  { intros E. rewrite E. split; assumption. }
  unfold float_repr in *.
  destruct (py_repr t) as [|neg|t'] eqn:E; try exact I.
  destruct (tok_ok t') eqn:Ok; [|now apply Hself].
  destruct (py_repr t') as [|neg'|t''] eqn:E'; try now apply Hself.
  destruct (tok_eq_dec t'' t') as [->|Hn]; [|now apply Hself].
  split; [exact Ok|]. unfold float_repr. rewrite E', Ok, E'.
  destruct (tok_eq_dec t' t'); [reflexivity | congruence].
Qed.

Lemma scan_number_emit (z : Z) (k : string) :
  nondigit k -> scan_number (emit_int z k) = Some (JInt z, k).
Proof.
  intros Hk. pose proof (nondigit_digit k Hk) as Hd.
  unfold scan_number. destruct z as [|p|p]; cbn [emit_int].
  - cbn [Ascii.eqb Bool.eqb scan_nat].
    now rewrite scan_frac_none, scan_exp_none.
  - pose proof (emit_uint_digit (Pos.to_uint p) k (proj1 (to_uint_head p)))
      as Hh.
    pose proof (scan_nat_pos p k Hd) as Hs.
    destruct (emit_uint (Pos.to_uint p) k) as [|c r]; [contradiction|].
    destruct Hh as (dn & Hc).
    rewrite (digit_not c dn "-" Hc eq_refl), Hs.
    now rewrite scan_frac_none, scan_exp_none.
  - cbn [Ascii.eqb Bool.eqb]. rewrite (scan_nat_pos p k Hd).
    now rewrite scan_frac_none, scan_exp_none.
Qed.

Lemma scan_number_tok (t : float_tok) (k : string) :
  tok_ok t = true -> nondigit k ->
  scan_number (emit_tok t k) = Some (JFloat (float_repr t), k).
Proof.
  intros Ht Hk. destruct t as [neg n fr ex]. unfold tok_ok in Ht.
  cbn [t_exp t_frac] in Ht.
  assert (He : match ex with
               | Some e => nonnil (e_digits e) = true
               | None => True
               end) by (destruct ex; [exact Ht | exact I]).
  assert (Hs : scan_nat (emit_nat n (emit_frac fr (emit_exp ex k)))
               = Some (n, emit_frac fr (emit_exp ex k)))
    by (apply scan_nat_emit, emit_frac_head, Hk).
  assert (Hbody :
    match scan_nat (emit_nat n (emit_frac fr (emit_exp ex k))) with
    | None => None
    | Some (n', r) =>
        let (fr', r1) := scan_frac r in
        let (ex', r2) := scan_exp r1 in
        match fr', ex' with
        | Nil, None =>
            Some (JInt (if neg then (- Z.of_N n')%Z else Z.of_N n'), r)
        | _, _ => Some (JFloat (float_repr (mkTok neg n' fr' ex')), r2)
        end
    end = Some (JFloat (float_repr (mkTok neg n fr ex)), k)).
  { rewrite Hs, scan_frac_emit, scan_exp_emit by assumption.
    destruct fr; try reflexivity. destruct ex; [reflexivity|].
    discriminate Ht. }
  unfold scan_number, emit_tok. cbn [t_neg t_int t_frac t_exp].
  destruct neg.
  - cbn [Ascii.eqb Bool.eqb]. exact Hbody.
  - pose proof (emit_nat_digit n (emit_frac fr (emit_exp ex k))) as Hh.
    destruct (emit_nat n (emit_frac fr (emit_exp ex k))) as [|c r] eqn:E;
      [contradiction|].
    destruct Hh as (dn & Hc).
    rewrite (digit_not c dn "-" Hc eq_refl). exact Hbody.
Qed.


(** Lists and dicts: [emit] in terms of the text of the remaining elements. *)
Lemma emit_arr (x : json) (xs : list json) (k : string) :
  emit (JArr (x :: xs)) k = String "[" (emit x (emit_items xs k)).
Proof.
  cbn [emit]. do 2 f_equal.
  induction xs as [|y ys IH]; cbn [emit_items]; [reflexivity | now rewrite IH].
Qed.

Lemma emit_obj (key : str) (x : json) (xs : list (str * json))
    (k : string) :
  emit (JObj ((key, x) :: xs)) k
  = String "{" (emit_member key x (emit_members xs k)).
Proof.
  cbn [emit]. unfold emit_member. do 5 f_equal.
  induction xs as [|[key' y] ys IH]; cbn [emit_members]; [reflexivity|].
  unfold emit_member. now rewrite IH.
Qed.

Lemma size_arr l : size (JArr l) = S (items_size l).
Proof. reflexivity. Qed.

Lemma size_obj l : size (JObj l) = S (members_size l).
Proof. reflexivity. Qed.

Lemma wf_arr l : wf (JArr l) <-> Forall wf l.
Proof.
  cbn [wf]. induction l as [|x xs IH].
  - split; constructor.
  - rewrite IH. split.
    + intros [? ?]. now constructor.
    + intros H. inversion H. now split.
Qed.

Lemma wf_obj l :
  wf (JObj l) <->
  NoDup (keys l) /\
  Forall (fun kv => str_ok (fst kv) = true /\ wf (snd kv)) l.
Proof.
  cbn [wf]. apply and_iff_compat_l.
  induction l as [|x xs IH].
  - split; constructor.
  - rewrite IH. split.
    + intros [? ?]. now constructor.
    + intros H. inversion H. now split.
Qed.

(** No blank is written before a value, and a value does not start like the
    end of a list. *)
Lemma emit_uint_head d k : d <> Nil -> value_head (emit_uint d k).
Proof. destruct d; cbn; intros; try easy. Qed.

Lemma emit_nat_head n k : value_head (emit_nat n k).
Proof.
  destruct n; cbn [emit_nat]; [easy | apply emit_uint_head, to_uint_head].
Qed.

Lemma emit_head v k : value_head (emit v k).
Proof.
  destruct v as [|[]|[|p|p]|[|[]|[[] n fr ex]]|s|[|x xs]|[|[key x] xs]];
    cbn [emit emit_int emit_float emit_tok encode_string value_head append
         is_ws Ascii.eqb Bool.eqb orb t_neg t_int];
    try easy.
  all: first [apply emit_uint_head, to_uint_head | apply emit_nat_head].
Qed.

Lemma skip_ws_head s : value_head s -> skip_ws s = s.
Proof. destruct s as [|c r]; cbn; [easy|]. intros [-> _]. reflexivity. Qed.

Lemma nondigit_items xs k : nondigit (emit_items xs k).
Proof. destruct xs; split; reflexivity. Qed.

Lemma nondigit_members xs k : nondigit (emit_members xs k).
Proof. destruct xs as [|[? ?] ?]; split; reflexivity. Qed.

(** The loops read back the elements they are given the text of. *)
Lemma array_loop_emit (xs : list json) :
  Forall reads_back xs -> Forall wf xs ->
  forall x acc k fuel,
    reads_back x -> wf x -> nondigit k ->
    S (size x + items_size xs) <= fuel ->
    array_loop fuel (emit x (emit_items xs k)) acc = Some (acc ++ x :: xs, k).
Proof.
  induction 1 as [|y ys Hy Hys IH]; intros Hwf x acc k fuel Hx Wx Hk Hf;
    (destruct fuel as [|fuel]; [lia|]); cbn [array_loop items_size] in *.
  - rewrite (Hx Wx) by (cbn; lia || (split; reflexivity)). reflexivity.
  - inversion Hwf; subst.
    rewrite (Hx Wx) by (cbn; lia || (split; reflexivity)).
    cbn [emit_items skip_ws is_ws Ascii.eqb Bool.eqb orb].
    rewrite (skip_ws_head _ (emit_head _ _)).
    rewrite IH by (trivial; lia).
    now rewrite <- List.app_assoc.
Qed.

Lemma dict_set_fresh key x acc :
  ~ In key (keys acc) -> dict_set key x acc = acc ++ [(key, x)].
Proof.
  induction acc as [|[k' v'] acc IH]; cbn; intros Hn; [reflexivity|].
  destruct (str_eqb key k') eqn:E.
  - apply str_eqb_eq in E. subst. tauto.
  - rewrite IH by tauto. reflexivity.
Qed.

Lemma NoDup_keys_app acc key (x : json) xs :
  NoDup (keys (acc ++ (key, x) :: xs)) ->
  ~ In key (keys acc) /\ NoDup (keys ((acc ++ [(key, x)]) ++ xs)).
Proof.
  intros H. split.
  - unfold keys in *. rewrite map_app in H. cbn in H.
    apply NoDup_remove_2 in H. intros Hin. apply H, in_or_app. now left.
  - now rewrite <- List.app_assoc.
Qed.

Lemma object_loop_emit (xs : list (str * json)) :
  Forall (fun kv => reads_back (snd kv)) xs ->
  Forall (fun kv => str_ok (fst kv) = true /\ wf (snd kv)) xs ->
  forall key x acc k fuel,
    reads_back x -> str_ok key = true -> wf x -> nondigit k ->
    NoDup (keys (acc ++ (key, x) :: xs)) ->
    S (size x + members_size xs) <= fuel ->
    object_loop fuel (emit_member key x (emit_members xs k)) acc
    = Some (acc ++ (key, x) :: xs, k).
Proof.
  induction 1 as [|[key' y] ys Hy Hys IH];
    intros Hwf key x acc k fuel Hx Kx Wx Hk Hnd Hf;
    (destruct fuel as [|fuel]; [lia|]);
    destruct (NoDup_keys_app _ _ _ _ Hnd) as [Hfresh Hnd'];
    cbn [members_size snd] in *;
    unfold emit_member, encode_string; cbn [object_loop];
    rewrite Ascii.eqb_refl, scanstring_escape by assumption;
    cbn [skip_ws is_ws Ascii.eqb Bool.eqb orb];
    rewrite (skip_ws_head _ (emit_head _ _)).
  - rewrite (Hx Wx) by (cbn; lia || (split; reflexivity)).
    cbn [emit_members skip_ws is_ws Ascii.eqb Bool.eqb orb].
    now rewrite dict_set_fresh.
  - inversion Hwf as [|? ? [Ky Wy] Hwf']; subst. cbn [fst snd] in *.
    rewrite (Hx Wx) by (apply nondigit_members || lia).
    cbn [emit_members skip_ws is_ws Ascii.eqb Bool.eqb orb].
    unfold emit_member at 1, encode_string at 1.
    cbn [skip_ws is_ws Ascii.eqb Bool.eqb orb].
    rewrite dict_set_fresh by assumption.
    change (String "034" (escape key' (String "034"
              (String ":" (String " " (emit y (emit_members ys k)))))))
      with (emit_member key' y (emit_members ys k)).
    rewrite IH by (trivial; lia).
    now rewrite <- List.app_assoc.
Qed.

(** A text that starts with a digit is read as a number. *)
Lemma scan_once_digit fuel s :
  digit_head s -> scan_once (S fuel) s = scan_number s.
Proof.
  destruct s as [|c r]; [contradiction|]. intros (dn & Hc).
  cbn [scan_once].
  repeat match goal with
  | |- context [if (c =? ?a)%char then _ else _] =>
      rewrite (digit_not c dn a Hc eq_refl)
  end.
  reflexivity.
Qed.

Lemma expect_digit s : digit_head s -> expect "Infinity" s = None.
Proof.
  destruct s as [|c r]; [contradiction|]. intros (dn & Hc).
  cbn [expect].
  rewrite (Ascii.eqb_sym "I" c), (digit_not c dn "I" Hc eq_refl). reflexivity.
Qed.

(** So is a minus sign before a digit. *)
Lemma scan_once_minus fuel s :
  digit_head s -> scan_once (S fuel) (String "-" s) = scan_number (String "-" s).
Proof.
  intros H. cbn [scan_once Ascii.eqb Bool.eqb].
  now rewrite expect_digit.
Qed.

Lemma scan_once_int z k fuel :
  nondigit k -> scan_once (S fuel) (emit_int z k) = Some (JInt z, k).
Proof.
  intros Hk. rewrite <- (scan_number_emit z k Hk).
  destruct z as [|p|p]; cbn [emit_int].
  - reflexivity.
  - apply scan_once_digit, emit_uint_digit, to_uint_head.
  - apply scan_once_minus, emit_uint_digit, to_uint_head.
Qed.

Lemma scan_once_float x k fuel :
  canonical x -> nondigit k ->
  scan_once (S fuel) (emit_float x k) = Some (JFloat x, k).
Proof.
  intros Hx Hk. destruct x as [|[|]|t]; try reflexivity.
  destruct Hx as [Ht Hr]. cbn [emit_float].
  rewrite <- Hr. rewrite <- (scan_number_tok t k Ht Hk).
  unfold emit_tok. destruct (t_neg t).
  - apply scan_once_minus, emit_nat_digit.
  - apply scan_once_digit, emit_nat_digit.
Qed.

(** Every value is read back from its text, whatever follows it. *)
Theorem scan_once_emit (v : json) : reads_back v.
Proof.
  induction v as [|b|z|x|s|l IH|l IH] using json_nested_ind;
    intros W k fuel Hk Hf; (destruct fuel as [|fuel]; [cbn in Hf; lia|]).
  - reflexivity.
  - destruct b; reflexivity.
  - now apply scan_once_int.
  - now apply scan_once_float.
  - cbn [emit encode_string scan_once]. rewrite Ascii.eqb_refl.
    cbn [wf] in W. now rewrite scanstring_escape.
  - destruct l as [|x xs]; [reflexivity|].
    rewrite emit_arr. rewrite size_arr in Hf. cbn [items_size] in Hf.
    apply wf_arr in W. inversion W; subst. inversion IH; subst.
    cbn [scan_once Ascii.eqb Bool.eqb].
    rewrite (skip_ws_head _ (emit_head _ _)).
    pose proof (emit_head x (emit_items xs k)) as Hh.
    destruct (emit x (emit_items xs k)) as [|c1 r1] eqn:E; [easy|].
    destruct Hh as [_ ->]. rewrite <- E.
    rewrite array_loop_emit by (trivial; lia). reflexivity.
  - destruct l as [|[key x] xs]; [reflexivity|].
    rewrite emit_obj. rewrite size_obj in Hf. cbn [members_size snd] in Hf.
    apply wf_obj in W. destruct W as [Hnd W].
    inversion W as [|? ? [Kx Wx] W']; subst.
    inversion IH; subst. cbn [fst snd] in *.
    cbn [scan_once Ascii.eqb Bool.eqb].
    unfold emit_member at 1, encode_string at 1.
    cbn [skip_ws is_ws Ascii.eqb Bool.eqb orb].
    change (String "034" (escape key (String "034"
              (String ":" (String " " (emit x (emit_members xs k)))))))
      with (emit_member key x (emit_members xs k)).
    rewrite (object_loop_emit xs) by (trivial; lia). reflexivity.
Qed.


(** The text of a value is at least as long as the fuel reading it takes. *)
Lemma escape_char_length c k :
  S (String.length k) <= String.length (escape_char c k).
Proof.
  unfold escape_char, emit_hex4.
  repeat match goal with
  | |- context [if ?b then _ else _] => destruct b
  end; cbn [String.length]; lia.
Qed.

Lemma escape_length s k : String.length k <= String.length (escape s k).
Proof.
  induction s as [|c s IH]; cbn [escape]; [lia|].
  pose proof (escape_char_length c (escape s k)). lia.
Qed.

Lemma encode_string_length s k :
  2 + String.length k <= String.length (encode_string s k).
Proof.
  unfold encode_string. cbn [String.length].
  pose proof (escape_length s (String dquote k)) as H.
  cbn [String.length] in H. lia.
Qed.

Lemma emit_uint_length d k :
  String.length k <= String.length (emit_uint d k) /\
  (d <> Nil -> S (String.length k) <= String.length (emit_uint d k)).
Proof.
  induction d; cbn [emit_uint String.length];
    (split; [lia | intros H; (congruence || lia)]).
Qed.

Lemma emit_int_length z k :
  S (String.length k) <= String.length (emit_int z k).
Proof.
  destruct z as [|p|p]; cbn [emit_int String.length].
  - lia.
  - apply emit_uint_length, to_uint_head.
  - pose proof (emit_uint_length (Pos.to_uint p) k). lia.
Qed.

Lemma emit_nat_length n k :
  S (String.length k) <= String.length (emit_nat n k).
Proof.
  destruct n as [|p]; cbn [emit_nat String.length]; [lia|].
  apply emit_uint_length, to_uint_head.
Qed.

Lemma emit_frac_length d k :
  String.length k <= String.length (emit_frac d k).
Proof.
  pose proof (emit_uint_length d k) as [H _].
  destruct d; cbn [emit_frac String.length] in *; lia.
Qed.

Lemma emit_exp_length e k :
  String.length k <= String.length (emit_exp e k).
Proof.
  destruct e as [[up [[|]|] d]|]; cbn [emit_exp e_sign e_digits String.length];
    try lia; pose proof (emit_uint_length d k) as [H _]; lia.
Qed.

Lemma emit_float_length x k :
  S (String.length k) <= String.length (emit_float x k).
Proof.
  destruct x as [|[|]|[neg n fr ex]]; cbn [emit_float];
    try (cbn [append String.length]; lia).
  unfold emit_tok. cbn [t_neg t_int t_frac t_exp].
  pose proof (emit_nat_length n (emit_frac fr (emit_exp ex k))).
  pose proof (emit_frac_length fr (emit_exp ex k)).
  pose proof (emit_exp_length ex k).
  destruct neg; cbn [String.length]; lia.
Qed.

Lemma emit_length (v : json) :
  forall k, size v + String.length k <= String.length (emit v k).
Proof.
  induction v as [|b|z|x|s|l IH|l IH] using json_nested_ind; intros k.
  - cbn. lia.
  - destruct b; cbn; lia.
  - apply emit_int_length.
  - apply emit_float_length.
  - pose proof (encode_string_length s k). cbn [size emit]. lia.
  - destruct l as [|x xs]; [cbn; lia|].
    rewrite emit_arr, size_arr. cbn [items_size String.length].
    inversion IH as [|? ? Hx Hxs]; subst.
    specialize (Hx (emit_items xs k)).
    enough (items_size xs + String.length k + 1
            <= String.length (emit_items xs k)) by lia.
    clear Hx IH. induction Hxs as [|y ys Hy _ IHys];
      cbn [items_size emit_items String.length]; [lia|].
    specialize (Hy (emit_items ys k)). lia.
  - destruct l as [|[key x] xs]; [cbn; lia|].
    rewrite emit_obj, size_obj. cbn [members_size String.length snd].
    inversion IH as [|? ? Hx Hxs]; subst. cbn [snd] in Hx.
    specialize (Hx (emit_members xs k)).
    unfold emit_member.
    pose proof (encode_string_length key
      (String ":" (String " " (emit x (emit_members xs k))))) as Hk.
    cbn [String.length] in Hk.
    enough (members_size xs + String.length k + 1
            <= String.length (emit_members xs k)) by lia.
    clear Hx Hk IH. induction Hxs as [|[key' y] ys Hy _ IHys];
      cbn [members_size emit_members String.length snd]; [lia|].
    cbn [snd] in Hy. specialize (Hy (emit_members ys k)).
    unfold emit_member.
    pose proof (encode_string_length key'
      (String ":" (String " " (emit y (emit_members ys k))))) as Hk.
    cbn [String.length] in Hk. lia.
Qed.

(** [json.loads(json.dumps(v)) == v]. *)
Theorem loads_dumps (v : json) : wf v -> loads (dumps v) = ok v.
Proof.
  intros W. unfold loads, dumps.
  rewrite (skip_ws_head _ (emit_head v EmptyString)).
  rewrite (scan_once_emit v W); [reflexivity | exact I |].
  pose proof (emit_length v EmptyString). unfold fuel_for.
  cbn [String.length] in *. lia.
Qed.

(** ** What is read is a Python value *)

Lemma dict_set_keys k v d :
  In k (keys d) -> keys (dict_set k v d) = keys d.
Proof.
  induction d as [|[k' v'] d IH]; cbn; [easy|].
  intros [Heq|Hin]; destruct (str_eqb k k') eqn:E; try reflexivity.
  - apply str_eqb_neq in E. congruence.
  - cbn. f_equal. now apply IH.
Qed.

Lemma dict_set_ok k v d :
  str_ok k = true -> wf v -> dict_ok d -> dict_ok (dict_set k v d).
Proof.
  intros Kk Wv [Hnd Hwf]. split.
  - destruct (in_dec str_dec k (keys d)) as [Hin|Hn].
    + now rewrite dict_set_keys.
    + rewrite dict_set_fresh by assumption. unfold keys. rewrite map_app.
      apply NoDup_app; [assumption | repeat constructor; easy |].
      intros a Ha [<-|[]]. contradiction.
  - clear Hnd. induction Hwf as [|[k' v'] d Hv Hd IH]; cbn.
    + repeat constructor; assumption.
    + destruct (str_eqb k k'); constructor; try assumption.
      cbn [fst snd] in *. split; [apply Hv | exact Wv].
Qed.

(** The strings that are read. *)
Lemma is_low_bound c : is_low c = true -> (56320 <= c <= 57343)%N.
Proof.
  unfold is_low. rewrite andb_true_iff, !N.leb_le. trivial.
Qed.

Lemma is_high_bound c : is_high c = true -> (55296 <= c <= 56319)%N.
Proof.
  unfold is_high. rewrite andb_true_iff, !N.leb_le. trivial.
Qed.

Lemma not_low c : (c < 56320 \/ 57343 < c)%N -> is_low c = false.
Proof.
  intros H. unfold is_low. apply andb_false_iff. rewrite !N.leb_gt. lia.
Qed.

Lemma not_high c : (c < 55296 \/ 56319 < c)%N -> is_high c = false.
Proof.
  intros H. unfold is_high. apply andb_false_iff. rewrite !N.leb_gt. lia.
Qed.

Lemma unescape_small e ch : unescape e = Some ch -> (ch < 256)%N.
Proof.
  unfold unescape.
  repeat match goal with
  | |- context [if ?b then _ else _] => destruct b
  end; intros H; try discriminate; injection H as <-; lia.
Qed.

Lemma code_small c : (code c < 256)%N.
Proof. unfold code. apply N_ascii_bounded. Qed.

Lemma low_escape_some s m r :
  low_escape s = Some (m, r) -> is_low m = true.
Proof.
  unfold low_escape.
  destruct s as [|b [|l r0]]; try discriminate.
  destruct ((b =? "092") && (l =? "u"))%char; [|discriminate].
  destruct r0 as [|h1 [|h2 [|h3 [|h4 r']]]]; try discriminate.
  destruct (hex4 h1 h2 h3 h4) as [n|]; [|discriminate].
  destruct (is_low n) eqn:E; [|discriminate].
  intros H. now injection H as <- _.
Qed.

(** One step of [scanstring], by the head of what it returns. *)
Lemma scanstring_step s x r :
  scanstring s = Some (x, r) ->
  x = [] \/
  exists c x' s',
    x = c :: x' /\ scanstring s' = Some (x', r) /\
    String.length s' < String.length s /\
    (c <= 1114111)%N /\
    (is_low c = true -> exists r0, low_escape s = Some (c, r0)) /\
    (is_high c = true -> low_escape s' = None).
Proof.
  destruct s as [|c s]; [discriminate|]. cbn [scanstring].
  destruct (c =? "034")%char eqn:Eq.
  { intros H. injection H as <- _. now left. }
  assert (Hp : forall n s' ,
             String.length s' < String.length (String c s) ->
             (n <= 1114111)%N ->
             (is_low n = true -> exists r0, low_escape (String c s) = Some (n, r0)) ->
             (is_high n = true -> low_escape s' = None) ->
             prepend n (scanstring s') = Some (x, r) ->
             x = [] \/
             exists c0 x' s'0,
               x = c0 :: x' /\ scanstring s'0 = Some (x', r) /\
               String.length s'0 < String.length (String c s) /\
               (c0 <= 1114111)%N /\
               (is_low c0 = true ->
                exists r0, low_escape (String c s) = Some (c0, r0)) /\
               (is_high c0 = true -> low_escape s'0 = None)).
  { intros n s' Hl Hn Hlo Hhi H. right.
    destruct (scanstring s') as [[x' r']|] eqn:E; [|discriminate].
    cbn [prepend] in H. injection H as <- <-.
    exists n, x', s'. auto 10. }
  destruct (c =? "092")%char eqn:Eb.
  - apply Ascii.eqb_eq in Eb. subst c.
    destruct s as [|e r1]; [discriminate|].
    destruct (e =? "u")%char eqn:Eu.
    + apply Ascii.eqb_eq in Eu. subst e.
      destruct r1 as [|h1 [|h2 [|h3 [|h4 r2]]]]; try discriminate.
      change (match hex4 h1 h2 h3 h4 with
              | Some n =>
                  if is_high n then
                    match r2 with
                    | String b (String l r2') =>
                        if ((b =? "092") && (l =? "u"))%char then
                          match r2' with
                          | String g1 (String g2 (String g3 (String g4 r3))) =>
                              match hex4 g1 g2 g3 g4 with
                              | Some m =>
                                  if is_low m
                                  then prepend (join n m) (scanstring r3)
                                  else prepend n (scanstring r2)
                              | None => prepend n (scanstring r2)
                              end
                          | _ => prepend n (scanstring r2)
                          end
                        else prepend n (scanstring r2)
                    | _ => prepend n (scanstring r2)
                    end
                  else prepend n (scanstring r2)
              | None => None
              end)
        with (scanstring (String "092" (String "u" (String h1 (String h2
                (String h3 (String h4 r2))))))).
      rewrite scanstring_u.
      destruct (hex4 h1 h2 h3 h4) as [n|] eqn:Eh; [|discriminate].
      pose proof (hex4_lt _ _ _ _ _ Eh) as Hn.
      assert (Hlow : is_low n = true ->
                     exists r0,
                       low_escape (String "092" (String "u" (String h1
                         (String h2 (String h3 (String h4 r2))))))
                       = Some (n, r0)).
      { intros Hl. exists r2. unfold low_escape.
        cbn [Ascii.eqb Bool.eqb andb]. now rewrite Eh, Hl. }
      destruct (is_high n) eqn:Ehi.
      * destruct (low_escape r2) as [[m r3]|] eqn:El.
        -- pose proof (low_escape_some _ _ _ El) as Hm.
           apply is_low_bound in Hm. apply is_high_bound in Ehi.
           assert (Hlen : String.length r3 < String.length r2).
           { clear - El. unfold low_escape in El.
             destruct r2 as [|b [|l r0]]; try discriminate.
             destruct ((b =? "092") && (l =? "u"))%char; [|discriminate].
             destruct r0 as [|g1 [|g2 [|g3 [|g4 r']]]]; try discriminate.
             destruct (hex4 g1 g2 g3 g4) as [k|]; [|discriminate].
             destruct (is_low k); [|discriminate].
             injection El as _ <-. cbn [String.length]. lia. }
           apply Hp.
           ++ cbn [String.length] in *. lia.
           ++ unfold join. lia.
           ++ intros Hl. apply is_low_bound in Hl. unfold join in Hl. lia.
           ++ intros Hh. apply is_high_bound in Hh. unfold join in Hh. lia.
        -- apply Hp; [cbn [String.length]; lia | lia | assumption | auto].
      * apply Hp; [cbn [String.length]; lia | lia | assumption |].
        intros Hh. congruence.
    + destruct (unescape e) as [ch|] eqn:Ee; [|discriminate].
      apply unescape_small in Ee.
      apply Hp; [cbn [String.length]; lia | lia | |].
      * intros Hl. apply is_low_bound in Hl. lia.
      * intros Hh. apply is_high_bound in Hh. lia.
  - destruct (code c <? 32)%N; [discriminate|].
    pose proof (code_small c).
    apply Hp; [cbn [String.length]; lia | lia | |].
    + intros Hl. apply is_low_bound in Hl. lia.
    + intros Hh. apply is_high_bound in Hh. lia.
Qed.

Lemma scanstring_ok_upto n : forall s x r,
  String.length s <= n ->
  scanstring s = Some (x, r) ->
  str_ok x = true /\ String.length r < String.length s.
Proof.
  induction n as [|n IH]; intros s x r Hn H.
  - destruct s; [discriminate | cbn in Hn; lia].
  - destruct (scanstring_step s x r H)
      as [->|(c & x' & s' & -> & Hs & Hl & Hc & Hlo & Hhi)].
    + split; [reflexivity|]. destruct s as [|c s]; [discriminate|].
      cbn [scanstring] in H.
      destruct (c =? "034")%char.
      * injection H as <-. cbn [String.length]. lia.
      * exfalso.
        repeat match type of H with
        | context [match ?y with _ => _ end] => destruct y; try discriminate H
        | context [if ?b then _ else _] => destruct b; try discriminate H
        end;
        match type of H with
        | prepend _ ?o = _ => destruct o as [[? ?]|]; discriminate H
        end.
    + destruct (IH s' x' r ltac:(lia) Hs) as [Hx' Hr]. split; [|lia].
      cbn [str_ok]. rewrite Hx', andb_true_r.
      apply andb_true_iff. split; [now apply N.leb_le|].
      apply negb_true_iff. destruct (is_high c) eqn:Eh; [|reflexivity].
      cbn [andb]. destruct x' as [|d x'']; [reflexivity|].
      destruct (is_low d) eqn:Ed; [|reflexivity].
      destruct (scanstring_step s' (d :: x'') r Hs)
        as [E|(c2 & x2 & s2 & E & _ & _ & _ & Hlo2 & _)]; [discriminate|].
      injection E as <- <-.
      destruct (Hlo2 Ed) as (r0 & Hr0). rewrite (Hhi eq_refl) in Hr0.
      discriminate.
Qed.

Lemma scanstring_ok s x r : scanstring s = Some (x, r) -> str_ok x = true.
Proof.
  intros H.
  exact (proj1 (scanstring_ok_upto (String.length s) s x r (Nat.le_refl _) H)).
Qed.

Lemma scanstring_length s x r :
  scanstring s = Some (x, r) -> String.length r < String.length s.
Proof.
  intros H.
  exact (proj2 (scanstring_ok_upto (String.length s) s x r (Nat.le_refl _) H)).
Qed.


(** The numbers that are read. *)
Lemma scan_exp_ok s e r : scan_exp s = (Some e, r) -> nonnil (e_digits e) = true.
Proof.
  unfold scan_exp. destruct s as [|c s']; [discriminate|].
  destruct ((c =? "e") || (c =? "E"))%char; [|discriminate].
  destruct (exp_sign s') as [sg r1].
  destruct (scan_digits r1) as [d r2].
  destruct d; intros H; try discriminate H; injection H as <- _; reflexivity.
Qed.

Lemma scan_number_wf s v r : scan_number s = Some (v, r) -> wf v.
Proof.
  unfold scan_number.
  destruct (match s with
            | EmptyString => (false, s)
            | String c r0 => if (c =? "-")%char then (true, r0) else (false, s)
            end) as [neg s1].
  destruct (scan_nat s1) as [[n r0]|]; [|discriminate].
  destruct (scan_frac r0) as [fr r1].
  destruct (scan_exp r1) as [ex r2] eqn:Ee.
  assert (Hf : tok_ok (mkTok neg n fr ex) = true ->
               wf (JFloat (float_repr (mkTok neg n fr ex)))).
  { intros H. cbn [wf]. now apply float_repr_canonical. }
  destruct ex as [e|].
  - apply scan_exp_ok in Ee.
    destruct fr; intros H; injection H as <- _; apply Hf; exact Ee.
  - destruct fr; intros H; injection H as <- _;
      first [exact I | apply Hf; reflexivity].
Qed.

(** Case analysis on every [match] of a hypothesis, dropping the branches in
    which it says [None = Some _]. *)
Ltac split_match H :=
  repeat match type of H with
  | context [match ?x with _ => _ end] =>
      let E := fresh "E" in
      destruct x eqn:E; try discriminate H
  end.

Lemma scan_wf (fuel : nat) :
  (forall s v r, scan_once fuel s = Some (v, r) -> wf v) /\
  (forall s acc l r, array_loop fuel s acc = Some (l, r) ->
                     Forall wf acc -> Forall wf l) /\
  (forall s acc d r, object_loop fuel s acc = Some (d, r) ->
                     dict_ok acc -> dict_ok d).
Proof.
  induction fuel as [|fuel (IHs & IHa & IHo)];
    [repeat split; intros; discriminate|].
  split; [|split].
  - intros s v r H. cbn [scan_once] in H.
    destruct s as [|c s']; [discriminate|].
    repeat match type of H with
    | (if ?b then _ else _) = _ => destruct b
    end;
    try (eapply scan_number_wf; exact H);
    split_match H;
    first
      [ eapply scan_number_wf; exact H
      | injection H as <- <-;
        first [ exact I
              | cbn [wf]; eapply scanstring_ok; eassumption
              | apply wf_arr; eapply IHa; [eassumption | constructor]
              | apply wf_obj; split; constructor
              | apply wf_obj; eapply IHo; [eassumption | split; constructor] ] ].
  - intros s acc l r H Hacc. cbn [array_loop] in H.
    split_match H.
    + injection H as <- <-. apply Forall_app. split; [assumption|].
      constructor; [|constructor]. eapply IHs; eassumption.
    + eapply IHa; [eassumption|]. apply Forall_app. split; [assumption|].
      constructor; [|constructor]. eapply IHs; eassumption.
  - intros s acc d r H Hacc. cbn [object_loop] in H.
    split_match H.
    + injection H as <- <-. apply dict_set_ok; [| |assumption].
      * eapply scanstring_ok; eassumption.
      * eapply IHs; eassumption.
    + eapply IHo; [eassumption|]. apply dict_set_ok; [| |assumption].
      * eapply scanstring_ok; eassumption.
      * eapply IHs; eassumption.
Qed.

(** What [json.loads] returns is a value that is written back as itself. *)
Theorem loads_wf (s : string) (v : json) : loads s = ok v -> wf v.
Proof.
  unfold loads. intros H. split_match H. injection H as <-.
  eapply (proj1 (scan_wf _)); eassumption.
Qed.

(** ** The fuel is enough *)

(** Every reader leaves less text than it was given. *)
Lemma skip_ws_length s : String.length (skip_ws s) <= String.length s.
Proof.
  induction s as [|c r IH]; cbn [skip_ws]; [lia|].
  destruct (is_ws c); cbn [String.length] in *; lia.
Qed.

Lemma skip_ws_cons s c r :
  skip_ws s = String c r -> String.length r < String.length s.
Proof.
  intros E. pose proof (skip_ws_length s) as H. rewrite E in H.
  cbn [String.length] in H. lia.
Qed.

Lemma scan_digits_length s :
  String.length (snd (scan_digits s)) <= String.length s /\
  (fst (scan_digits s) <> Nil ->
   String.length (snd (scan_digits s)) < String.length s).
Proof.
  induction s as [|c r IH]; cbn [scan_digits]; [cbn; split; [lia|congruence]|].
  destruct (digit_of c) as [dn|]; [|cbn; split; [lia|congruence]].
  destruct (scan_digits r) as [d r']. cbn [fst snd String.length] in *.
  split; [lia | intros _; lia].
Qed.

Lemma scan_nat_length s n r :
  scan_nat s = Some (n, r) -> String.length r < String.length s.
Proof.
  unfold scan_nat. destruct s as [|c s']; [discriminate|].
  destruct (c =? "0")%char.
  - intros H. injection H as _ <-. cbn. lia.
  - pose proof (scan_digits_length (String c s')) as [_ Hlt].
    destruct (scan_digits (String c s')) as [d r']. cbn [fst snd] in Hlt.
    destruct d; try discriminate; intros H; injection H as _ <-;
      apply Hlt; discriminate.
Qed.

Lemma scan_frac_length s : String.length (snd (scan_frac s)) <= String.length s.
Proof.
  unfold scan_frac. destruct s as [|c s']; [cbn; lia|].
  destruct (c =? ".")%char; [|cbn; lia].
  pose proof (scan_digits_length s') as [H _].
  destruct (scan_digits s') as [d r']. cbn [fst snd String.length] in *.
  destruct d; cbn [snd String.length]; lia.
Qed.

Lemma exp_sign_length s : String.length (snd (exp_sign s)) <= String.length s.
Proof.
  unfold exp_sign. destruct s as [|c s']; [cbn; lia|].
  destruct (c =? "+")%char; [cbn; lia|].
  destruct (c =? "-")%char; cbn; lia.
Qed.

Lemma scan_exp_length s : String.length (snd (scan_exp s)) <= String.length s.
Proof.
  unfold scan_exp. destruct s as [|c s']; [cbn; lia|].
  destruct ((c =? "e") || (c =? "E"))%char; [|cbn; lia].
  pose proof (exp_sign_length s') as Hs.
  destruct (exp_sign s') as [sg r1]. cbn [snd] in Hs.
  pose proof (scan_digits_length r1) as [H _].
  destruct (scan_digits r1) as [d r2]. cbn [fst snd String.length] in *.
  destruct d; cbn [snd String.length]; lia.
Qed.

Lemma scan_number_length s v r :
  scan_number s = Some (v, r) -> String.length r < String.length s.
Proof.
  unfold scan_number.
  assert (Hs : forall neg s1,
             match s with
             | EmptyString => (false, s)
             | String c r0 => if (c =? "-")%char then (true, r0) else (false, s)
             end = (neg, s1) -> String.length s1 <= String.length s).
  { intros neg s1. destruct s as [|c r0].
    - intros H. injection H as _ <-. lia.
    - destruct (c =? "-")%char; intros H; injection H as _ <-;
        cbn [String.length]; lia. }
  destruct (match s with
            | EmptyString => (false, s)
            | String c r0 => if (c =? "-")%char then (true, r0) else (false, s)
            end) as [neg s1].
  specialize (Hs neg s1 eq_refl).
  destruct (scan_nat s1) as [[n r0]|] eqn:En; [|discriminate].
  apply scan_nat_length in En.
  pose proof (scan_frac_length r0) as Hf.
  destruct (scan_frac r0) as [fr r1]. cbn [snd] in Hf.
  pose proof (scan_exp_length r1) as He.
  destruct (scan_exp r1) as [ex r2]. cbn [snd] in He.
  destruct fr, ex; intros H; injection H as _ <-; lia.
Qed.

Lemma expect_length w : forall s r,
  expect w s = Some r -> String.length r <= String.length s.
Proof.
  induction w as [|c w IH]; intros s r; cbn [expect].
  - intros H. injection H as <-. lia.
  - destruct s as [|c' s']; [discriminate|].
    destruct (c =? c')%char; [|discriminate].
    intros H. apply IH in H. cbn [String.length]. lia.
Qed.

(** Reading a value consumes text. *)
Lemma scan_consumes (fuel : nat) :
  (forall s v r, scan_once fuel s = Some (v, r) ->
                 String.length r < String.length s) /\
  (forall s acc l r, array_loop fuel s acc = Some (l, r) ->
                     String.length r < String.length s) /\
  (forall s acc d r, object_loop fuel s acc = Some (d, r) ->
                     String.length r < String.length s).
Proof.
  induction fuel as [|fuel (IHs & IHa & IHo)];
    [repeat split; intros; discriminate|].
  split; [|split].
  - intros s v r H. cbn [scan_once] in H.
    destruct s as [|c s']; [discriminate|].
    repeat match type of H with
    | (if ?b then _ else _) = _ => destruct b
    end;
    try (apply scan_number_length in H; exact H);
    cbn [String.length];
    repeat match type of H with
    | context [match scanstring ?x with _ => _ end] =>
        let E := fresh "E" in
        destruct (scanstring x) as [[? ?]|] eqn:E;
        [apply scanstring_length in E|discriminate H]
    | context [match skip_ws ?x with _ => _ end] =>
        let E := fresh "E" in
        destruct (skip_ws x) eqn:E;
        [discriminate H | apply skip_ws_cons in E]
    | context [if ?b then _ else _] => destruct b
    | context [match object_loop ?f ?x ?a with _ => _ end] =>
        let E := fresh "E" in
        destruct (object_loop f x a) as [[? ?]|] eqn:E;
        [apply IHo in E|discriminate H]
    | context [match array_loop ?f ?x ?a with _ => _ end] =>
        let E := fresh "E" in
        destruct (array_loop f x a) as [[? ?]|] eqn:E;
        [apply IHa in E|discriminate H]
    | context [match expect ?w ?x with _ => _ end] =>
        let E := fresh "E" in
        destruct (expect w x) eqn:E;
        [apply expect_length in E|try discriminate H]
    end;
    try (apply scan_number_length in H; cbn [String.length] in H; exact H);
    injection H as _ <-; cbn [String.length] in *; lia.
  - intros s acc l r H. cbn [array_loop] in H.
    destruct (scan_once fuel s) as [[v r0]|] eqn:E; [|discriminate].
    apply IHs in E.
    destruct (skip_ws r0) as [|c r1] eqn:E1; [discriminate|].
    apply skip_ws_cons in E1.
    destruct (c =? "]")%char; [injection H as _ <-; lia|].
    destruct (c =? ",")%char; [|discriminate].
    apply IHa in H. pose proof (skip_ws_length r1). lia.
  - intros s acc d r H. cbn [object_loop] in H.
    destruct s as [|q s']; [discriminate|]. cbn [String.length].
    destruct (q =? "034")%char; [|discriminate].
    destruct (scanstring s') as [[key r0]|] eqn:E0; [|discriminate].
    apply scanstring_length in E0.
    destruct (skip_ws r0) as [|c r1] eqn:E1; [discriminate|].
    apply skip_ws_cons in E1.
    destruct (c =? ":")%char; [|discriminate].
    destruct (scan_once fuel (skip_ws r1)) as [[v r2]|] eqn:E2; [|discriminate].
    apply IHs in E2. pose proof (skip_ws_length r1).
    destruct (skip_ws r2) as [|c2 r3] eqn:E3; [discriminate|].
    apply skip_ws_cons in E3.
    destruct (c2 =? "}")%char; [injection H as _ <-; lia|].
    destruct (c2 =? ",")%char; [|discriminate].
    apply IHo in H. pose proof (skip_ws_length r3). lia.
Qed.

(** The loops, one step unfolded. *)
Lemma array_loop_S fuel s acc :
  array_loop (S fuel) s acc
  = match scan_once fuel s with
    | None => None
    | Some (v, r) =>
        match skip_ws r with
        | EmptyString => None
        | String c r1 =>
            if (c =? "]")%char then Some (acc ++ [v], r1)
            else if (c =? ",")%char
                 then array_loop fuel (skip_ws r1) (acc ++ [v])
                 else None
        end
    end.
Proof. reflexivity. Qed.

Lemma object_loop_S fuel q s acc :
  object_loop (S fuel) (String q s) acc
  = if (q =? "034")%char then
      match scanstring s with
      | None => None
      | Some (key, r0) =>
          match skip_ws r0 with
          | EmptyString => None
          | String c r1 =>
              if (c =? ":")%char then
                match scan_once fuel (skip_ws r1) with
                | None => None
                | Some (v, r2) =>
                    match skip_ws r2 with
                    | EmptyString => None
                    | String c2 r3 =>
                        if (c2 =? "}")%char
                        then Some (dict_set key v acc, r3)
                        else if (c2 =? ",")%char then
                          object_loop fuel (skip_ws r3) (dict_set key v acc)
                        else None
                    end
                end
              else None
          end
      end
    else None.
Proof. reflexivity. Qed.

(** Past two units per character, more fuel changes nothing. *)
Lemma scan_fuel_step (fuel : nat) :
  (forall s, 2 * String.length s + 1 <= fuel ->
             scan_once (S fuel) s = scan_once fuel s) /\
  (forall s acc, 2 * String.length s + 2 <= fuel ->
                 array_loop (S fuel) s acc = array_loop fuel s acc) /\
  (forall s acc, 2 * String.length s + 2 <= fuel ->
                 object_loop (S fuel) s acc = object_loop fuel s acc).
Proof.
  induction fuel as [|fuel (IHs & IHa & IHo)];
    [repeat split; intros; lia|].
  split; [|split].
  - intros s Hf. destruct s as [|c s']; [reflexivity|].
    cbn [String.length] in Hf. cbn [scan_once].
    destruct (c =? "034")%char; [reflexivity|].
    destruct (c =? "{")%char.
    { destruct (skip_ws s') as [|c1 r1] eqn:E; [reflexivity|].
      apply skip_ws_cons in E.
      destruct (c1 =? "}")%char; [reflexivity|].
      rewrite IHo by (cbn [String.length]; lia). reflexivity. }
    destruct (c =? "[")%char.
    { destruct (skip_ws s') as [|c1 r1] eqn:E; [reflexivity|].
      apply skip_ws_cons in E.
      destruct (c1 =? "]")%char; [reflexivity|].
      rewrite IHa by (cbn [String.length]; lia). reflexivity. }
    reflexivity.
  - intros s acc Hf.
    rewrite (array_loop_S (S fuel)), (array_loop_S fuel s acc).
    rewrite IHs by lia.
    destruct (scan_once fuel s) as [[v r]|] eqn:E; [|reflexivity].
    apply (proj1 (scan_consumes fuel)) in E.
    destruct (skip_ws r) as [|c r1] eqn:E1; [reflexivity|].
    apply skip_ws_cons in E1.
    destruct (c =? "]")%char; [reflexivity|].
    destruct (c =? ",")%char; [|reflexivity].
    pose proof (skip_ws_length r1).
    rewrite IHa by lia. reflexivity.
  - intros s acc Hf. destruct s as [|q s']; [reflexivity|].
    cbn [String.length] in Hf.
    rewrite (object_loop_S (S fuel)), (object_loop_S fuel q s' acc).
    destruct (q =? "034")%char; [|reflexivity].
    destruct (scanstring s') as [[key r0]|] eqn:E0; [|reflexivity].
    apply scanstring_length in E0.
    destruct (skip_ws r0) as [|c r1] eqn:E1; [reflexivity|].
    apply skip_ws_cons in E1.
    destruct (c =? ":")%char; [|reflexivity].
    pose proof (skip_ws_length r1).
    rewrite IHs by lia.
    destruct (scan_once fuel (skip_ws r1)) as [[v r2]|] eqn:E2; [|reflexivity].
    apply (proj1 (scan_consumes fuel)) in E2.
    destruct (skip_ws r2) as [|c2 r3] eqn:E3; [reflexivity|].
    apply skip_ws_cons in E3.
    destruct (c2 =? "}")%char; [reflexivity|].
    destruct (c2 =? ",")%char; [|reflexivity].
    pose proof (skip_ws_length r3).
    rewrite IHo by lia. reflexivity.
Qed.

(** The fuel [loads] gives is enough: with more, the result is the same. *)
Theorem scan_once_fuel (s : string) (extra : nat) :
  scan_once (fuel_for s + extra) (skip_ws s)
  = scan_once (fuel_for s) (skip_ws s).
Proof.
  induction extra as [|n IH]; [now rewrite Nat.add_0_r|].
  rewrite Nat.add_succ_r, <- IH.
  apply (proj1 (scan_fuel_step _)).
  pose proof (skip_ws_length s). unfold fuel_for. lia.
Qed.

(** Number literals up to the edges of binary64, read and written back: the
    nearest float, its shortest digits that read back, and the notation
    [float.__repr__] chooses. *)
Lemma floats_read_and_written :
  match loads "[0.1, 1e22, 5e-324, 0.3000000000000000444, 1e400, 123456789012345678.0, -0.0, 1E-5, 2.50, 1e16, 9007199254740993.0]" with
  | inr v => Some (dumps v)
  | inl _ => None
  end
  = Some "[0.1, 1e+22, 5e-324, 0.30000000000000004, Infinity, 1.2345678901234568e+17, -0.0, 1e-05, 2.5, 1e+16, 9007199254740992.0]".
Proof. vm_compute. reflexivity. Qed.

End JsonFacts.

Module FrameFacts.
Import Json Frame.

(** ** The missing count *)

Lemma sum_upto_ext n f g :
  (forall k, k < n -> f k = g k) -> sum_upto n f = sum_upto n g.
Proof.
  induction n as [|n IH]; intros H; cbn; [reflexivity|].
  rewrite IH by (intros; apply H; lia). rewrite H by lia. reflexivity.
Qed.

Lemma sum_upto_zero n : sum_upto n (fun _ => 0) = 0.
Proof. induction n; cbn; lia. Qed.

Lemma sum_upto_plus n f g :
  sum_upto n (fun k => f k + g k) = sum_upto n f + sum_upto n g.
Proof. induction n as [|n IH]; cbn; [reflexivity | rewrite IH; lia]. Qed.

Lemma sum_upto_swap n m (g : nat -> nat -> nat) :
  sum_upto n (fun r => sum_upto m (fun c => g r c))
  = sum_upto m (fun c => sum_upto n (fun r => g r c)).
Proof.
  induction n as [|n IH]; cbn.
  - now rewrite sum_upto_zero.
  - rewrite IH. now rewrite sum_upto_plus.
Qed.

(** A sum over a list is the sum over its positions. *)
Lemma fold_sum_positions {A} (h : A -> nat) (l : list A) :
  fold_right (fun x acc => h x + acc) 0 l
  = sum_upto (List.length l)
      (fun k => match nth_error l k with Some x => h x | None => 0 end).
Proof.
  induction l as [|x l IH] using rev_ind; [reflexivity|].
  rewrite fold_right_app, length_app, Nat.add_1_r. cbn [fold_right sum_upto].
  rewrite nth_error_app2, Nat.sub_diag by lia. cbn [nth_error].
  rewrite (sum_upto_ext _ _
             (fun k => match nth_error l k with Some x => h x | None => 0 end))
    by (intros; now rewrite nth_error_app1).
  rewrite <- IH. clear IH.
  induction l as [|y l IHl]; cbn; lia.
Qed.

Lemma missing_values_fold df :
  missing_values df
  = fold_right (fun s acc => sum_bools (map cell_isna (values s)) + acc) 0
      (series df).
Proof.
  unfold missing_values, isna, sum_frame, sum_series.
  induction (series df) as [|s l IH]; cbn [map fold_right fst snd];
    [reflexivity | now rewrite IH].
Qed.

Lemma sum_bools_fold l :
  sum_bools (map cell_isna l)
  = fold_right (fun x acc => (if cell_isna x then 1 else 0) + acc) 0 l.
Proof.
  unfold sum_bools.
  induction l as [|x l IH]; cbn [map fold_right]; [reflexivity | now rewrite IH].
Qed.

(** Column by column or cell by cell, the count is the same. *)
Theorem missing_values_by_cell df :
  rectangular df -> missing_values df = missing_by_cell df.
Proof.
  intros Hrect. unfold missing_by_cell, len, columns.
  rewrite sum_upto_swap, length_map, missing_values_fold, fold_sum_positions.
  apply sum_upto_ext. intros c Hc. unfold cell_missing.
  destruct (nth_error (series df) c) as [s|] eqn:E.
  - rewrite sum_bools_fold, fold_sum_positions.
    apply nth_error_In in E.
    unfold rectangular in Hrect. rewrite Forall_forall in Hrect.
    now rewrite (Hrect s E).
  - now rewrite sum_upto_zero.
Qed.

(** ** Undefined statistics *)

Lemma observed_all_missing cs :
  Forall (fun c => c = NaN) cs -> observed cs = [].
Proof. induction 1 as [|c cs -> _ IH]; cbn; [reflexivity | exact IH]. Qed.

Lemma describe_all_missing s :
  all_missing s ->
  describe_series s = mkStats 0 FNaN RNaN FNaN FNaN FNaN FNaN FNaN.
Proof.
  intros H. unfold describe_series.
  rewrite (observed_all_missing _ H). reflexivity.
Qed.

Lemma pairs_fst_observed (P : Q -> Prop) xs :
  Forall P (observed xs) ->
  forall ys, Forall P (map fst (complete_pairs xs ys)).
Proof.
  induction xs as [|x xs IH]; intros H ys; cbn; [constructor|].
  destruct ys as [|y ys]; [constructor|].
  cbn in H. destruct (cell_value x) as [a|].
  - inversion H; subst. destruct (cell_value y); cbn; auto.
  - auto.
Qed.

Lemma pairs_snd_observed (P : Q -> Prop) ys :
  Forall P (observed ys) ->
  forall xs, Forall P (map snd (complete_pairs xs ys)).
Proof.
  induction ys as [|y ys IH]; intros H xs; destruct xs as [|x xs]; cbn;
    try constructor.
  cbn in H. destruct (cell_value y) as [b|].
  - inversion H; subst. destruct (cell_value x); cbn; auto.
  - destruct (cell_value x); auto.
Qed.

(** The mean of equal values is that value, and their squared deviations
    vanish. *)
Lemma qsum_const v l :
  Forall (fun x => Qeq x v) l ->
  Qeq (qsum l) (inject_Z (Z.of_nat (List.length l)) * v).
Proof.
  induction 1 as [|x l Hx _ IH]; cbn [qsum fold_right List.length].
  - cbn. ring.
  - fold (qsum l). rewrite IH, Hx, Nat2Z.inj_succ.
    unfold Z.succ. rewrite inject_Z_plus. ring.
Qed.

Lemma qmean_const v l :
  l <> [] -> Forall (fun x => Qeq x v) l -> Qeq (qmean l) v.
Proof.
  intros Hl H. unfold qmean. rewrite (qsum_const v l H).
  field. destruct l as [|x l]; [congruence|].
  change 0%Q with (inject_Z 0). rewrite inject_Z_injective.
  cbn [List.length]. lia.
Qed.

Lemma sq_dev_zero v m l :
  Qeq m v -> Forall (fun x => Qeq x v) l ->
  Qeq (qsum (map (fun x => (x - m) * (x - m))%Q l)) 0.
Proof.
  intros Hm. induction 1 as [|x l Hx _ IH]; cbn [map qsum fold_right].
  - reflexivity.
  - fold (qsum (map (fun x => (x - m) * (x - m))%Q l)).
    rewrite IH, Hx, Hm. ring.
Qed.

Lemma ssq_const v l :
  Forall (fun x => Qeq x v) l -> Qeq (ssq l) 0.
Proof.
  intros H. unfold ssq. destruct l as [|x0 l0] eqn:El; [reflexivity|].
  rewrite <- El in *. apply (sq_dev_zero v); [|assumption].
  apply qmean_const; [subst; discriminate | assumption].
Qed.

Lemma corr_pair_constant_left xs ys :
  (exists v, Forall (fun x => Qeq x v) (observed xs)) ->
  corr_pair xs ys = RNaN.
Proof.
  intros [v H]. unfold corr_pair.
  pose proof (pairs_fst_observed _ xs H ys) as Hf.
  destruct (complete_pairs xs ys) as [|p ps]; [reflexivity|].
  set (l := p :: ps) in *.
  assert (E : Qeq_bool (ssq (map fst l) * ssq (map snd l)) 0 = true).
  { apply Qeq_bool_iff. rewrite (ssq_const v _ Hf). ring. }
  now rewrite E.
Qed.

Lemma corr_pair_constant_right xs ys :
  (exists v, Forall (fun x => Qeq x v) (observed ys)) ->
  corr_pair xs ys = RNaN.
Proof.
  intros [v H]. unfold corr_pair.
  pose proof (pairs_snd_observed _ ys H xs) as Hf.
  destruct (complete_pairs xs ys) as [|p ps]; [reflexivity|].
  set (l := p :: ps) in *.
  assert (E : Qeq_bool (ssq (map fst l) * ssq (map snd l)) 0 = true).
  { apply Qeq_bool_iff. rewrite (ssq_const v _ Hf). ring. }
  now rewrite E.
Qed.

(** A variance of zero means that the values are equal. *)
Lemma qsum_nonneg l :
  Forall (fun x => (0 <= x)%Q) l -> (0 <= qsum l)%Q.
Proof.
  induction 1 as [|x l Hx _ IH]; cbn [qsum fold_right].
  - lra.
  - fold (qsum l). lra.
Qed.

Lemma qsum_zero l :
  Forall (fun x => (0 <= x)%Q) l -> Qeq (qsum l) 0 ->
  Forall (fun x => Qeq x 0) l.
Proof.
  induction 1 as [|x l Hx Hl IH]; cbn [qsum fold_right]; [constructor|].
  fold (qsum l). intros E. pose proof (qsum_nonneg l Hl).
  constructor; [lra | apply IH; lra].
Qed.

Lemma q_square_nonneg (y : Q) : (0 <= y * y)%Q.
Proof. unfold Qle. cbn. rewrite Z.mul_1_r. apply Z.square_nonneg. Qed.

Lemma zero_variance_constant s : zero_variance s -> constant s.
Proof.
  unfold zero_variance, constant, ssq.
  set (l := observed (values s)). set (m := qmean l). intros E.
  exists m. clearbody m. clearbody l.
  apply qsum_zero in E.
  - clear -E. induction l as [|x l IH]; [constructor|].
    inversion E as [|? ? Hx Hl]; subst. constructor; [|now apply IH].
    apply Qmult_integral in Hx. destruct Hx; lra.
  - clear. induction l as [|x l IH]; cbn [map]; constructor;
      try assumption. apply q_square_nonneg.
Qed.

Lemma corr_entry df a b :
  In a (series df) -> In b (series df) ->
  exists row, In (name a, row) (corr df) /\
              In (name b, corr_pair (values a) (values b)) row.
Proof.
  intros Ha Hb. eexists. split.
  - unfold corr. apply in_map_iff. exists a. split; [reflexivity | assumption].
  - apply in_map_iff. exists b. split; [reflexivity | assumption].
Qed.

(** C6, as amended.  For a column without a non-missing value [describe]
    reports count 0 and NaN for the mean, the standard deviation, the minimum,
    the quartiles and the maximum.  For a column of zero variance [corr]
    reports NaN for its correlation with every column, in both positions of
    the matrix. *)
Theorem undefined_statistics_are_nan :
  (forall s, all_missing s ->
     describe_series s = mkStats 0 FNaN RNaN FNaN FNaN FNaN FNaN FNaN) /\
  (forall df a b,
     In a (series df) -> In b (series df) -> zero_variance a ->
     exists row_a row_b,
       In (name a, row_a) (corr df) /\ In (name b, RNaN) row_a /\
       In (name b, row_b) (corr df) /\ In (name a, RNaN) row_b).
Proof.
  split; [exact describe_all_missing|].
  intros df a b Ha Hb Hz. apply zero_variance_constant in Hz.
  destruct (corr_entry df a b Ha Hb) as (ra & Hra & Hab).
  destruct (corr_entry df b a Hb Ha) as (rb & Hrb & Hba).
  rewrite (corr_pair_constant_left _ _ Hz) in Hab.
  rewrite (corr_pair_constant_right _ _ Hz) in Hba.
  exists ra, rb. auto.
Qed.

End FrameFacts.

Module CsvFacts.
Import Json Frame Csv.

(** ** The shape of what the plain reader returns *)

Lemma infer_length raws : List.length (snd (infer raws)) = List.length raws.
Proof.
  unfold infer.
  pose proof (length_map classify raws) as Hl.
  destruct (map classify raws) as [|t ts] eqn:E.
  - destruct raws; [reflexivity | discriminate].
  - rewrite <- E in *.
    repeat match goal with
    | |- context [if ?b then _ else _] => destruct b
    end; cbn [snd]; rewrite ?length_map; congruence.
Qed.

Lemma build_columns_rectangular names : forall j rows,
  Forall (fun s => List.length (values s) = List.length rows)
         (build_columns j names rows).
Proof.
  induction names as [|nm names IH]; intros j rows; cbn [build_columns];
    [constructor|].
  pose proof (infer_length (map (fun row => nth j row EmptyString) rows)) as H.
  destruct (infer _) as [d cs]. cbn [snd] in H. rewrite length_map in H.
  constructor; [exact H | apply IH].
Qed.

(** Every frame the plain reader returns has one cell per row in every
    column. *)
Lemma read_csv_plain_rectangular text df :
  read_csv_plain text = ok df -> rectangular df.
Proof.
  unfold read_csv_plain.
  destruct (filter _ _) as [|h body]; [discriminate|].
  destruct (existsb _ _); [discriminate|].
  intros H. injection H as <-. unfold rectangular. cbn [n_rows series].
  apply build_columns_rectangular.
Qed.

End CsvFacts.

Module AppFacts.
Import Json Frame App JsonFacts.

(** ** Code that touches the page only *)

Lemma same_core_refl w : same_core w w.
Proof. repeat split. Qed.

Lemma same_core_trans w1 w2 w3 :
  same_core w1 w2 -> same_core w2 w3 -> same_core w1 w3.
Proof.
  intros (a & b & c & d) (a' & b' & c' & d').
  repeat split; congruence.
Qed.

Lemma page_only_ret {A} (a : A) : page_only (ret a).
Proof. intros w. apply same_core_refl. Qed.

Lemma page_only_lift {A} (r : Result A) : page_only (lift r).
Proof. intros w. apply same_core_refl. Qed.

Lemma page_only_show e : page_only (show e).
Proof. intros w. repeat split. Qed.

Lemma page_only_bind {A B} (m : M A) (k : A -> M B) :
  page_only m -> (forall a, page_only (k a)) -> page_only (bind m k).
Proof.
  intros Hm Hk w. unfold bind. specialize (Hm w).
  destruct (m w) as [w' [e|a]]; cbn [fst] in *; [assumption|].
  eapply same_core_trans; [exact Hm | apply Hk].
Qed.

(** Decomposes a computation built from [show], [lift], [ret] and [bind]. *)
Ltac page_only :=
  repeat first
    [ apply page_only_bind; [|intros ?]
    | apply page_only_show
    | apply page_only_lift
    | apply page_only_ret
    | match goal with |- page_only (if ?b then _ else _) => destruct b end ].

Lemma main_content_page_only to_csv i df : page_only (main_content to_csv i df).
Proof. unfold main_content. page_only. Qed.

(** ** [save_user_history] *)

Lemma history_of_wf fs filename old :
  history_of fs filename = ok old -> Forall wf old.
Proof.
  unfold history_of. destruct (fs filename) as [text|].
  - destruct (loads text) as [e|v] eqn:E; [discriminate|].
    destruct v; try discriminate. intros H. injection H as <-.
    apply wf_arr. exact (loads_wf _ _ E).
  - intros H. injection H as <-. constructor.
Qed.

Lemma save_user_history_appends filename d w old :
  wf d ->
  history_of (files w) filename = ok old ->
  save_user_history filename d w
  = (with_files (put_file filename (dumps (JArr (old ++ [d]))) (files w)) w,
     ok tt).
Proof.
  intros Wd H. unfold save_user_history, bind, history_of in *.
  destruct (files w filename) as [text|].
  - destruct (loads text) as [e|v]; [discriminate|].
    destruct v; try discriminate. injection H as <-. reflexivity.
  - injection H as <-. reflexivity.
Qed.

Lemma history_of_put_file filename l fs :
  Forall wf l ->
  history_of (put_file filename (dumps (JArr l)) fs) filename = ok l.
Proof.
  intros W. unfold history_of, put_file. rewrite String.eqb_refl.
  rewrite loads_dumps; [reflexivity | now apply wf_arr].
Qed.

(** ** Runs with a file *)

Section Runs.
Variable read_csv : string -> Result DataFrame.
Variable to_csv : DataFrame -> string.

Lemma load_data_cached f w df :
  snd (load_data read_csv f w) = ok df ->
  cached (fst (load_data read_csv f w)) = Some df /\
  session_state (fst (load_data read_csv f w)) = session_state w /\
  files (fst (load_data read_csv f w)) = files w /\
  page (fst (load_data read_csv f w)) = page w.
Proof.
  unfold load_data. destruct (cached w) eqn:C; cbn.
  - intros H. injection H as <-. auto.
  - destruct (read_csv (content f)); cbn; [discriminate|].
    intros H. injection H as <-. auto.
Qed.

Lemma load_data_same_memo f w w' :
  cached w' = cached w ->
  snd (load_data read_csv f w') = snd (load_data read_csv f w).
Proof.
  unfold load_data. intros ->. destruct (cached w); [reflexivity|].
  destruct (read_csv (content f)); reflexivity.
Qed.

Lemma wf_analysis_info f (s : string) df : wf (analysis_info f (JStr s) df).
Proof.
  apply wf_obj. split.
  - cbn. repeat constructor; cbn; intuition discriminate.
  - repeat (constructor;
            [split; [reflexivity | first [exact I | apply str_of_ok]]|]).
    constructor.
Qed.

(** The blocks of [main], each as one step. *)
Lemma sidebar_spec w :
  sidebar w
  = (mkWorld (mkSession (Some (count_of w)) (Some (last_of w)))
             (cached w) (parses w) (files w)
             (page w ++ [SidebarStats (count_of w) (fmt (last_of w))]),
     ok tt).
Proof.
  destruct w as [[[n|] [l|]] c p fs pg]; reflexivity.
Qed.

Lemma update_session_statistics_spec i w n l :
  session_state w = mkSession (Some n) l ->
  update_session_statistics i w
  = (with_session (mkSession (Some (n + 1)%Z) (Some (Some (stamp_of i)))) w,
     ok tt).
Proof.
  destruct w as [s c p fs pg]. cbn [session_state]. intros ->. reflexivity.
Qed.

Lemma save_analysis_history_spec f df w n s :
  session_state w = mkSession n (Some (Some s)) ->
  save_analysis_history f df w
  = save_user_history history_file (analysis_info f (JStr s) df) w.
Proof.
  destruct w as [ss c p fs pg]. cbn [session_state]. intros ->. reflexivity.
Qed.

Lemma bind_ok {A B} (m : M A) (k : A -> M B) w w' a :
  m w = (w', ok a) -> bind m k w = k a w'.
Proof. unfold bind. now intros ->. Qed.

Lemma bind_raise {A B} (m : M A) (k : A -> M B) w w' e :
  m w = (w', raise e) -> bind m k w = (w', raise e).
Proof. unfold bind. now intros ->. Qed.

(** With a file, a dataset and a readable history, a run is its main content
    rendered in the world [analysed]. *)
Lemma main_with_upload i w f df old :
  uploaded_file i = Some f ->
  snd (load_data read_csv f w) = ok df ->
  history_of (files w) history_file = ok old ->
  main read_csv to_csv i w = main_content to_csv i df (analysed read_csv i f df old w).
Proof.
  intros Hf Hload Hold.
  unfold main. rewrite Hf.
  erewrite bind_ok by reflexivity.
  erewrite bind_ok by apply sidebar_spec.
  set (w1 := mkWorld _ _ _ _ _).
  assert (Hl1 : load_data read_csv f w1
                = (mkWorld (session_state w1) (Some df)
                     (parses (fst (load_data read_csv f w))) (files w) (page w1),
                   ok df)).
  { revert Hload. unfold load_data. subst w1.
    cbn [cached with_page parses files session_state page].
    destruct (cached w); cbn [snd fst].
    - intros H. injection H as <-. reflexivity.
    - destruct (read_csv (content f)); cbn [snd fst]; [discriminate|].
      intros H. injection H as <-. reflexivity. }
  erewrite bind_ok by exact Hl1.
  erewrite bind_ok
    by (apply (update_session_statistics_spec i _ (count_of w) (Some (last_of w)));
        reflexivity).
  erewrite bind_ok.
  2:{ erewrite save_analysis_history_spec by reflexivity.
      apply (save_user_history_appends _ _ _ old);
        [apply wf_analysis_info | exact Hold]. }
  reflexivity.
Qed.

(** One run with a file whose load returns a dataset. *)
Lemma main_records_upload i w f df old :
  uploaded_file i = Some f ->
  snd (load_data read_csv f w) = ok df ->
  history_of (files w) history_file = ok old ->
  let w' := fst (main read_csv to_csv i w) in
  count_of w' = (count_of w + 1)%Z /\
  last_of w' = Some (stamp_of i) /\
  cached w' = Some df /\
  parses w' = parses (fst (load_data read_csv f w)) /\
  files w' = put_file history_file
               (dumps (JArr (old ++ [analysis_info f (JStr (stamp_of i)) df])))
               (files w).
Proof.
  intros Hf Hload Hold w'. subst w'.
  rewrite (main_with_upload i w f df old Hf Hload Hold).
  destruct (main_content_page_only to_csv i df (analysed read_csv i f df old w))
    as (Es & Ec & Ep & Ef).
  unfold count_of, last_of. rewrite Es, Ec, Ep, Ef. cbn. auto.
Qed.

(** X4.  Once a load has returned a dataset, every later load returns that
    dataset without reading anything, whichever file it is given. *)
Lemma load_data_memoised f g w df :
  snd (load_data read_csv f w) = ok df ->
  load_data read_csv g (fst (load_data read_csv f w))
  = (fst (load_data read_csv f w), ok df).
Proof.
  intros H. destruct (load_data_cached f w df H) as (Hc & _).
  unfold load_data at 1. now rewrite Hc.
Qed.

(** X5.  With an empty memo, a file that cannot be read ends the run before
    the counter, the timestamp or any file is touched. *)
Lemma failed_load_changes_nothing i w f e :
  uploaded_file i = Some f ->
  cached w = None ->
  read_csv (content f) = raise e ->
  snd (main read_csv to_csv i w) = raise e /\
  count_of (fst (main read_csv to_csv i w)) = count_of w /\
  last_of (fst (main read_csv to_csv i w)) = last_of w /\
  files (fst (main read_csv to_csv i w)) = files w /\
  cached (fst (main read_csv to_csv i w)) = None.
Proof.
  intros Hf Hc He. unfold main. rewrite Hf.
  erewrite bind_ok by reflexivity.
  erewrite bind_ok by apply sidebar_spec.
  erewrite bind_raise.
  2:{ unfold load_data. cbn [cached with_page]. rewrite Hc, He. reflexivity. }
  cbn. repeat split.
Qed.

(** C1, as amended.  The script runs once per interaction.  Over any sequence
    of runs in each of which a file is present and [load_data] returns a
    dataset, whatever the chart and export widgets of the run say, the counter
    goes up by exactly one per run and exactly one record is appended to the
    history file per run, in run order.  Two uploads made in two runs leave
    the counter at 2 and two records in upload order. *)
Theorem upload_runs_are_counted runs : forall w old,
  history_of (files w) history_file = ok old ->
  every_load_succeeds read_csv to_csv runs w ->
  count_of (session read_csv to_csv runs w)
  = (count_of w + Z.of_nat (List.length runs))%Z /\
  exists added,
    history_of (files (session read_csv to_csv runs w)) history_file
    = ok (old ++ added) /\
    Forall2 record_of runs added.
Proof.
  induction runs as [|i rest IH]; intros w old Hold Hruns.
  - cbn. split; [lia|]. exists []. rewrite List.app_nil_r. split; [assumption|constructor].
  - destruct Hruns as [(f & df & Hf & Hload) Hrest].
    destruct (main_records_upload i w f df old Hf Hload Hold)
      as (Hc & _ & _ & _ & Hfiles).
    cbn [session List.length every_load_succeeds] in *.
    set (rec := analysis_info f (JStr (stamp_of i)) df) in *.
    assert (Hold' : history_of (files (fst (main read_csv to_csv i w))) history_file
                    = ok (old ++ [rec])).
    { rewrite Hfiles. apply history_of_put_file.
      apply Forall_app. split; [eapply history_of_wf; eassumption|].
      constructor; [apply wf_analysis_info | constructor]. }
    destruct (IH _ _ Hold' Hrest) as (Hc' & added & Hh & Hrec).
    split; [rewrite Hc', Hc; lia|].
    exists (rec :: added). rewrite <- List.app_assoc in Hh. split; [exact Hh|].
    constructor; [|assumption]. exists f, df. auto.
Qed.

End Runs.

(** ** The history file *)

Lemma wf_record_json r : wf (record_json r).
Proof.
  apply wf_obj. split.
  - cbn. repeat constructor; cbn; intuition discriminate.
  - repeat (constructor;
            [split; [reflexivity | first [exact I | apply str_of_ok]]|]).
    constructor.
Qed.

Lemma put_file_other filename text fs g :
  g <> filename -> put_file filename text fs g = fs g.
Proof.
  intros H. unfold put_file. apply String.eqb_neq in H. now rewrite H.
Qed.

(** C4.  For every record and every history file that is absent or holds a
    JSON list [old], [save_user_history] succeeds, rewrites the file in full
    with the text of [old] followed by the record, and that text reads back as
    exactly [old] followed by the record; other files, the session state, the
    memo and the page are as before. *)
Theorem append_extends_history (r : UploadRecord) filename w old :
  history_of (files w) filename = ok old ->
  exists w',
    save_user_history filename (record_json r) w = (w', ok tt) /\
    files w' filename = Some (dumps (JArr (old ++ [record_json r]))) /\
    history_of (files w') filename = ok (old ++ [record_json r]) /\
    (forall g, g <> filename -> files w' g = files w g) /\
    session_state w' = session_state w /\ cached w' = cached w /\
    page w' = page w.
Proof.
  intros Hold. eexists. split.
  - apply save_user_history_appends; [apply wf_record_json | exact Hold].
  - cbn [files with_files session_state cached page]. repeat split.
    + unfold put_file. now rewrite String.eqb_refl.
    + apply history_of_put_file. apply Forall_app. split.
      * eapply history_of_wf; eassumption.
      * constructor; [apply wf_record_json | constructor].
    + intros g Hg. now apply put_file_other.
Qed.


(** ** Charts *)

Lemma known_In df c : known df (Some c) = true <-> In c (columns df).
Proof.
  cbn. rewrite existsb_exists. split.
  - intros (x & Hx & E). apply String.eqb_eq in E. now subst.
  - intros H. exists c. split; [assumption | apply String.eqb_refl].
Qed.

Lemma fig_px df chart_type x y :
  exists k t, fig df chart_type x y = px k df x y t.
Proof.
  unfold fig.
  repeat match goal with
  | |- context [if ?b then _ else _] => destruct b
  end; eauto.
Qed.

Lemma selectbox_In options choice o :
  selectbox options choice = Some o -> In o options.
Proof.
  unfold selectbox. destruct (nth_error options choice) as [x|] eqn:E.
  - intros H. injection H as <-. eapply nth_error_In; eassumption.
  - destruct options as [|x xs]; cbn; [discriminate|].
    intros H. injection H as <-. now left.
Qed.

Lemma selectbox_None options choice :
  selectbox options choice = None -> options = [].
Proof.
  unfold selectbox. destruct (nth_error options choice); [discriminate|].
  destruct options; [reflexivity | discriminate].
Qed.

Lemma numeric_cols_dtype df c :
  In c (numeric_cols df) ->
  exists s, In s (series df) /\ name s = c /\ (dt s = float64 \/ dt s = int64).
Proof.
  unfold numeric_cols, columns, select_dtypes. cbn [series].
  rewrite in_map_iff. intros (s & Hn & Hin).
  apply filter_In in Hin. destruct Hin as [Hin Hd].
  exists s. repeat split; [assumption..|].
  destruct (dt s); cbn in Hd; try discriminate; auto.
Qed.

Lemma px_axes k df x y t fg :
  px k df x y t = ok fg -> fig_x fg = x /\ fig_y fg = y.
Proof.
  unfold px. destruct (known df x && known df y); [|discriminate].
  intros H. injection H as <-. auto.
Qed.

Lemma fig_axes df chart_type x y fg :
  fig df chart_type x y = ok fg -> fig_x fg = x /\ fig_y fg = y.
Proof.
  destruct (fig_px df chart_type x y) as (k & t & ->). apply px_axes.
Qed.

(** ** The charts on the page *)

Section Page.
Variable read_csv : string -> Result DataFrame.
Variable to_csv : DataFrame -> string.

Lemma main_content_chart i df w fg :
  In (PlotlyChart fg) (page (fst (main_content to_csv i df w))) ->
  In (PlotlyChart fg) (page w) \/ chart_of i df = ok fg.
Proof.
  unfold main_content, bind, show, lift, ret, ok, raise. cbn [fst snd].
  fold (chart_of i df).
  destruct (chart_of i df) as [e|fg'];
    [|destruct (describe (getitem df (numeric_cols df))) as [e|t];
      [|destruct (download_clicked i)]];
    cbn [fst snd page with_page];
    rewrite ?in_app_iff; cbn [In]; intros H;
    repeat match type of H with
    | _ \/ _ => destruct H as [H|H]
    end; try discriminate H; try contradiction; auto.
  all: injection H as <-; auto.
Qed.

Lemma save_user_history_page filename d w :
  page (fst (save_user_history filename d w)) = page w.
Proof.
  unfold save_user_history, bind, lift, write_file.
  destruct (files w filename) as [text|].
  - destruct (loads text) as [e|v]; [reflexivity|].
    destruct (append v d); reflexivity.
  - reflexivity.
Qed.

Lemma load_data_page f w : page (fst (load_data read_csv f w)) = page w.
Proof.
  unfold load_data. destruct (cached w); [reflexivity|].
  destruct (read_csv (content f)); reflexivity.
Qed.

Lemma main_chart i w fg :
  In (PlotlyChart fg) (page (fst (main read_csv to_csv i w))) ->
  exists f df,
    uploaded_file i = Some f /\
    snd (load_data read_csv f w) = ok df /\
    chart_of i df = ok fg.
Proof.
  unfold main.
  erewrite bind_ok by reflexivity.
  erewrite bind_ok by apply sidebar_spec.
  set (w1 := mkWorld _ _ _ _ _).
  assert (Hp1 : page w1 = [SidebarStats (count_of w) (fmt (last_of w))])
    by reflexivity.
  destruct (uploaded_file i) as [f|].
  - pose proof (load_data_same_memo read_csv f w w1 eq_refl) as Hsame.
    pose proof (load_data_page f w1) as Hpage.
    pose proof (load_data_cached read_csv f w1) as Hcached.
    unfold bind at 1.
    destruct (load_data read_csv f w1) as [w2 [e|df]]; cbn [fst snd] in *.
    + rewrite Hpage, Hp1. cbn. intuition discriminate.
    + destruct (Hcached df eq_refl) as (_ & Hs & _ & _).
      erewrite bind_ok
        by (apply (update_session_statistics_spec i _ (count_of w)
                     (Some (last_of w))); rewrite Hs; reflexivity).
      set (w3 := with_session _ w2).
      unfold bind at 1.
      erewrite save_analysis_history_spec by reflexivity.
      pose proof (save_user_history_page history_file
                    (analysis_info f (JStr (stamp_of i)) df) w3) as Hp3.
      destruct (save_user_history history_file
                  (analysis_info f (JStr (stamp_of i)) df) w3)
        as [w4 [e|[]]]; cbn [fst snd] in *.
      * rewrite Hp3. subst w3. cbn [page with_session].
        rewrite Hpage, Hp1. cbn. intuition discriminate.
      * intros H. apply main_content_chart in H.
        rewrite Hp3 in H. subst w3. cbn [page with_session] in H.
        rewrite Hpage, Hp1 in H. cbn in H.
        destruct H as [[H|[]]|H]; [discriminate|].
        exists f, df. rewrite <- Hsame. auto.
  - unfold welcome, bind, show, ret, write_file.
    destruct (example_clicked i); cbn; intuition discriminate.
Qed.

(** C9.  Every chart a run puts on the page was built for the dataset the run
    loaded, and its y column is a float64 or int64 column of that dataset;
    the chart has no y column only when the dataset has no numeric column.
    This holds for every chart kind. *)
Theorem chart_y_axis_is_numeric i w fg :
  In (PlotlyChart fg) (page (fst (main read_csv to_csv i w))) ->
  exists f df,
    uploaded_file i = Some f /\
    snd (load_data read_csv f w) = ok df /\
    match fig_y fg with
    | Some c =>
        exists s, In s (series df) /\ name s = c /\
                  (dt s = float64 \/ dt s = int64)
    | None => numeric_cols df = []
    end.
Proof.
  intros H. destruct (main_chart i w fg H) as (f & df & Hf & Hl & Hc).
  exists f, df. repeat split; [assumption..|].
  apply fig_axes in Hc. destruct Hc as [_ ->].
  destruct (selectbox (numeric_cols df) (y_choice i)) as [c|] eqn:E.
  - apply numeric_cols_dtype. eapply selectbox_In; eassumption.
  - eapply selectbox_None; eassumption.
Qed.
End Page.

End AppFacts.

Module ScenarioFacts.
Import Json Frame Csv App Scenario JsonFacts FrameFacts AppFacts.

(** The three files, as the plain reader reads them. *)
Example reads_sales : read_csv_plain sales_csv = ok sales.
Proof. vm_compute. reflexivity. Qed.
Example reads_people : read_csv_plain people_csv = ok people.
Proof. vm_compute. reflexivity. Qed.
Example reads_ragged : read_csv_plain ragged_csv = raise ParserError.
Proof. vm_compute. reflexivity. Qed.

(** C1 as stated fails: after one upload the counter is 1 and the history has
    one record; selecting another chart kind, with the same file still in the
    uploader, runs the script again and leaves the counter at 2 and two
    records. *)
Lemma chart_only_rerun_is_counted :
  count_of after_first_upload = 1%Z /\
  count_of after_chart_change = 2%Z /\
  history_of (files after_first_upload) history_file
  = ok [analysis_info first_file stamp sales] /\
  history_of (files after_chart_change) history_file
  = ok [analysis_info first_file stamp sales;
        analysis_info first_file stamp sales].
Proof. vm_compute. repeat split. Qed.

(** C2, the code at the failing input.  After [first.csv] has been loaded,
    loading [second.csv], a different and valid file, returns the dataset of
    [first.csv] and reads nothing: [pd.read_csv] has run once, and the page of
    the second upload shows the three rows of the first file. *)
Theorem second_upload_reuses_first_dataset :
  read_csv_plain (content first_file) = ok sales /\
  read_csv_plain (content second_file) = ok people /\
  load_data read_csv_plain second_file after_first_upload
  = (after_first_upload, ok sales) /\
  parses after_first_upload = 1 /\
  parses after_second_upload = 1 /\
  In (Metric "Total Rows" 3) (page after_second_upload).
Proof. vm_compute. repeat split. auto 10. Qed.

(** C3, the code at the failing input.  After [first.csv] has been loaded, a
    run with [ragged.csv], which [pd.read_csv] refuses, does not fail: the
    memo answers, the counter goes from 1 to 2 and a record with the new file
    name and the old shape is appended. *)
Theorem invalid_upload_after_valid_is_recorded :
  read_csv_plain (content ragged_file) = raise ParserError /\
  snd (main read_csv_plain no_export (visit ragged_file 0) after_first_upload)
  = ok tt /\
  count_of after_first_upload = 1%Z /\
  count_of after_ragged_upload = 2%Z /\
  history_of (files after_ragged_upload) history_file
  = ok [analysis_info first_file stamp sales;
        analysis_info ragged_file stamp sales].
Proof. vm_compute. repeat split. Qed.

(** C1, at two uploads in a new session. *)
Lemma two_uploads_are_counted :
  count_of (session read_csv_plain no_export two_uploads fresh)
  = (count_of fresh + Z.of_nat (List.length two_uploads))%Z /\
  exists added,
    history_of (files (session read_csv_plain no_export two_uploads fresh))
      history_file = ok ([] ++ added) /\
    Forall2 (record_of) two_uploads added.
Proof.
  apply (upload_runs_are_counted read_csv_plain no_export two_uploads fresh []).
  - reflexivity.
  - cbn [every_load_succeeds two_uploads]. repeat split.
    + exists first_file, sales. split; [reflexivity | vm_compute; reflexivity].
    + exists second_file, sales. split; [reflexivity | vm_compute; reflexivity].
Defined.

(** C4, at a history of one record. *)
Lemma append_to_one_record :
  exists w',
    save_user_history history_file (record_json new_record)
      (with_history one_record) = (w', ok tt) /\
    files w' history_file
    = Some (dumps (JArr ([record_json (mkRecord "old.csv" "2024-03-04 18:30" 10 4)]
                         ++ [record_json new_record]))) /\
    history_of (files w') history_file
    = ok ([record_json (mkRecord "old.csv" "2024-03-04 18:30" 10 4)]
          ++ [record_json new_record]) /\
    (forall g, g <> history_file ->
               files w' g = files (with_history one_record) g) /\
    session_state w' = session_state (with_history one_record) /\
    cached w' = cached (with_history one_record) /\
    page w' = page (with_history one_record).
Proof.
  apply (append_extends_history new_record history_file
           (with_history one_record)
           [record_json (mkRecord "old.csv" "2024-03-04 18:30" 10 4)]).
  vm_compute. reflexivity.
Defined.



(** Floats, a constant and escaped code points are read as Python reads
    them, and written back as Python writes them. *)
Lemma foreign_history_is_read :
  loads foreign_history
  = ok (JArr [JObj [(str_of "filename",
                     JStr ([25968; 128512] ++ str_of ".csv")%N);
                    (str_of "rows",
                     JFloat (PyNum (mkTok false 1 (D5 Nil) None)));
                    (str_of "columns",
                     JFloat (PyNum (mkTok false 1000 (D0 Nil) None)))];
              JFloat (PyInf true)]).
Proof. vm_compute. reflexivity. Qed.

Lemma foreign_history_is_extended :
  files (fst (save_user_history history_file (record_json new_record)
                (with_history foreign_history))) history_file
  = Some (py "[{'filename': '\u6570\ud83d\ude00.csv', 'rows': 1.5, 'columns': 1000.0}, -Infinity, {'filename': 'new.csv', 'timestamp': '2024-03-05 09:07', 'rows': 3, 'columns': 2}]").
Proof. vm_compute. reflexivity. Qed.

(** C9, at the first upload of the scenario. *)
Lemma first_upload_chart_is_numeric :
  exists f df,
    uploaded_file (visit first_file 0) = Some f /\
    snd (load_data read_csv_plain f fresh) = ok df /\
    match fig_y first_chart with
    | Some c =>
        exists s, In s (series df) /\ name s = c /\
                  (dt s = float64 \/ dt s = int64)
    | None => numeric_cols df = []
    end.
Proof.
  apply (chart_y_axis_is_numeric read_csv_plain no_export
           (visit first_file 0) fresh first_chart).
  vm_compute. auto 10.
Defined.

(** C5.  For every dataset (one cell per row in every column) the "Missing
    Values" metric, [df.isna().sum().sum()], is the sum over every row and
    every column of the missing-cell indicator.  For the three-row file of the
    scenario the dataset has 3 rows, 2 columns and 1 missing cell, column [a]
    is numeric with 2 non-missing values and mean 3, and the page of the run
    shows these three metrics. *)
Theorem missing_count_is_cell_sum :
  (forall df, rectangular df -> missing_values df = missing_by_cell df) /\
  (exists df,
     read_csv_plain sales_csv = ok df /\
     len df = 3 /\ List.length (columns df) = 2 /\ missing_values df = 1 /\
     In "a" (numeric_cols df) /\
     (exists t st,
        describe (getitem df (numeric_cols df)) = ok t /\
        In ("a", st) t /\ s_count st = 2 /\ s_mean st = Fin 3) /\
     In (Metric "Total Rows" 3) (page after_first_upload) /\
     In (Metric "Total Columns" 2) (page after_first_upload) /\
     In (Metric "Missing Values" 1) (page after_first_upload)).
Proof.
  split; [exact missing_values_by_cell|].
  exists sales. split; [exact reads_sales|].
  repeat split; try reflexivity.
  - now left.
  - eexists. eexists. split; [reflexivity|]. split; [left; reflexivity|].
    split; reflexivity.
  - vm_compute. auto 10.
  - vm_compute. auto 10.
  - vm_compute. auto 10.
Qed.

(** C5, at the dataset of the scenario. *)
Lemma sales_missing_by_cell :
  rectangular sales /\ missing_values sales = missing_by_cell sales.
Proof.
  assert (H : rectangular sales) by (repeat constructor).
  split; [exact H | exact (proj1 missing_count_is_cell_sum sales H)].
Defined.

(** C6 as stated fails: the statistics of the empty column and the
    correlation of the constant column are NaN in the tables the script hands
    to the page; nothing stands for "not available" or "undefined". *)
Lemma nan_reaches_the_tables :
  (exists t,
     describe (getitem survey (numeric_cols survey)) = ok t /\
     In ("empty", mkStats 0 FNaN RNaN FNaN FNaN FNaN FNaN FNaN) t) /\
  (exists row,
     In ("flat", row) (corr (getitem survey (numeric_cols survey))) /\
     In ("score", RNaN) row).
Proof.
  split.
  - eexists. split; [reflexivity|]. left. reflexivity.
  - eexists. split; [right; left; reflexivity|]. right. right. left. reflexivity.
Qed.

(** C6, at the survey frame. *)
Lemma survey_statistics_are_nan :
  describe_series (mkSeries "empty" float64 [NaN; NaN])
  = mkStats 0 FNaN RNaN FNaN FNaN FNaN FNaN FNaN /\
  exists row_a row_b,
    In (name (mkSeries "flat" int64 [CInt 7; CInt 7]), row_a) (corr survey) /\
    In (name (mkSeries "score" int64 [CInt 1; CInt 2]), RNaN) row_a /\
    In (name (mkSeries "score" int64 [CInt 1; CInt 2]), row_b) (corr survey) /\
    In (name (mkSeries "flat" int64 [CInt 7; CInt 7]), RNaN) row_b.
Proof.
  split.
  - apply (proj1 undefined_statistics_are_nan). repeat constructor.
  - apply (proj2 undefined_statistics_are_nan survey
             (mkSeries "flat" int64 [CInt 7; CInt 7])
             (mkSeries "score" int64 [CInt 1; CInt 2])).
    + cbn. auto.
    + cbn. auto.
    + vm_compute. reflexivity.
Defined.

End ScenarioFacts.

(** * Further facts *)

(** ** [save_user_history] beyond one append *)

Module HistoryFacts.
Import Json Frame Csv App Scenario JsonFacts FrameFacts AppFacts.

Lemma save_user_history_fails filename d w e :
  history_of (files w) filename = raise e ->
  save_user_history filename d w = (w, raise e).
Proof.
  unfold save_user_history, history_of, bind, lift.
  destruct (files w filename) as [text|]; [|discriminate].
  destruct (loads text) as [e'|v].
  - intros H. injection H as <-. reflexivity.
  - destruct v; try discriminate; intros H; injection H as <-; reflexivity.
Qed.

Lemma loads_raises text e : loads text = raise e -> e = JSONDecodeError.
Proof.
  unfold loads.
  destruct (scan_once _ _) as [[v r]|]; [destruct (skip_ws r)|];
    intros H; try discriminate; now injection H.
Qed.

Lemma history_of_cases fs filename :
  (exists old, history_of fs filename = ok old) \/
  history_of fs filename = raise JSONDecodeError \/
  history_of fs filename = raise AttributeError.
Proof.
  unfold history_of. destruct (fs filename) as [text|]; [|left; eauto].
  destruct (loads text) as [e|v] eqn:E.
  - apply loads_raises in E. subst. right. left. reflexivity.
  - destruct v; solve [left; eauto | right; right; reflexivity].
Qed.

(** X1.  A history file that holds valid JSON which is not a list (an object,
    a number, a string, [null]) makes [save_user_history] stop with
    [AttributeError] at [history.append]: the file is not opened for writing
    and nothing else changes. *)
Theorem history_that_is_no_list_is_refused filename data_info w text v :
  files w filename = Some text ->
  loads text = ok v ->
  (forall l, v <> JArr l) ->
  save_user_history filename data_info w = (w, raise AttributeError).
Proof.
  intros Hf Hl Hv. apply save_user_history_fails.
  unfold history_of. rewrite Hf, Hl.
  destruct v; try reflexivity. now elim (Hv items).
Qed.

(** X2.  Calls of [save_user_history] compose.  From a readable history [old],
    saving the entries one after the other succeeds and leaves a file that
    reads back as [old] followed by the entries, in call order. *)
Theorem appends_compose filename entries : forall w old,
  Forall wf entries ->
  history_of (files w) filename = ok old ->
  snd (save_all filename entries w) = ok tt /\
  history_of (files (fst (save_all filename entries w))) filename
  = ok (old ++ entries).
Proof.
  induction entries as [|d rest IH]; intros w old Hwf Hold; cbn [save_all].
  - cbn. now rewrite List.app_nil_r.
  - inversion Hwf as [|? ? Hd Hrest]; subst.
    erewrite bind_ok by (apply save_user_history_appends; eassumption).
    set (w1 := with_files _ w).
    assert (H1 : history_of (files w1) filename = ok (old ++ [d])).
    { subst w1. cbn [files with_files]. apply history_of_put_file.
      apply Forall_app. split; [eapply history_of_wf; eassumption|].
      constructor; [assumption | constructor]. }
    destruct (IH w1 (old ++ [d]) Hrest H1) as [Hr Hh].
    split; [exact Hr|]. rewrite Hh, <- List.app_assoc. reflexivity.
Qed.

(** X3.  Whatever its outcome, [save_user_history] changes no file other than
    [filename], and leaves the session state, the memo, the parse count and
    the page as they were. *)
Theorem save_user_history_touches_one_file filename data_info w :
  (forall g, g <> filename ->
     files (fst (save_user_history filename data_info w)) g = files w g) /\
  session_state (fst (save_user_history filename data_info w))
  = session_state w /\
  cached (fst (save_user_history filename data_info w)) = cached w /\
  parses (fst (save_user_history filename data_info w)) = parses w /\
  page (fst (save_user_history filename data_info w)) = page w.
Proof.
  destruct (history_of_cases (files w) filename) as [[old H]|[H|H]].
  - unfold save_user_history, bind, lift, write_file, history_of in *.
    destruct (files w filename) as [text|].
    + destruct (loads text) as [e|v]; [discriminate|].
      destruct v; try discriminate. cbn.
      repeat split. intros g Hg. now apply put_file_other.
    + cbn. repeat split. intros g Hg. now apply put_file_other.
  - rewrite (save_user_history_fails _ _ _ _ H). cbn. auto.
  - rewrite (save_user_history_fails _ _ _ _ H). cbn. auto.
Qed.

End HistoryFacts.

(** ** One run of the script, case by case *)

Module RunFacts.
Import Json Frame Csv App Scenario JsonFacts FrameFacts AppFacts HistoryFacts.

Section Shapes.
Variable read_csv : string -> Result DataFrame.
Variable to_csv : DataFrame -> string.

Lemma main_greets i w :
  main read_csv to_csv i w
  = match uploaded_file i with
    | Some f =>
        (df <- load_data read_csv f ;;
         update_session_statistics i ;;;
         save_analysis_history f df ;;;
         main_content to_csv i df) (greeted w)
    | None => welcome to_csv i (greeted w)
    end.
Proof.
  unfold main.
  erewrite bind_ok by reflexivity.
  erewrite bind_ok by apply sidebar_spec.
  destruct (uploaded_file i); reflexivity.
Qed.

Lemma load_data_greeted f w :
  load_data read_csv f (greeted w)
  = match snd (load_data read_csv f w) with
    | inr df =>
        (mkWorld (session_state (greeted w)) (Some df)
           (parses (fst (load_data read_csv f w))) (files w) (page (greeted w)),
         ok df)
    | inl e =>
        (mkWorld (session_state (greeted w)) (cached w)
           (parses (fst (load_data read_csv f w))) (files w) (page (greeted w)),
         raise e)
    end.
Proof.
  unfold load_data, greeted. cbn [cached parses files session_state page].
  destruct (cached w); [reflexivity|].
  destruct (read_csv (content f)); reflexivity.
Qed.

Lemma load_data_raises f w e :
  snd (load_data read_csv f w) = raise e ->
  cached w = None /\ parses (fst (load_data read_csv f w)) = S (parses w).
Proof.
  unfold load_data. destruct (cached w); [discriminate|].
  destruct (read_csv (content f)); cbn; [auto | discriminate].
Qed.

(** With a file and a dataset, what is left of a run is the write to the
    history and the main content. *)
Lemma main_loaded i w f df :
  uploaded_file i = Some f ->
  snd (load_data read_csv f w) = ok df ->
  main read_csv to_csv i w
  = (save_user_history history_file
       (analysis_info f (JStr (stamp_of i)) df) ;;;
     main_content to_csv i df) (counted read_csv i f df w).
Proof.
  intros Hf Hl. rewrite main_greets, Hf.
  erewrite bind_ok by (rewrite load_data_greeted, Hl; reflexivity).
  erewrite bind_ok
    by (apply (update_session_statistics_spec i _ (count_of w)
                 (Some (last_of w))); reflexivity).
  unfold bind at 1.
  erewrite save_analysis_history_spec by reflexivity.
  reflexivity.
Qed.

Lemma main_unloaded i w f e :
  uploaded_file i = Some f ->
  snd (load_data read_csv f w) = raise e ->
  main read_csv to_csv i w = (unloaded w, raise e).
Proof.
  intros Hf Hl. rewrite main_greets, Hf.
  destruct (load_data_raises f w e Hl) as [Hc Hp].
  erewrite bind_raise; [reflexivity|].
  rewrite load_data_greeted, Hl, Hc, Hp. reflexivity.
Qed.

Lemma main_unrecorded i w f df e :
  uploaded_file i = Some f ->
  snd (load_data read_csv f w) = ok df ->
  history_of (files w) history_file = raise e ->
  main read_csv to_csv i w = (counted read_csv i f df w, raise e).
Proof.
  intros Hf Hl Hh. rewrite (main_loaded i w f df Hf Hl).
  erewrite bind_raise; [reflexivity|].
  apply save_user_history_fails. exact Hh.
Qed.

Lemma welcome_spec i w :
  snd (welcome to_csv i w) = ok tt /\
  session_state (fst (welcome to_csv i w)) = session_state w /\
  cached (fst (welcome to_csv i w)) = cached w /\
  parses (fst (welcome to_csv i w)) = parses w /\
  files (fst (welcome to_csv i w))
  = (if example_clicked i
     then put_file "example.csv" (to_csv (example_data i)) (files w)
     else files w) /\
  page (fst (welcome to_csv i w))
  = page w ++ Title "Welcome to Data Analysis Dashboard!"
      :: (if example_clicked i
          then [DownloadButton "Download Example Dataset"
                  (to_csv (example_data i)) "example.csv"]
          else []).
Proof.
  unfold welcome, bind, show, ret, write_file.
  destruct (example_clicked i); cbn; rewrite <- ?List.app_assoc; auto 10.
Qed.

End Shapes.

Section Steps.
Variable read_csv : string -> Result DataFrame.
Variable to_csv : DataFrame -> string.

Lemma same_core_eq w w' : same_core w w' -> core w' = core w.
Proof. intros (a & b & c & d). unfold core. congruence. Qed.

(** The state after a run, whatever the page and the outcome. *)
Lemma run_core i w :
  core (fst (main read_csv to_csv i w)) = next_core read_csv to_csv i w.
Proof.
  unfold next_core.
  destruct (uploaded_file i) as [f|] eqn:Hf.
  - destruct (snd (load_data read_csv f w)) as [e|df] eqn:Hl.
    + now rewrite (main_unloaded read_csv to_csv i w f e Hf Hl).
    + destruct (history_of (files w) history_file) as [e|old] eqn:Hh.
      * now rewrite (main_unrecorded read_csv to_csv i w f df e Hf Hl Hh).
      * rewrite (main_with_upload read_csv to_csv i w f df old Hf Hl Hh).
        apply same_core_eq, main_content_page_only.
  - rewrite main_greets, Hf.
    destruct (welcome_spec to_csv i (greeted w)) as (_ & Hs & Hc & Hp & Hfs & _).
    unfold core. rewrite Hs, Hc, Hp, Hfs. reflexivity.
Qed.

Lemma run_parts i w :
  session_state (fst (main read_csv to_csv i w))
  = fst (fst (fst (next_core read_csv to_csv i w))) /\
  cached (fst (main read_csv to_csv i w))
  = snd (fst (fst (next_core read_csv to_csv i w))) /\
  parses (fst (main read_csv to_csv i w))
  = snd (fst (next_core read_csv to_csv i w)) /\
  files (fst (main read_csv to_csv i w))
  = snd (next_core read_csv to_csv i w).
Proof. rewrite <- run_core. unfold core. cbn. auto. Qed.

Ltac run_cases i w :=
  destruct (run_parts i w) as (?Hs & ?Hc & ?Hp & ?Hfs);
  unfold next_core in *;
  destruct (uploaded_file i) as [?f|] eqn:?Hf;
  [ destruct (snd (load_data read_csv _ w)) as [?e|?df] eqn:?Hl;
    [| destruct (history_of (files w) history_file) as [?e|?old] eqn:?Hh ]
  |];
  cbn [core fst snd analysed counted unloaded greeted session_state cached
       parses files] in *.

(** X7.  The counter moves with the load and with nothing else: a run adds one
    exactly when a file is present and [load_data] returns a dataset, whatever
    the history file holds and whatever happens later in the run. *)
Theorem counter_moves_with_the_load i w :
  count_of (fst (main read_csv to_csv i w))
  = match uploaded_file i with
    | Some f =>
        match snd (load_data read_csv f w) with
        | inr _ => (count_of w + 1)%Z
        | inl _ => count_of w
        end
    | None => count_of w
    end.
Proof.
  unfold count_of at 1. run_cases i w; rewrite Hs; reflexivity.
Qed.

(** A run parses at most once, and not at all when the memo holds a dataset,
    which it then keeps. *)
Lemma memo_is_kept i w :
  parses w <= parses (fst (main read_csv to_csv i w)) <= S (parses w) /\
  (forall df, cached w = Some df ->
     cached (fst (main read_csv to_csv i w)) = Some df /\
     parses (fst (main read_csv to_csv i w)) = parses w).
Proof.
  assert (Hload : forall f,
            parses w <= parses (fst (load_data read_csv f w)) <= S (parses w) /\
            (forall d, cached w = Some d ->
               snd (load_data read_csv f w) = ok d /\
               parses (fst (load_data read_csv f w)) = parses w)).
  { intros f. unfold load_data. destruct (cached w) as [d|] eqn:E.
    - cbn. split; [lia|]. intros d' H. injection H as <-. auto.
    - destruct (read_csv (content f)); cbn; (split; [lia | discriminate]). }
  run_cases i w; rewrite Hc, Hp; try (destruct (Hload f) as [Hb Hm]).
  - destruct (load_data_raises read_csv f w e Hl) as [Hn _].
    split; [lia|]. intros d Hd. congruence.
  - split; [lia|]. intros d Hd. destruct (Hm d Hd) as [E ->].
    rewrite Hl in E. injection E as ->. auto.
  - split; [lia|]. intros d Hd. destruct (Hm d Hd) as [E ->].
    rewrite Hl in E. injection E as ->. auto.
  - split; [lia | auto].
Qed.

(** X9.  When the history file cannot be read as a list, a run with a dataset
    stops at [save_user_history] with that exception: the counter has gone up
    and the timestamp is set, no record is written, the file is as it was and
    the page holds the sidebar only. *)
Theorem unreadable_history_stops_the_run i w f df e :
  uploaded_file i = Some f ->
  snd (load_data read_csv f w) = ok df ->
  history_of (files w) history_file = raise e ->
  snd (main read_csv to_csv i w) = raise e /\
  count_of (fst (main read_csv to_csv i w)) = (count_of w + 1)%Z /\
  last_of (fst (main read_csv to_csv i w)) = Some (stamp_of i) /\
  files (fst (main read_csv to_csv i w)) = files w /\
  page (fst (main read_csv to_csv i w))
  = [SidebarStats (count_of w) (fmt (last_of w))].
Proof.
  intros Hf Hl Hh.
  rewrite (main_unrecorded read_csv to_csv i w f df e Hf Hl Hh).
  repeat split.
Qed.

(** One run appends at most one record, and the counter goes up by as
    many. *)
Lemma run_appends i w old :
  history_of (files w) history_file = ok old ->
  exists added,
    history_of (files (fst (main read_csv to_csv i w))) history_file
    = ok (old ++ added) /\
    count_of (fst (main read_csv to_csv i w))
    = (count_of w + Z.of_nat (List.length added))%Z /\
    List.length added <= 1.
Proof.
  intros Hold. unfold count_of at 1.
  run_cases i w; rewrite Hfs, Hs.
  - exists []. rewrite List.app_nil_r. cbn. repeat split; [assumption|lia|lia].
  - discriminate.
  - injection Hold as <-.
    exists [analysis_info f (JStr (stamp_of i)) df].
    split; [|split; [reflexivity | cbn; lia]].
    apply history_of_put_file. apply Forall_app. split.
    + eapply history_of_wf; eassumption.
    + constructor; [apply (wf_analysis_info read_csv to_csv) | constructor].
  - exists []. rewrite List.app_nil_r. cbn. repeat split; [|lia|lia].
    destruct (example_clicked i); [|assumption].
    unfold history_of in *. rewrite put_file_other by discriminate.
    assumption.
Qed.

(** X10.  Over any session that starts with a readable history, whatever the
    runs are, the history keeps its old records and grows by appended records
    only, the counter goes up by the number of records added, and at most one
    record is added per run. *)
Theorem history_and_counter_agree runs : forall w old,
  history_of (files w) history_file = ok old ->
  exists added,
    history_of (files (session read_csv to_csv runs w)) history_file
    = ok (old ++ added) /\
    count_of (session read_csv to_csv runs w)
    = (count_of w + Z.of_nat (List.length added))%Z /\
    List.length added <= List.length runs.
Proof.
  induction runs as [|i rest IH]; intros w old Hold; cbn [session].
  - exists []. rewrite List.app_nil_r. cbn. repeat split; [assumption|lia|lia].
  - destruct (run_appends i w old Hold) as (a1 & H1 & C1 & L1).
    destruct (IH _ _ H1) as (a2 & H2 & C2 & L2).
    exists (a1 ++ a2). rewrite List.app_assoc, length_app.
    repeat split; [assumption | lia | cbn; lia].
Qed.

(** X11.  The axis picks, the chart kind, the export button and the export
    clock never reach the state: two runs that agree on the file, the clock of
    the analysis and the example button leave the same session state, memo,
    parse count and files. *)
Theorem picks_do_not_reach_the_state i i' w :
  uploaded_file i = uploaded_file i' ->
  now_analysis i = now_analysis i' ->
  example_clicked i = example_clicked i' ->
  example_data i = example_data i' ->
  core (fst (main read_csv to_csv i w))
  = core (fst (main read_csv to_csv i' w)).
Proof.
  intros Hu Hn Hc Hd. rewrite !run_core. unfold next_core, analysed, counted,
    stamp_of. now rewrite Hu, Hn, Hc, Hd.
Qed.

End Steps.

Lemma known_selectbox df options choice :
  incl options (columns df) -> known df (selectbox options choice) = true.
Proof.
  intros Hi. destruct (selectbox options choice) as [c|] eqn:E; [|reflexivity].
  apply known_In, Hi. eapply selectbox_In; eassumption.
Qed.

Lemma numeric_cols_incl df : incl (numeric_cols df) (columns df).
Proof.
  intros c H. destruct (numeric_cols_dtype df c H) as (s & Hin & <- & _).
  unfold columns. now apply in_map.
Qed.

(** The chart call of a run never raises: both picks are columns of the
    dataset, or [None]. *)
Lemma chart_of_ok i df :
  exists fg, chart_of i df = ok fg /\
             fig_x fg = selectbox (columns df) (x_choice i) /\
             fig_y fg = selectbox (numeric_cols df) (y_choice i).
Proof.
  unfold chart_of.
  destruct (fig_px df (radio chart_types (chart_choice i))
              (selectbox (columns df) (x_choice i))
              (selectbox (numeric_cols df) (y_choice i))) as (k & t & ->).
  unfold px.
  rewrite (known_selectbox df (columns df)) by apply incl_refl.
  rewrite (known_selectbox df (numeric_cols df)) by apply numeric_cols_incl.
  cbn. eauto.
Qed.

Lemma getitem_nil df names :
  series (getitem df names) = [] ->
  forall n, In n names -> ~ In n (columns df).
Proof.
  unfold getitem, columns. cbn [series]. intros H n Hn Hin.
  apply in_map_iff in Hin. destruct Hin as (s & Hs & Hin).
  assert (In s (flat_map (fun n => filter (fun s => String.eqb (name s) n)
                                          (series df)) names)) as Hm.
  { apply in_flat_map. exists n. split; [assumption|].
    apply filter_In. split; [assumption|]. subst n. apply String.eqb_refl. }
  rewrite H in Hm. exact Hm.
Qed.

(** [df[numeric_cols]] has no column exactly when there is no numeric
    column. *)
Lemma numeric_part_empty df :
  series (getitem df (numeric_cols df)) = [] <-> numeric_cols df = [].
Proof.
  split.
  - intros H. destruct (numeric_cols df) as [|c cs] eqn:E; [reflexivity|].
    exfalso. apply (getitem_nil df (c :: cs) H c); [now left|].
    apply numeric_cols_incl. rewrite E. now left.
  - intros ->. reflexivity.
Qed.

Section Content.
Variable read_csv : string -> Result DataFrame.
Variable to_csv : DataFrame -> string.

(** The main content, by cases on the numeric columns. *)
Lemma main_content_spec i df w :
  exists fg,
    chart_of i df = ok fg /\
    main_content to_csv i df w
    = match describe (getitem df (numeric_cols df)) with
      | inl e => (with_page (page w ++ overview df fg) w, raise e)
      | inr t =>
          (with_page
             (page w ++ overview df fg
              ++ [StatsTable t;
                  Heatmap (corr (getitem df (numeric_cols df)))]
              ++ export_of to_csv i df) w,
           ok tt)
      end.
Proof.
  destruct (chart_of_ok i df) as (fg & Hfg & _). exists fg.
  split; [assumption|].
  unfold main_content, bind, show, lift, ret, export_of, overview, ok, raise
    in *.
  cbn [fst snd]. fold (chart_of i df). rewrite Hfg.
  destruct (describe (getitem df (numeric_cols df))) as [e|t];
    [|destruct (download_clicked i)];
    unfold with_page; cbn [page session_state cached parses files fst snd];
    rewrite <- ?List.app_assoc; reflexivity.
Qed.

Lemma describe_numeric_part df :
  (numeric_cols df = [] /\
   describe (getitem df (numeric_cols df)) = raise ValueError) \/
  (numeric_cols df <> [] /\
   exists t, describe (getitem df (numeric_cols df)) = ok t).
Proof.
  unfold describe.
  destruct (series (getitem df (numeric_cols df))) as [|s l] eqn:E.
  - left. split; [now apply numeric_part_empty | reflexivity].
  - right. split; [|eauto]. intros H. apply numeric_part_empty in H.
    congruence.
Qed.

End Content.

Section Whole.
Variable read_csv : string -> Result DataFrame.
Variable to_csv : DataFrame -> string.

Lemma main_content_of i df w :
  exists fg,
    chart_of i df = ok fg /\
    main_content to_csv i df w
    = (with_page (page w ++ fst (content_of to_csv i df fg)) w,
       snd (content_of to_csv i df fg)).
Proof.
  destruct (main_content_spec to_csv i df w) as (fg & Hfg & E).
  exists fg. split; [assumption|]. rewrite E. unfold content_of.
  destruct (describe (getitem df (numeric_cols df))); reflexivity.
Qed.

(** The four ways a run can go, with the page and the outcome. *)
Lemma run_page i w :
  match uploaded_file i with
  | None =>
      snd (main read_csv to_csv i w) = ok tt /\
      page (fst (main read_csv to_csv i w))
      = SidebarStats (count_of w) (fmt (last_of w)) :: welcome_page to_csv i
  | Some f =>
      match snd (load_data read_csv f w) with
      | inl e =>
          snd (main read_csv to_csv i w) = raise e /\
          page (fst (main read_csv to_csv i w))
          = [SidebarStats (count_of w) (fmt (last_of w))]
      | inr df =>
          match history_of (files w) history_file with
          | inl e =>
              snd (main read_csv to_csv i w) = raise e /\
              page (fst (main read_csv to_csv i w))
              = [SidebarStats (count_of w) (fmt (last_of w))]
          | inr old =>
              exists fg,
                chart_of i df = ok fg /\
                snd (main read_csv to_csv i w)
                = snd (content_of to_csv i df fg) /\
                page (fst (main read_csv to_csv i w))
                = SidebarStats (count_of w) (fmt (last_of w))
                  :: fst (content_of to_csv i df fg)
          end
      end
  end.
Proof.
  destruct (uploaded_file i) as [f|] eqn:Hf.
  - destruct (snd (load_data read_csv f w)) as [e|df] eqn:Hl.
    + rewrite (main_unloaded read_csv to_csv i w f e Hf Hl). split; reflexivity.
    + destruct (history_of (files w) history_file) as [e|old] eqn:Hh.
      * rewrite (main_unrecorded read_csv to_csv i w f df e Hf Hl Hh).
        split; reflexivity.
      * rewrite (main_with_upload read_csv to_csv i w f df old Hf Hl Hh).
        destruct (main_content_of i df (analysed read_csv i f df old w))
          as (fg & Hfg & ->).
        exists fg. repeat split; assumption.
  - rewrite main_greets, Hf.
    destruct (welcome_spec to_csv i (greeted w)) as (Hr & _ & _ & _ & _ & Hp).
    split; [assumption|]. rewrite Hp. reflexivity.
Qed.

Ltac page_cases i w :=
  let H := fresh "H" in
  pose proof (run_page i w) as H;
  destruct (uploaded_file i) as [?f|] eqn:?Hf;
  [ destruct (snd (load_data read_csv _ w)) as [?e|?df] eqn:?Hl;
    [| destruct (history_of (files w) history_file) as [?e|?old] eqn:?Hh ]
  |];
  [ destruct H as [?Hr ?Hp]
  | destruct H as [?Hr ?Hp]
  | destruct H as (?fg & ?Hfg & ?Hr & ?Hp)
  | destruct H as [?Hr ?Hp] ].

Lemma content_outcome i df fg :
  snd (content_of to_csv i df fg)
  = match numeric_cols df with
    | [] => raise ValueError
    | _ :: _ => ok tt
    end.
Proof.
  unfold content_of.
  destruct (describe_numeric_part df) as [[Hn ->]|[Hn (t & ->)]].
  - rewrite Hn. reflexivity.
  - destruct (numeric_cols df); [congruence | reflexivity].
Qed.

(** X6.  A run fails in three cases and no other: the load raises, the history
    file cannot be read as a list, or the dataset has no numeric column
    ([describe] refuses the empty selection).  The chart call never fails. *)
Theorem run_outcome i w :
  snd (main read_csv to_csv i w)
  = match uploaded_file i with
    | None => ok tt
    | Some f =>
        match snd (load_data read_csv f w) with
        | inl e => raise e
        | inr df =>
            match history_of (files w) history_file with
            | inl e => raise e
            | inr _ =>
                match numeric_cols df with
                | [] => raise ValueError
                | _ :: _ => ok tt
                end
            end
        end
    end.
Proof.
  page_cases i w; rewrite Hr; try reflexivity. apply content_outcome.
Qed.

(** X8.  The sidebar is rendered before the counter is updated: the first
    element of the page shows the count and the timestamp the run started
    with. *)
Theorem sidebar_shows_the_count_before_the_run i w :
  hd_error (page (fst (main read_csv to_csv i w)))
  = Some (SidebarStats (count_of w) (fmt (last_of w))).
Proof.
  page_cases i w; rewrite Hp; reflexivity.
Qed.

(** X14.  For a dataset without numeric column the run is counted and recorded,
    the page shows the overview and a chart whose y axis is [None], and the
    run stops with [ValueError] before any statistics or export. *)
Theorem without_numeric_column_the_page_ends_at_the_chart i w f df old :
  uploaded_file i = Some f ->
  snd (load_data read_csv f w) = ok df ->
  history_of (files w) history_file = ok old ->
  numeric_cols df = [] ->
  exists fg,
    page (fst (main read_csv to_csv i w))
    = SidebarStats (count_of w) (fmt (last_of w)) :: overview df fg /\
    fig_x fg = selectbox (columns df) (x_choice i) /\
    fig_y fg = None /\
    snd (main read_csv to_csv i w) = raise ValueError /\
    count_of (fst (main read_csv to_csv i w)) = (count_of w + 1)%Z /\
    history_of (files (fst (main read_csv to_csv i w))) history_file
    = ok (old ++ [analysis_info f (JStr (stamp_of i)) df]).
Proof.
  intros Hf Hl Hh Hn.
  pose proof (run_page i w) as H. rewrite Hf, Hl, Hh in H.
  destruct H as (fg & Hfg & Hr & Hp).
  destruct (chart_of_ok i df) as (fg' & Hfg' & Hx & Hy).
  assert (fg' = fg) as ->
    by (rewrite Hfg in Hfg'; now injection Hfg' as <-).
  assert (E : content_of to_csv i df fg = (overview df fg, raise ValueError)).
  { unfold content_of.
    destruct (describe_numeric_part df) as [[_ ->]|[Hn' _]];
      [reflexivity | contradiction]. }
  rewrite E in Hr, Hp. cbn [fst snd] in Hr, Hp. exists fg.
  rewrite Hn in Hy. change (selectbox [] (y_choice i)) with
    (match nth_error (@nil string) (y_choice i) with
     | Some o => Some o
     | None => None
     end) in Hy.
  assert (Hy' : fig_y fg = None)
    by (rewrite Hy; destruct (y_choice i); reflexivity).
  destruct (run_parts read_csv to_csv i w) as (Hs & _ & _ & Hfs).
  unfold next_core in Hs, Hfs. rewrite Hf, Hl, Hh in Hs, Hfs.
  unfold ok in Hs, Hfs. cbn [core analysed fst snd] in Hs, Hfs.
  repeat split; try assumption.
  - unfold count_of at 1. rewrite Hs. reflexivity.
  - rewrite Hfs. apply history_of_put_file. apply Forall_app. split.
    + eapply history_of_wf; eassumption.
    + constructor; [apply (wf_analysis_info read_csv to_csv) | constructor].
Qed.

(** X13.  A run writes no file other than the history file and
    [example.csv]. *)
Theorem run_writes_two_files_at_most i w g :
  g <> history_file -> g <> "example.csv" ->
  files (fst (main read_csv to_csv i w)) g = files w g.
Proof.
  intros G1 G2.
  destruct (run_parts read_csv to_csv i w) as (_ & _ & _ & Hfs).
  rewrite Hfs. unfold next_core.
  destruct (uploaded_file i) as [f|].
  - destruct (snd (load_data read_csv f w)) as [e|df]; [reflexivity|].
    destruct (history_of (files w) history_file) as [e|old];
      cbn [core analysed counted snd]; [reflexivity|].
    now apply put_file_other.
  - cbn [snd]. destruct (example_clicked i); [|reflexivity].
    now apply put_file_other.
Qed.

(** X12.  Once the memo holds a dataset it holds that dataset for the rest of
    the session, and [read_csv] is not called again, whatever is uploaded. *)
Theorem first_dataset_is_kept runs : forall w df,
  cached w = Some df ->
  cached (session read_csv to_csv runs w) = Some df /\
  parses (session read_csv to_csv runs w) = parses w.
Proof.
  induction runs as [|i rest IH]; intros w df Hc; cbn [session]; [auto|].
  destruct (memo_is_kept read_csv to_csv i w) as [_ Hm].
  destruct (Hm df Hc) as [Hc' Hp'].
  destruct (IH _ _ Hc') as [Hc2 Hp2]. split; congruence.
Qed.

(** X15.  Every download button on the page offers either the example data
    under the name [example.csv], in a run without file with the example
    button pressed, or the dataset [load_data] returned, in a run with the
    export button pressed, under a name built from the export clock. *)
Theorem downloads_offer_loaded_data i w label text file :
  In (DownloadButton label text file) (page (fst (main read_csv to_csv i w))) ->
  (uploaded_file i = None /\ example_clicked i = true /\
   text = to_csv (example_data i) /\ file = "example.csv") \/
  (exists f df,
     uploaded_file i = Some f /\
     snd (load_data read_csv f w) = ok df /\
     download_clicked i = true /\
     text = to_csv df /\
     file = ("processed_data_" ++ strftime_stamp (now_export i)
             ++ ".csv")%string).
Proof.
  intros Hin. page_cases i w; rewrite Hp in Hin.
  - destruct Hin as [H|[]]. discriminate.
  - destruct Hin as [H|[]]. discriminate.
  - right. exists f, df. split; [reflexivity|]. split; [exact Hl|].
    unfold content_of, overview, export_of in Hin.
    destruct (describe (getitem df (numeric_cols df))) as [e|t];
      [|destruct (download_clicked i)];
      cbn [fst List.app] in Hin; cbn [List.In] in Hin;
      repeat match type of Hin with
      | _ \/ _ => destruct Hin as [Hin|Hin]
      end; try discriminate Hin; try contradiction.
    injection Hin as _ <- <-. auto.
  - left. split; [reflexivity|].
    unfold welcome_page in Hin.
    destruct (example_clicked i); cbn [In] in Hin;
      repeat match type of Hin with
      | _ \/ _ => destruct Hin as [Hin|Hin]
      end; try discriminate Hin; try contradiction.
    injection Hin as _ <- <-. auto.
Qed.

End Whole.

Section Welcome.
Variable read_csv : string -> Result DataFrame.
Variable to_csv : DataFrame -> string.

(** X16.  Without a file a run succeeds and analyses nothing: counter,
    timestamp, memo, parse count and history are as before.  The example
    button writes [example.csv] and offers that text for download; it does
    not load the example into the dashboard. *)
Theorem example_button_only_offers_a_download i w :
  uploaded_file i = None ->
  snd (main read_csv to_csv i w) = ok tt /\
  count_of (fst (main read_csv to_csv i w)) = count_of w /\
  last_of (fst (main read_csv to_csv i w)) = last_of w /\
  cached (fst (main read_csv to_csv i w)) = cached w /\
  parses (fst (main read_csv to_csv i w)) = parses w /\
  history_of (files (fst (main read_csv to_csv i w))) history_file
  = history_of (files w) history_file /\
  files (fst (main read_csv to_csv i w))
  = (if example_clicked i
     then put_file "example.csv" (to_csv (example_data i)) (files w)
     else files w) /\
  page (fst (main read_csv to_csv i w))
  = SidebarStats (count_of w) (fmt (last_of w)) :: welcome_page to_csv i.
Proof.
  intros Hf.
  pose proof (run_page read_csv to_csv i w) as H. rewrite Hf in H.
  destruct H as [Hr Hp].
  destruct (run_parts read_csv to_csv i w) as (Hs & Hc & Hn & Hfs).
  unfold next_core in Hs, Hc, Hn, Hfs. rewrite Hf in Hs, Hc, Hn, Hfs.
  cbn [fst snd greeted session_state] in Hs, Hc, Hn, Hfs.
  unfold count_of at 1, last_of at 1. rewrite Hs, Hfs.
  repeat split; try assumption.
  unfold history_of. destruct (example_clicked i); [|reflexivity].
  now rewrite put_file_other by discriminate.
Qed.

End Welcome.

End RunFacts.

(** ** The tables of the dashboard *)

Module TableFacts.
Import Json Frame Csv App Scenario JsonFacts FrameFacts AppFacts.

Lemma complete_pairs_swap xs : forall ys,
  complete_pairs ys xs = map swap (complete_pairs xs ys).
Proof.
  induction xs as [|x xr IH]; intros [|y yr]; cbn [complete_pairs map];
    try reflexivity.
  rewrite IH.
  destruct (cell_value x), (cell_value y); reflexivity.
Qed.

Lemma Qmult_swap (x y : Q) : (x * y)%Q = (y * x)%Q.
Proof.
  unfold Qmult. f_equal; [apply Z.mul_comm | apply Pos.mul_comm].
Qed.

Lemma map_fst_swap ps : map fst (map swap ps) = map snd ps.
Proof. rewrite map_map. reflexivity. Qed.

Lemma map_snd_swap ps : map snd (map swap ps) = map fst ps.
Proof. rewrite map_map. reflexivity. Qed.

Lemma cov_sum_swap ps : cov_sum (map swap ps) = cov_sum ps.
Proof.
  unfold cov_sum. rewrite map_fst_swap, map_snd_swap, map_map.
  f_equal. apply map_ext. intros p. cbn. apply Qmult_swap.
Qed.

Lemma corr_pair_sym xs ys : corr_pair xs ys = corr_pair ys xs.
Proof.
  unfold corr_pair. rewrite (complete_pairs_swap xs ys).
  destruct (complete_pairs xs ys) as [|p ps]; [reflexivity|].
  cbn [map]. cbv zeta.
  change (swap p :: map swap ps) with (map swap (p :: ps)).
  rewrite map_fst_swap, map_snd_swap, cov_sum_swap.
  rewrite (Qmult_swap (ssq (map snd (p :: ps)))).
  reflexivity.
Qed.

Lemma corr_at_spec df a b :
  corr_at df a b
  = match nth_error (series df) a, nth_error (series df) b with
    | Some sa, Some sb => Some (corr_pair (values sa) (values sb))
    | _, _ => None
    end.
Proof.
  unfold corr_at, corr. rewrite nth_error_map.
  destruct (nth_error (series df) a) as [sa|]; cbn [option_map];
    [|reflexivity].
  rewrite nth_error_map.
  destruct (nth_error (series df) b); reflexivity.
Qed.

(** X18.  The correlation matrix is symmetric: the cell in row [a], column [b]
    is the cell in row [b], column [a]. *)
Theorem corr_is_symmetric df a b : corr_at df a b = corr_at df b a.
Proof.
  rewrite !corr_at_spec.
  destruct (nth_error (series df) a) as [sa|],
           (nth_error (series df) b) as [sb|]; try reflexivity.
  now rewrite corr_pair_sym.
Qed.

Lemma filter_none {A} (f : A -> bool) l :
  (forall y, In y l -> f y = false) -> filter f l = [].
Proof.
  induction l as [|x r IH]; intros H; [reflexivity|].
  cbn [filter]. rewrite (H x) by now left.
  apply IH. intros y Hy. apply H. now right.
Qed.

Lemma filter_name_unique l : forall s,
  NoDup (map name l) -> In s l ->
  filter (fun s' => String.eqb (name s') (name s)) l = [s].
Proof.
  induction l as [|x r IH]; intros s Hd Hin; [contradiction|].
  cbn [map] in Hd. inversion Hd as [|? ? Hx Hr]; subst.
  cbn [filter]. destruct Hin as [->|Hin].
  - rewrite String.eqb_refl. f_equal.
    apply filter_none. intros y Hy.
    destruct (String.eqb (name y) (name s)) eqn:E; [|reflexivity].
    apply String.eqb_eq in E. exfalso. apply Hx. rewrite <- E.
    now apply in_map.
  - destruct (String.eqb (name x) (name s)) eqn:E.
    + apply String.eqb_eq in E. exfalso. apply Hx. rewrite E.
      now apply in_map.
    + now apply IH.
Qed.

Lemma flat_map_names l : forall sub,
  NoDup (map name l) -> incl sub l ->
  flat_map (fun n => filter (fun s => String.eqb (name s) n) l)
           (map name sub) = sub.
Proof.
  intros sub Hd. induction sub as [|s r IH]; intros Hi; [reflexivity|].
  cbn [map flat_map].
  rewrite (filter_name_unique l s Hd) by (apply Hi; now left).
  cbn [List.app]. f_equal. apply IH. intros x Hx. apply Hi. now right.
Qed.

Lemma getitem_numeric df :
  NoDup (columns df) ->
  getitem df (numeric_cols df) = select_dtypes [float64; int64] df.
Proof.
  intros Hd. unfold getitem, numeric_cols, columns, select_dtypes.
  cbn [series n_rows]. f_equal.
  apply flat_map_names; [assumption|].
  intros s Hs. apply filter_In in Hs. tauto.
Qed.

(** X17.  With distinct column names, [df[numeric_cols]] is the frame of the
    float64 and int64 columns, and both the statistics table and the
    correlation matrix have one entry per numeric column, in column order. *)
Theorem statistics_cover_the_numeric_columns df :
  NoDup (columns df) ->
  getitem df (numeric_cols df) = select_dtypes [float64; int64] df /\
  (forall t, describe (getitem df (numeric_cols df)) = ok t ->
             map fst t = numeric_cols df) /\
  map fst (corr (getitem df (numeric_cols df))) = numeric_cols df.
Proof.
  intros Hd. rewrite (getitem_numeric df Hd). split; [reflexivity|]. split.
  - intros t. unfold describe, numeric_cols, columns.
    destruct (series (select_dtypes [float64; int64] df)) as [|s l];
      [discriminate|].
    intros H. injection H as <-. cbn [map fst]. f_equal.
    rewrite map_map. reflexivity.
  - unfold corr, numeric_cols, columns. rewrite map_map. reflexivity.
Qed.

Lemma sum_bools_zero l : sum_bools l = 0 <-> Forall (fun b => b = false) l.
Proof.
  induction l as [|b r IH]; cbn.
  - split; [constructor | reflexivity].
  - destruct b; cbn.
    + split; [discriminate | intros H; inversion H; discriminate].
    + rewrite IH. split; [now constructor | intros H; now inversion H].
Qed.

Lemma sum_bools_le l : sum_bools l <= List.length l.
Proof.
  unfold sum_bools.
  induction l as [|[|] r IH]; cbn [fold_right List.length]; lia.
Qed.

Lemma missing_values_cons n s r :
  missing_values (mkFrame n (s :: r))
  = sum_bools (map cell_isna (values s)) + missing_values (mkFrame n r).
Proof. reflexivity. Qed.

Lemma missing_values_rows df m :
  missing_values df = missing_values (mkFrame m (series df)).
Proof. reflexivity. Qed.

(** X19.  The "Missing Values" metric is zero exactly when no cell of the
    frame is missing. *)
Theorem missing_values_zero_iff_complete df :
  missing_values df = 0 <-> complete df.
Proof.
  destruct df as [n l]. unfold complete. cbn [series].
  induction l as [|s r IH].
  - split; [intros _ s [] | reflexivity].
  - rewrite missing_values_cons. split.
    + intros H s' [<-|Hs'] c Hc.
      * assert (Hz : sum_bools (map cell_isna (values s)) = 0) by lia.
        apply sum_bools_zero in Hz. rewrite Forall_forall in Hz.
        intros ->. specialize (Hz true). 
        assert (true = false) by (apply Hz; apply in_map_iff; exists NaN; auto).
        discriminate.
      * assert (Hr : missing_values (mkFrame n r) = 0) by lia.
        exact (proj1 IH Hr s' Hs' c Hc).
    + intros H.
      assert (Hs : sum_bools (map cell_isna (values s)) = 0).
      { apply sum_bools_zero. apply Forall_forall. intros b Hb.
        apply in_map_iff in Hb. destruct Hb as (c & <- & Hc).
        destruct c; try reflexivity. exfalso.
        exact (H s (or_introl eq_refl) NaN Hc eq_refl). }
      rewrite Hs. cbn. apply (proj2 IH). intros s' Hs' c Hc.
      exact (H s' (or_intror Hs') c Hc).
Qed.

(** X20.  The "Missing Values" metric of a rectangular frame is at most the
    number of its cells. *)
Theorem missing_values_at_most_the_cells df :
  rectangular df ->
  missing_values df <= len df * List.length (columns df).
Proof.
  destruct df as [n l]. unfold rectangular, len, columns. cbn [series n_rows].
  induction l as [|s r IH]; intros H.
  - cbn. lia.
  - pose proof (Forall_inv H) as Hs. pose proof (Forall_inv_tail H) as Hr.
    cbn beta in Hs. rewrite missing_values_cons.
    specialize (IH Hr). cbn [map List.length].
    pose proof (sum_bools_le (map cell_isna (values s))) as Hb.
    rewrite length_map, Hs in Hb. lia.
Qed.

End TableFacts.

(** ** The further facts at the inputs of the scenarios *)

Module RunExamples.
Import Json Frame Csv App Scenario JsonFacts FrameFacts AppFacts HistoryFacts RunFacts
  TableFacts.

Lemma reads_names : read_csv_plain names_csv = ok names.
Proof. vm_compute. reflexivity. Qed.

(** X1, at a history file that holds one record instead of a list. *)
Lemma bare_record_is_refused :
  save_user_history history_file (record_json new_record)
    (with_history bare_record)
  = (with_history bare_record, raise AttributeError).
Proof.
  apply (history_that_is_no_list_is_refused history_file
           (record_json new_record) (with_history bare_record) bare_record
           (JObj [(str_of "filename", JStr "old.csv");
                  (str_of "rows", JInt 10)])).
  - reflexivity.
  - vm_compute. reflexivity.
  - intros l. discriminate.
Defined.

(** X2, at two records saved to a missing history file. *)
Lemma two_appends_compose :
  snd (save_all history_file
         [record_json old_record; record_json new_record] fresh) = ok tt /\
  history_of
    (files (fst (save_all history_file
                   [record_json old_record; record_json new_record] fresh)))
    history_file
  = ok ([] ++ [record_json old_record; record_json new_record]).
Proof.
  apply (appends_compose history_file
           [record_json old_record; record_json new_record] fresh []).
  - repeat (constructor; [apply wf_record_json|]). constructor.
  - reflexivity.
Defined.

(** X5, at a first upload that cannot be parsed. *)
Lemma ragged_first_upload_changes_nothing :
  snd (main read_csv_plain no_export (visit ragged_file 0) fresh)
  = raise ParserError /\
  count_of (fst (main read_csv_plain no_export (visit ragged_file 0) fresh))
  = count_of fresh /\
  last_of (fst (main read_csv_plain no_export (visit ragged_file 0) fresh))
  = last_of fresh /\
  files (fst (main read_csv_plain no_export (visit ragged_file 0) fresh))
  = files fresh /\
  cached (fst (main read_csv_plain no_export (visit ragged_file 0) fresh))
  = None.
Proof.
  apply (failed_load_changes_nothing read_csv_plain no_export
           (visit ragged_file 0) fresh ragged_file ParserError).
  - reflexivity.
  - reflexivity.
  - vm_compute. reflexivity.
Defined.

(** X4, at the load of a second file after the first. *)
Lemma second_load_returns_first_dataset :
  load_data read_csv_plain second_file
    (fst (load_data read_csv_plain first_file fresh))
  = (fst (load_data read_csv_plain first_file fresh), ok sales).
Proof.
  apply (load_data_memoised read_csv_plain first_file second_file fresh sales).
  vm_compute. reflexivity.
Defined.

(** X9, at an upload next to a history file cut off in the middle. *)
Lemma torn_history_stops_the_run :
  snd (main read_csv_plain no_export (visit first_file 0)
         (with_history torn_history)) = raise JSONDecodeError /\
  count_of (fst (main read_csv_plain no_export (visit first_file 0)
                   (with_history torn_history)))
  = (count_of (with_history torn_history) + 1)%Z /\
  last_of (fst (main read_csv_plain no_export (visit first_file 0)
                  (with_history torn_history)))
  = Some (stamp_of (visit first_file 0)) /\
  files (fst (main read_csv_plain no_export (visit first_file 0)
                (with_history torn_history)))
  = files (with_history torn_history) /\
  page (fst (main read_csv_plain no_export (visit first_file 0)
               (with_history torn_history)))
  = [SidebarStats (count_of (with_history torn_history))
       (fmt (last_of (with_history torn_history)))].
Proof.
  apply (unreadable_history_stops_the_run read_csv_plain no_export
           (visit first_file 0) (with_history torn_history) first_file sales
           JSONDecodeError).
  - reflexivity.
  - vm_compute. reflexivity.
  - vm_compute. reflexivity.
Defined.


(** X10, at a session with an upload, a run without file and a run with
    another file. *)
Lemma mixed_runs_agree :
  exists added,
    history_of (files (session read_csv_plain no_export mixed_runs fresh))
      history_file = ok ([] ++ added) /\
    count_of (session read_csv_plain no_export mixed_runs fresh)
    = (count_of fresh + Z.of_nat (List.length added))%Z /\
    List.length added <= List.length mixed_runs.
Proof.
  apply (history_and_counter_agree read_csv_plain no_export mixed_runs fresh []).
  reflexivity.
Defined.

(** X11, at two runs that differ in the chart kind. *)
Lemma chart_pick_does_not_reach_the_state :
  core (fst (main read_csv_plain no_export (visit first_file 0) fresh))
  = core (fst (main read_csv_plain no_export (visit first_file 2) fresh)).
Proof.
  apply (picks_do_not_reach_the_state read_csv_plain no_export
           (visit first_file 0) (visit first_file 2) fresh); reflexivity.
Defined.

(** X14, at a file of two text columns. *)
Lemma names_page_ends_at_the_chart :
  exists fg,
    page (fst (main read_csv_plain no_export (visit names_file 0) fresh))
    = SidebarStats (count_of fresh) (fmt (last_of fresh)) :: overview names fg /\
    fig_x fg = selectbox (columns names) (x_choice (visit names_file 0)) /\
    fig_y fg = None /\
    snd (main read_csv_plain no_export (visit names_file 0) fresh)
    = raise ValueError /\
    count_of (fst (main read_csv_plain no_export (visit names_file 0) fresh))
    = (count_of fresh + 1)%Z /\
    history_of
      (files (fst (main read_csv_plain no_export (visit names_file 0) fresh)))
      history_file
    = ok ([] ++ [analysis_info names_file
                   (JStr (stamp_of (visit names_file 0))) names]).
Proof.
  apply (without_numeric_column_the_page_ends_at_the_chart read_csv_plain
           no_export (visit names_file 0) fresh names_file names []).
  - reflexivity.
  - vm_compute. reflexivity.
  - reflexivity.
  - reflexivity.
Defined.

(** X13, at the name of the uploaded file. *)
Lemma upload_is_not_written :
  files (fst (main read_csv_plain no_export (visit first_file 0) fresh))
    "first.csv"
  = files fresh "first.csv".
Proof.
  apply (run_writes_two_files_at_most read_csv_plain no_export
           (visit first_file 0) fresh "first.csv"); discriminate.
Defined.

(** X12, at two more uploads after the first. *)
Lemma sales_are_kept :
  cached (session read_csv_plain no_export
            [visit second_file 0; visit ragged_file 1] after_first_upload)
  = Some sales /\
  parses (session read_csv_plain no_export
            [visit second_file 0; visit ragged_file 1] after_first_upload)
  = parses after_first_upload.
Proof.
  apply (first_dataset_is_kept read_csv_plain no_export
           [visit second_file 0; visit ragged_file 1] after_first_upload sales).
  vm_compute. reflexivity.
Defined.

(** X15, at the example button. *)
Lemma example_download_is_the_sample :
  (uploaded_file example_request = None /\
   example_clicked example_request = true /\
   no_export sales = no_export (example_data example_request) /\
   "example.csv" = "example.csv") \/
  (exists f df,
     uploaded_file example_request = Some f /\
     snd (load_data read_csv_plain f fresh) = ok df /\
     download_clicked example_request = true /\
     no_export sales = no_export df /\
     "example.csv"
     = ("processed_data_" ++ strftime_stamp (now_export example_request)
        ++ ".csv")%string).
Proof.
  apply (downloads_offer_loaded_data read_csv_plain no_export example_request
           fresh "Download Example Dataset" (no_export sales) "example.csv").
  vm_compute. auto.
Defined.

(** X16, at the example button pressed after an upload. *)
Lemma example_after_upload_counts_nothing :
  snd (main read_csv_plain no_export example_request after_first_upload)
  = ok tt /\
  count_of (fst (main read_csv_plain no_export example_request
                   after_first_upload))
  = count_of after_first_upload /\
  last_of (fst (main read_csv_plain no_export example_request
                  after_first_upload))
  = last_of after_first_upload /\
  cached (fst (main read_csv_plain no_export example_request
                 after_first_upload))
  = cached after_first_upload /\
  parses (fst (main read_csv_plain no_export example_request
                 after_first_upload))
  = parses after_first_upload /\
  history_of (files (fst (main read_csv_plain no_export example_request
                            after_first_upload))) history_file
  = history_of (files after_first_upload) history_file /\
  files (fst (main read_csv_plain no_export example_request
                after_first_upload))
  = (if example_clicked example_request
     then put_file "example.csv" (no_export (example_data example_request))
            (files after_first_upload)
     else files after_first_upload) /\
  page (fst (main read_csv_plain no_export example_request
               after_first_upload))
  = SidebarStats (count_of after_first_upload)
      (fmt (last_of after_first_upload))
    :: welcome_page no_export example_request.
Proof.
  apply (example_button_only_offers_a_download read_csv_plain no_export
           example_request after_first_upload).
  reflexivity.
Defined.

(** X17, at the three-row file. *)
Lemma sales_statistics_cover_the_columns :
  getitem sales (numeric_cols sales) = select_dtypes [float64; int64] sales /\
  (forall t, describe (getitem sales (numeric_cols sales)) = ok t ->
             map fst t = numeric_cols sales) /\
  map fst (corr (getitem sales (numeric_cols sales))) = numeric_cols sales.
Proof.
  apply (statistics_cover_the_numeric_columns sales).
  repeat constructor; cbn; intuition discriminate.
Defined.

(** X20, at the three-row file. *)
Lemma sales_missing_at_most_the_cells :
  missing_values sales <= len sales * List.length (columns sales).
Proof.
  apply (missing_values_at_most_the_cells sales).
  repeat constructor.
Defined.

End RunExamples.
